(** * WarRoomChat: the room session synchronizer, the mention detector,
      the presence classifier and the AI responder

    A shallow embedding of the chat client
    ([src/contexts/ChatContext.tsx], [src/hooks/useMentions.ts],
    [src/services/klusterAI.ts]) and of the stored procedure
    [get_room_participants_with_presence], with the properties the
    specification states about them.

    Conventions of the embedding.
    - A JavaScript string is a [string]: a sequence of 8-bit code units.
      Text is therefore covered up to code unit 255; [toLowerCase] and the
      regular expression class [\s] are written out for that range.
    - React state and refs of [ChatProvider] are the fields of one record,
      [ClientState]; a functional update [setCurrentRoom (prev => ...)] is
      applied at once.
    - An [async] function is cut at its [await]s: the part before a request
      and the part that resumes with the response are separate functions, so
      that a change event can be placed between them.
    - Instants are integers (milliseconds on the client, microseconds in the
      database). *)

From Stdlib Require Import Bool Arith ZArith List String Ascii Lia.
Import ListNotations.

Local Open Scope string_scope.
Local Open Scope list_scope.
Local Open Scope nat_scope.
Local Open Scope bool_scope.

(* ================================================================== *)
(** ** JavaScript strings *)
(* ================================================================== *)

Module JS.

Definition code (c : ascii) : nat := nat_of_ascii c.

(** The class [\s] on code units below 256: TAB, LF, VT, FF, CR, SPACE
    and NO-BREAK SPACE. *)
Definition isWhitespace (c : ascii) : bool :=
  let n := code c in
  ((9 <=? n) && (n <=? 13)) || (n =? 32) || (n =? 160).

(** [String.prototype.toLowerCase], one code unit at a time: A-Z and the
    Latin-1 capitals (all of 192..222 but the multiplication sign 215)
    move up by 32. *)
Definition lowerChar (c : ascii) : ascii :=
  let n := code c in
  if ((65 <=? n) && (n <=? 90))
     || ((192 <=? n) && (n <=? 222) && negb (n =? 215))
  then ascii_of_nat (n + 32)
  else c.

Fixpoint toLowerCase (s : string) : string :=
  match s with
  | EmptyString => EmptyString
  | String c s' => String (lowerChar c) (toLowerCase s')
  end.

Fixpoint startsWith (s p : string) {struct p} : bool :=
  match p with
  | EmptyString => true
  | String c p' =>
      match s with
      | EmptyString => false
      | String d s' => Ascii.eqb c d && startsWith s' p'
      end
  end.

Fixpoint includes (s needle : string) : bool :=
  startsWith s needle
  || match s with
     | EmptyString => false
     | String _ s' => includes s' needle
     end.

(** [s[i]]: [None] stands for [undefined]. *)
Definition charAt (s : string) (i : nat) : option ascii := String.get i s.

(** [/\s/.test(s[i])]; [undefined] is tested as the text "undefined",
    which has no white space. *)
Definition testWhitespace (o : option ascii) : bool :=
  match o with
  | Some c => isWhitespace c
  | None => false
  end.

(** [s.slice(from, to)] for non-negative arguments. *)
Definition slice (s : string) (from to : nat) : string :=
  String.substring from (to - from) s.

(** [s.substring(0, n)]. *)
Definition take (n : nat) (s : string) : string := String.substring 0 n s.

(** [s.replace(/\s+/g, '')]. *)
Fixpoint stripWhitespace (s : string) : string :=
  match s with
  | EmptyString => EmptyString
  | String c s' =>
      if isWhitespace c then stripWhitespace s'
      else String c (stripWhitespace s')
  end.

Fixpoint trimStart (s : string) : string :=
  match s with
  | EmptyString => EmptyString
  | String c s' => if isWhitespace c then trimStart s' else s
  end.

Fixpoint rev (s : string) : string :=
  match s with
  | EmptyString => EmptyString
  | String c s' => String.append (rev s') (String c EmptyString)
  end.

Definition trimEnd (s : string) : string := rev (trimStart (rev s)).

Definition trim (s : string) : string := trimEnd (trimStart s).

Definition isEmpty (s : string) : bool :=
  match s with EmptyString => true | _ => false end.

End JS.

(* ================================================================== *)
(** ** The mention detector ([useMentions]) *)
(* ================================================================== *)

Module Mentions.

Inductive OptionType := TUser | TAi.

Record MentionOption := mkOption {
  opt_id : string;
  opt_name : string;
  opt_type : OptionType;
  opt_color : option string
}.

Record Participant := mkParticipant {
  p_id : string;
  p_name : string;
  p_color : string
}.

Record Position := mkPosition { top : Z; left : Z }.

Record MentionState := mkMentionState {
  isOpen : bool;
  query : string;
  options : list MentionOption;
  selectedIndex : nat;
  position : Position;
  mentionStart : Z
}.

Definition initialState : MentionState :=
  mkMentionState false EmptyString [] 0 (mkPosition 0 0) (-1).

Definition close (prev : MentionState) : MentionState :=
  mkMentionState false (query prev) (options prev) (selectedIndex prev)
                 (position prev) (mentionStart prev).

(** [text[i] === '@']. *)
Definition isAt (o : option ascii) : bool :=
  match o with
  | Some c => Ascii.eqb c "@"
  | None => false
  end.

Section Hook.

Variable participants : list Participant.
Variable isAIMuted : bool.

Definition getAllMentionOptions : list MentionOption :=
  (if isAIMuted then []
   else [mkOption "ai" "AI Assistant" TAi None])
  ++ map (fun p => mkOption (p_id p) (p_name p) TUser (Some (p_color p)))
         participants.

Definition filterOptions (q : string) : list MentionOption :=
  let allOptions := getAllMentionOptions in
  if JS.isEmpty (JS.trim q) then allOptions
  else
    let lowerQuery := JS.trim (JS.toLowerCase q) in
    filter (fun o =>
              let name := JS.toLowerCase (opt_name o) in
              let nameNoSpaces := JS.stripWhitespace name in
              JS.includes name lowerQuery
              || JS.includes nameNoSpaces lowerQuery
              || JS.startsWith name lowerQuery
              || JS.startsWith nameNoSpaces lowerQuery)
           allOptions.

(** The backward loop [for (i = cursorPosition - 1; i >= 0; i--)]:
    [scan text n] has the indices [n-1, ..., 0] left to visit and
    returns the value of [mentionStart] when the loop ends. *)
Fixpoint scan (text : string) (n : nat) : Z :=
  match n with
  | O => (-1)%Z
  | S i =>
      if isAt (JS.charAt text i) then
        if (i =? 0) || JS.testWhitespace (JS.charAt text (i - 1))
        then Z.of_nat i
        else scan text i
      else if JS.testWhitespace (JS.charAt text i) then (-1)%Z
      else scan text i
  end.

(** [detectMention(text, cursorPosition, textareaElement)]; [pos] is
    what [calculateDropdownPosition] reads off the page layout. *)
Definition detectMention (prev : MentionState) (text : string)
           (cursorPosition : nat) (pos : Position) : MentionState :=
  let start := scan text cursorPosition in
  if (start =? -1)%Z then close prev
  else
    let q := JS.slice text (Z.to_nat start + 1) cursorPosition in
    if JS.includes q " " then close prev
    else mkMentionState true q (filterOptions q) 0 pos start.

End Hook.

End Mentions.

(* ================================================================== *)
(** ** The presence classifier (stored procedure
       [get_room_participants_with_presence]) *)
(* ================================================================== *)

Module Storage.

(** [timestamptz]: microseconds. *)
Definition timestamptz := Z.

Record Profile := mkProfile {
  prof_id : string;
  prof_name : string;
  prof_color : string
}.

Record RoomParticipant := mkRoomParticipant {
  rp_room_id : string;
  rp_user_id : string;
  rp_joined_at : timestamptz
}.

(** A row of [messages]; [None] is SQL NULL. *)
Record Message := mkMessage {
  msg_id : string;
  msg_room_id : option string;
  msg_user_id : option string;
  msg_content : string;
  msg_is_ai : option bool;
  msg_created_at : timestamptz
}.

Record Database := mkDatabase {
  profiles : list Profile;
  room_participants : list RoomParticipant;
  messages : list Message
}.

(** A row of the table the procedure returns. *)
Record PresenceRow := mkPresenceRow {
  user_id : string;
  name : string;
  color : string;
  is_online : bool;
  last_seen : timestamptz
}.

(** [interval '10 minutes']. *)
Definition ten_minutes : Z := (10 * 60 * 1000000)%Z.

Definition optEqb (o : option string) (s : string) : bool :=
  match o with
  | Some x => String.eqb x s
  | None => false
  end.

(** [WHERE room_id = p_room_id AND is_ai = false], one group of the
    [GROUP BY user_id]. *)
Definition in_group (p_room_id uid : string) (m : Message) : bool :=
  optEqb (msg_room_id m) p_room_id
  && match msg_is_ai m with Some false => true | _ => false end
  && optEqb (msg_user_id m) uid.

(** [MAX(created_at)]; NULL on an empty group. *)
Fixpoint max_created_at (ms : list Message) : option timestamptz :=
  match ms with
  | [] => None
  | m :: rest =>
      match max_created_at rest with
      | None => Some (msg_created_at m)
      | Some t => Some (Z.max (msg_created_at m) t)
      end
  end.

(** The sub-select [m], joined on [m.user_id = rp.user_id]. *)
Definition last_message_time (db : Database) (p_room_id uid : string)
  : option timestamptz :=
  max_created_at (filter (in_group p_room_id uid) (messages db)).

(** [CASE WHEN m.last_message_time > now() - interval '10 minutes'
     THEN true ELSE false END]; a NULL comparison takes the ELSE. *)
Definition online_case (last : option timestamptz) (now : timestamptz)
  : bool :=
  match last with
  | Some t => (now - ten_minutes <? t)%Z
  | None => false
  end.

Definition coalesce (o : option timestamptz) (d : timestamptz)
  : timestamptz :=
  match o with Some t => t | None => d end.

Definition presence_row (db : Database) (p_room_id : string)
           (now : timestamptz) (rp : RoomParticipant) (p : Profile)
  : PresenceRow :=
  let last := last_message_time db p_room_id (rp_user_id rp) in
  mkPresenceRow (prof_id p) (prof_name p) (prof_color p)
                (online_case last now)
                (coalesce last (rp_joined_at rp)).

(** [FROM room_participants rp JOIN profiles p ON p.id = rp.user_id
     ... WHERE rp.room_id = p_room_id], before the ORDER BY. *)
Definition joined_rows (db : Database) (p_room_id : string)
           (now : timestamptz) : list PresenceRow :=
  flat_map
    (fun rp =>
       map (presence_row db p_room_id now rp)
           (filter (fun p => String.eqb (prof_id p) (rp_user_id rp))
                   (profiles db)))
    (filter (fun rp => String.eqb (rp_room_id rp) p_room_id)
            (room_participants db)).

(** [ORDER BY is_online DESC, last_seen DESC]: [before a b] when [a] may
    stand before [b]. *)
Definition before (a b : PresenceRow) : bool :=
  match is_online a, is_online b with
  | true, false => true
  | false, true => false
  | _, _ => (last_seen b <=? last_seen a)%Z
  end.

Fixpoint insert_row (r : PresenceRow) (rows : list PresenceRow)
  : list PresenceRow :=
  match rows with
  | [] => [r]
  | x :: rest => if before r x then r :: rows else x :: insert_row r rest
  end.

Fixpoint order_by (rows : list PresenceRow) : list PresenceRow :=
  match rows with
  | [] => []
  | r :: rest => insert_row r (order_by rest)
  end.

(** The [SELECT] of the [RETURN QUERY], as SQL evaluates it once every
    name of it is resolved. *)
Definition presence_query (db : Database) (p_room_id : string)
           (now : timestamptz) : list PresenceRow :=
  order_by (joined_rows db p_room_id now).

(** *** The names of the procedure *)

(** How a call of a procedure ends: with the rows of its [RETURN QUERY],
    or with an error raised, given by its SQLSTATE and its text. *)
Inductive ProcedureResult (A : Type) :=
| Rows (rows : A)
| Raised (sqlstate message : string).
Arguments Rows {A} rows.
Arguments Raised {A} sqlstate message.

(** A column reference as the query writes it: qualified by a table or
    an alias, or bare; [ref_from] lists the columns of the tables of the
    [FROM] clause a bare reference stands under. *)
Record ColumnRef := mkColumnRef {
  ref_qualifier : option string;
  ref_name : string;
  ref_from : list string
}.

Definition qualified (q column : string) : ColumnRef :=
  mkColumnRef (Some q) column [].

Definition bare (column : string) (from : list string) : ColumnRef :=
  mkColumnRef None column from.

(** The columns of [messages]: those of its [CREATE TABLE] and the three
    added later. *)
Definition messages_columns : list string :=
  ["id"; "room_id"; "user_id"; "content"; "is_ai"; "created_at";
   "replying_to"; "user_name"; "user_color"].

(** The variables of the body: the columns of [RETURNS TABLE], which are
    output parameters, and the parameter. *)
Definition procedure_variables : list string :=
  ["user_id"; "name"; "color"; "is_online"; "last_seen"; "p_room_id"].

(** The column references of the body, in the order they are written.
    The outer query qualifies every column and names the parameter
    bare, under tables that have no such column; the sub-select on
    [messages] names its columns bare. *)
Definition procedure_references : list ColumnRef :=
  [qualified "p" "id"; qualified "p" "name"; qualified "p" "color";
   qualified "m" "last_message_time"; qualified "m" "last_message_time";
   qualified "rp" "joined_at";
   qualified "p" "id"; qualified "rp" "user_id";
   bare "user_id" messages_columns; bare "created_at" messages_columns;
   bare "room_id" messages_columns; bare "p_room_id" messages_columns;
   bare "is_ai" messages_columns; bare "user_id" messages_columns;
   qualified "m" "user_id"; qualified "rp" "user_id";
   qualified "rp" "room_id";
   bare "p_room_id" ["room_id"; "user_id"; "joined_at"; "id"; "name";
                     "color"; "last_message_time"];
   qualified "m" "last_message_time"; qualified "m" "last_message_time";
   qualified "rp" "joined_at"].

Definition mentioned (name : string) (names : list string) : bool :=
  existsb (String.eqb name) names.

(** The body has no [#variable_conflict] directive, so a bare name that
    is both a variable and a column of a table in scope is an error. No
    variable is a record, so a qualified name is a column. *)
Definition is_ambiguous (r : ColumnRef) : bool :=
  match ref_qualifier r with
  | Some _ => false
  | None => mentioned (ref_name r) procedure_variables
            && mentioned (ref_name r) (ref_from r)
  end.

Definition quote : string := String (ascii_of_nat 34) EmptyString.

(** [column reference "c" is ambiguous], SQLSTATE 42702. *)
Definition ambiguous_column (c : string) : string :=
  String.append "column reference "
    (String.append quote
       (String.append c (String.append quote " is ambiguous"))).

(** A call of the procedure: its names are resolved first, and the query
    is evaluated only when none is ambiguous. *)
Definition get_room_participants_with_presence
           (db : Database) (p_room_id : string) (now : timestamptz)
  : ProcedureResult (list PresenceRow) :=
  match find is_ambiguous procedure_references with
  | Some r => Raised "42702" (ambiguous_column (ref_name r))
  | None => Rows (presence_query db p_room_id now)
  end.

End Storage.

(* ================================================================== *)
(** ** Results of calls *)
(* ================================================================== *)

(** What a [throw] carries: an [Error] object with its message, or any
    other value. *)
Inductive Thrown :=
| ErrorObj (message : string)
| NonError (description : string).

(** How a call ends: it returns, or it throws (an [async] function:
    its promise is fulfilled, or rejected). *)
Inductive Outcome (A : Type) :=
| Returned (a : A)
| Threw (e : Thrown).
Arguments Returned {A} a.
Arguments Threw {A} e.

(** [try { body } catch (error) { handler }]. *)
Definition try_catch {A} (body : Outcome A) (handler : Thrown -> Outcome A)
  : Outcome A :=
  match body with
  | Returned a => Returned a
  | Threw e => handler e
  end.

(* ================================================================== *)
(** ** The AI responder ([KlusterAIService]) *)
(* ================================================================== *)

Module KlusterAI.

Inductive Role := system | user | assistant.

Record ChatTurn := mkTurn { role : Role; content : string }.

(** The body of [client.chat.completions.create]; the temperature 0.7
    is kept as tenths. *)
Record Request := mkRequest {
  model : string;
  max_tokens : nat;
  temperature_tenths : nat;
  top_p : nat;
  req_messages : list ChatTurn
}.

(** The part of a completion the code reads:
    [completion.choices[0]?.message?.content]. *)
Record ChoiceMessage := mkChoiceMessage { msg_content : option string }.
Record Choice := mkChoice { message : option ChoiceMessage }.
Record Completion := mkCompletion { choices : option (list Choice) }.

(** How [Promise.race([completionPromise, timeoutPromise])] settles. *)
Inductive RaceOutcome :=
| Resolved (c : Completion)
| Rejected (e : Thrown).

(** The rejection of [timeoutPromise] after 20000 ms. *)
Definition timeout_ms : Z := 20000%Z.
Definition timeoutError : Thrown := ErrorObj "AI response timeout".

Definition nl : string := String (ascii_of_nat 10) EmptyString.
Definition dq : string := String (ascii_of_nat 34) EmptyString.

Definition concat_all (parts : list string) : string :=
  fold_right String.append EmptyString parts.

Definition systemPrompt (roomName : string) : string :=
  concat_all
    [ "You are an AI assistant in ChatMind, a collaborative chat platform. You're participating in a room called ";
      dq; roomName; dq; "."; nl; nl;
      "INSTRUCTIONS:"; nl;
      "- Be helpful, collaborative, and concise (keep responses under 200 words)"; nl;
      "- Stay focused on topics related to this room: "; dq; roomName; dq; nl;
      "- Use a friendly, professional tone"; nl;
      "- Help facilitate productive discussions and decision-making"; nl;
      "- When users mention @AI, respond directly to their request"; nl;
      "- If asked about unrelated topics, politely redirect them back to the room's purpose"; nl; nl;
      "Remember: You should focus on topics relevant to "; dq; roomName; dq;
      ". Keep your responses concise and helpful." ].

(** [xs.slice(-n)]: the last [n] elements, all of them when there are
    fewer. *)
Definition slice_last {A} (n : nat) (xs : list A) : list A :=
  skipn (List.length xs - n) xs.

Definition buildRequest (messages : list ChatTurn) (roomName : string)
  : Request :=
  mkRequest "klusterai/Meta-Llama-3.1-8B-Instruct-Turbo" 300 7 1
            (mkTurn system (systemPrompt roomName) :: slice_last 5 messages).

Definition noResponse : string :=
  "I apologize, but I couldn't generate a response at this time.".
Definition timeoutFallback : string :=
  "I'm taking a bit longer than usual to respond. Let me try to help you quickly - could you please rephrase your question?".
Definition networkFallback : string :=
  "I'm having network connectivity issues right now. Please try mentioning @AI again in a moment!".
Definition authFallback : string :=
  "I'm having authentication issues with my AI service. Please try again later or contact support if this persists.".
Definition genericFallback : string :=
  "I'm having trouble connecting to my AI service right now. Please try mentioning @AI again in a moment, or feel free to continue your conversation - I'll be back soon!".

(** [a || b] on texts: the empty text is falsy. *)
Definition orElse (o : option string) (d : string) : string :=
  match o with
  | Some s => if JS.isEmpty s then d else s
  | None => d
  end.

(** The [try] block once the race has settled. Reading [choices[0]] of a
    completion without [choices] is a TypeError. *)
Definition generateResponse_try (race : RaceOutcome) : Outcome string :=
  match race with
  | Rejected e => Threw e
  | Resolved completion =>
      match choices completion with
      | None => Threw (ErrorObj "Cannot read properties of undefined (reading '0')")
      | Some cs =>
          let c :=
            match cs with
            | [] => None
            | first :: _ =>
                match message first with
                | None => None
                | Some m => msg_content m
                end
            end in
          Returned (orElse c noResponse)
      end
  end.

(** The [catch] block. *)
Definition generateResponse_catch (error : Thrown) : Outcome string :=
  match error with
  | ErrorObj message =>
      if String.eqb message "AI response timeout" then
        Returned timeoutFallback
      else if JS.includes message "fetch" || JS.includes message "network"
      then Returned networkFallback
      else if JS.includes message "401" then Returned authFallback
      else Returned genericFallback
  | NonError _ => Returned genericFallback
  end.

(** [generateResponse(messages, roomName)]: the request it sends, and
    how it ends given how the race settles. *)
Definition generateResponse (messages : list ChatTurn) (roomName : string)
           (race : RaceOutcome) : Request * Outcome string :=
  (buildRequest messages roomName,
   try_catch (generateResponse_try race) generateResponse_catch).

(** [testConnection()]: the probe; [true] exactly on a completion with a
    non-empty first content, [false] on anything else, a rejection or the
    8000 ms timeout included. *)
Definition testConnection (race : RaceOutcome) : bool :=
  match race with
  | Resolved (mkCompletion (Some (mkChoice (Some (mkChoiceMessage (Some s))) :: _))) =>
      negb (JS.isEmpty s)
  | _ => false
  end.

End KlusterAI.

(* ================================================================== *)
(** ** The room session synchronizer ([ChatProvider]) *)
(* ================================================================== *)

Module Chat.

(** *** Data *)

Module AuthUser.
Record t := mk { id : string; name : string; color : string }.
End AuthUser.

Module ReplyingTo.
Record t := mk { userId : string; userName : string; content : string }.
End ReplyingTo.

Module ChatMessage.
Record t := mk {
  id : string;
  roomId : string;
  userId : string;
  userName : string;
  userColor : string;
  content : string;
  isAI : bool;
  timestamp : Z;
  replyingTo : option ReplyingTo.t
}.
End ChatMessage.

Module ChatUser.
Record t := mk {
  id : string;
  name : string;
  color : string;
  isOnline : bool;
  lastSeen : option Z
}.
End ChatUser.

Module RoomSettings.
Record t := mk {
  roomId : string;
  isAIMuted : bool;
  aiMutedBy : option string;
  aiMutedByName : option string;
  aiMutedAt : option Z
}.
End RoomSettings.

Module ChatRoom.
Record t := mk {
  id : string;
  name : string;
  participants : list ChatUser.t;
  messages : list ChatMessage.t;
  settings : RoomSettings.t;
  createdAt : Z
}.

Definition withMessages (r : t) (ms : list ChatMessage.t) : t :=
  mk (id r) (name r) (participants r) ms (settings r) (createdAt r).
Definition withParticipants (r : t) (ps : list ChatUser.t) : t :=
  mk (id r) (name r) ps (messages r) (settings r) (createdAt r).
Definition withSettings (r : t) (s : RoomSettings.t) : t :=
  mk (id r) (name r) (participants r) (messages r) s (createdAt r).
End ChatRoom.

(** *** What the storage gateway answers *)

Record PostgrestError := mkPgError { pg_code : string; pg_message : string }.

(** The pair [{ data, error }] a request resolves to. *)
Record Response (A : Type) := mkResponse {
  data : option A;
  error : option PostgrestError
}.
Arguments mkResponse {A} data error.
Arguments data {A} r.
Arguments error {A} r.

(** An awaited request resolves to a response, or rejects. The gateway
    client reports a failed request in the [error] of its answer (so does
    the stand-in client of [lib/supabase.ts]); the rejection is what the
    [catch] blocks of the provider are there for. *)
Definition Awaited (A : Type) := Outcome (Response A).

(** The column [replying_to] as it arrives: null, a text with what
    [JSON.parse] makes of it ([None]: it throws), an object, or a value
    of another type. *)
Inductive ReplyField :=
| ReplyNull
| ReplyText (text : string) (parsed : option ReplyingTo.t)
| ReplyObject (r : ReplyingTo.t)
| ReplyOther.

(** A row of [messages] as the client receives it. A null text column is
    the empty text and a null [is_ai] is [false]: [x || d] treats them
    alike. *)
Record MessageRow := mkMessageRow {
  row_id : string;
  row_room_id : string;
  row_user_id : string;
  row_user_name : string;
  row_user_color : string;
  row_content : string;
  row_is_ai : bool;
  row_created_at : Z;
  row_replying_to : ReplyField
}.

Record RoomRow := mkRoomRow {
  room_id : string;
  room_name : string;
  room_created_by : string;
  room_created_at : Z
}.

Record SettingsRow := mkSettingsRow {
  is_ai_muted : bool;
  ai_muted_by : option string;
  ai_muted_by_name : option string;
  ai_muted_at : option Z
}.

(** [new Date(t)]: a database instant (microseconds) as a client instant
    (milliseconds). *)
Definition dateOf (t : Z) : Z := (t / 1000)%Z.

(** [s || d]. *)
Definition orDefault (s d : string) : string :=
  if JS.isEmpty s then d else s.

(** *** Requests and timers *)

(** The requests the provider issues. Every AI insert names its author
    'AI Assistant' with the color '#8B5CF6'; these constants are left out
    of the constructors. *)
Inductive Call :=
| RpcToggleRoomAiMute (p_room_id p_user_id : string)
| RpcJoinRoomAsParticipant (p_room_id p_user_id : string)
| RpcCreateRoomWithParticipant (p_room_id p_room_name p_user_id : string)
| SelectRoom (roomId : string)
| RpcGetRoomParticipantsWithPresence (p_room_id : string)
| RpcGetRoomSettings (p_room_id : string)
| SelectMessages (roomId : string)
| InsertMessage (room_id user_id user_name user_color content : string)
| RpcInsertAiMessage (p_room_id p_content : string)
| RpcInsertAiMessageWithReply (p_room_id p_content : string)
                              (p_replying_to : option ReplyingTo.t)
| TestConnection
| CompletionsCreate (request : KlusterAI.Request)
| Subscribe (channel : string)
| RemoveChannel (channel : string).

Inductive Timer :=
| Timeout (ms : Z)
| Interval (ms : Z) (roomId : string).

(** *** The state of the provider *)

Record ClientState := mkState {
  user : option AuthUser.t;
  supabaseConfigured : bool;
  currentRoom : option ChatRoom.t;
  rooms : list ChatRoom.t;
  isConnected : bool;
  isAIResponding : bool;
  currentRoomRef : option ChatRoom.t;
  messagesChannelRef : option string;
  participantsChannelRef : option string;
  settingsChannelRef : option string;
  presenceUpdateInterval : option Timer;
  aiResponseTimeoutRef : option Timer;
  pendingMessagesRef : list string
}.

Definition initialState (u : option AuthUser.t) (configured : bool)
  : ClientState :=
  mkState u configured None [] false false None None None None None None [].

Definition setRoomAndRef (cr ref : option ChatRoom.t) (st : ClientState)
  : ClientState :=
  mkState (user st) (supabaseConfigured st) cr (rooms st)
          (isConnected st) (isAIResponding st) ref
          (messagesChannelRef st) (participantsChannelRef st)
          (settingsChannelRef st) (presenceUpdateInterval st)
          (aiResponseTimeoutRef st) (pendingMessagesRef st).

Definition setRooms (rs : list ChatRoom.t) (st : ClientState)
  : ClientState :=
  mkState (user st) (supabaseConfigured st) (currentRoom st) rs
          (isConnected st) (isAIResponding st) (currentRoomRef st)
          (messagesChannelRef st) (participantsChannelRef st)
          (settingsChannelRef st) (presenceUpdateInterval st)
          (aiResponseTimeoutRef st) (pendingMessagesRef st).

Definition setAI (responding : bool) (timer : option Timer)
           (st : ClientState) : ClientState :=
  mkState (user st) (supabaseConfigured st) (currentRoom st) (rooms st)
          (isConnected st) responding (currentRoomRef st)
          (messagesChannelRef st) (participantsChannelRef st)
          (settingsChannelRef st) (presenceUpdateInterval st)
          timer (pendingMessagesRef st).

Definition setPending (p : list string) (st : ClientState) : ClientState :=
  mkState (user st) (supabaseConfigured st) (currentRoom st) (rooms st)
          (isConnected st) (isAIResponding st) (currentRoomRef st)
          (messagesChannelRef st) (participantsChannelRef st)
          (settingsChannelRef st) (presenceUpdateInterval st)
          (aiResponseTimeoutRef st) p.

Definition setChannels (m p s : option string) (i t : option Timer)
           (st : ClientState) : ClientState :=
  mkState (user st) (supabaseConfigured st) (currentRoom st) (rooms st)
          (isConnected st) (isAIResponding st) (currentRoomRef st)
          m p s i t (pendingMessagesRef st).

(** [Set.prototype.add] and [delete]: a set of texts in insertion
    order. *)
Definition set_add (x : string) (s : list string) : list string :=
  if existsb (String.eqb x) s then s else s ++ [x].

Definition set_delete (x : string) (s : list string) : list string :=
  filter (fun y => negb (String.eqb y x)) s.

(** [setCurrentRoom(prevRoom => ...)] where the updater, on a room,
    either builds an updated room, which it also stores in
    [currentRoomRef], or gives [prevRoom] back ([None]). *)
Definition updateCurrentRoom (f : ChatRoom.t -> option ChatRoom.t)
           (st : ClientState) : ClientState :=
  match currentRoom st with
  | Some prevRoom =>
      match f prevRoom with
      | Some updatedRoom =>
          setRoomAndRef (Some updatedRoom) (Some updatedRoom) st
      | None => st
      end
  | None => st
  end.

(** [const isAIMuted = currentRoom?.settings?.isAIMuted || false]. *)
Definition isAIMuted (st : ClientState) : bool :=
  match currentRoom st with
  | Some r => RoomSettings.isAIMuted (ChatRoom.settings r)
  | None => false
  end.

(** What [sendMessage] holds in its closure across its [await]s: the
    values of the render it was created in. *)
Record SendClosure := mkClosure {
  c_user : AuthUser.t;
  c_room : ChatRoom.t;
  c_isAIMuted : bool;
  c_content : string;
  c_tempId : string
}.

(** A callback handed to [setTimeout] or [setInterval], with its delay
    in milliseconds. *)
Inductive Task :=
| ClearAIResponding (ms : Z)
| AITurn (ms : Z) (closure : SendClosure)
| PresenceRefresh (ms : Z) (roomId : string).

(** What an operation leaves behind: how it ended, the state, the
    requests it issued and the callbacks it scheduled, in order. *)
Record Result (A : Type) := mkResult {
  outcome : Outcome A;
  state : ClientState;
  calls : list Call;
  scheduled : list Task
}.
Arguments mkResult {A} outcome state calls scheduled.
Arguments outcome {A} r.
Arguments state {A} r.
Arguments calls {A} r.
Arguments scheduled {A} r.

(** *** Loaders: each catches its own failures *)

Definition chatUserOfRow (p : Storage.PresenceRow) : ChatUser.t :=
  ChatUser.mk (Storage.user_id p)
              (orDefault (Storage.name p) "Unknown User")
              (orDefault (Storage.color p) "#6B7280")
              (Storage.is_online p)
              (Some (dateOf (Storage.last_seen p))).

Definition loadParticipantsWithPresence
           (resp : Awaited (list Storage.PresenceRow)) : list ChatUser.t :=
  match resp with
  | Threw _ => []
  | Returned r =>
      match error r with
      | Some _ => []
      | None =>
          match data r with
          | Some participants => map chatUserOfRow participants
          | None => []
          end
      end
  end.

Definition defaultSettings (roomId : string) : RoomSettings.t :=
  RoomSettings.mk roomId false None None None.

Definition loadRoomSettings (roomId : string)
           (resp : Awaited (list SettingsRow)) : RoomSettings.t :=
  match resp with
  | Threw _ => defaultSettings roomId
  | Returned r =>
      match error r with
      | Some _ => defaultSettings roomId
      | None =>
          match data r with
          | Some (s :: _) =>
              RoomSettings.mk roomId (is_ai_muted s) (ai_muted_by s)
                              (ai_muted_by_name s)
                              (option_map dateOf (ai_muted_at s))
          | _ => defaultSettings roomId
          end
      end
  end.

Definition parseReplyingTo (f : ReplyField) : option ReplyingTo.t :=
  match f with
  | ReplyNull => None
  | ReplyText text parsed => if JS.isEmpty text then None else parsed
  | ReplyObject r => Some r
  | ReplyOther => None
  end.

(** The conversion both [loadRoomMessages] and the insert handler
    apply to a row. *)
Definition messageOfRow (m : MessageRow) : ChatMessage.t :=
  ChatMessage.mk (row_id m) (row_room_id m)
                 (orDefault (row_user_id m) "unknown")
                 (orDefault (row_user_name m) "Unknown User")
                 (orDefault (row_user_color m) "#6B7280")
                 (row_content m) (row_is_ai m)
                 (dateOf (row_created_at m))
                 (parseReplyingTo (row_replying_to m)).

Definition loadRoomMessages (resp : Awaited (list MessageRow))
  : list ChatMessage.t :=
  match resp with
  | Threw _ => []
  | Returned r =>
      match error r with
      | Some _ => []
      | None =>
          match data r with
          | Some messages => map messageOfRow messages
          | None => []
          end
      end
  end.

(** *** Subscriptions *)

Definition removeIfSet (ch : option string) : list Call :=
  match ch with
  | Some c => [RemoveChannel c]
  | None => []
  end.

Definition cleanupSubscriptions (st : ClientState)
  : ClientState * list Call :=
  (setChannels None None None None None st,
   removeIfSet (messagesChannelRef st)
   ++ removeIfSet (participantsChannelRef st)
   ++ removeIfSet (settingsChannelRef st)).

Definition setupRealtimeSubscriptions (roomId : string) (st : ClientState)
  : ClientState * list Call * list Task :=
  if negb (supabaseConfigured st) then (st, [], [])
  else
    let (st1, removed) := cleanupSubscriptions st in
    let m := String.append "room-messages-" roomId in
    let p := String.append "room-participants-" roomId in
    let s := String.append "room-settings-" roomId in
    (setChannels (Some m) (Some p) (Some s)
                 (Some (Interval 60000 roomId)) (aiResponseTimeoutRef st1)
                 st1,
     removed ++ [Subscribe m; Subscribe p; Subscribe s],
     [PresenceRefresh 60000 roomId]).

(** *** The AI mention and the reply target *)

(** [content.includes('@AI') || content.toLowerCase().includes('@ai')]. *)
Definition mentionsAI (content : string) : bool :=
  JS.includes content "@AI" || JS.includes (JS.toLowerCase content) "@ai".

Definition looksLikeQuestion (content : string) : bool :=
  let lower := JS.toLowerCase content in
  JS.includes content "?"
  || JS.includes lower "how"
  || JS.includes lower "what"
  || JS.includes lower "why"
  || JS.includes lower "when"
  || JS.includes lower "where"
  || JS.includes lower "can you"
  || JS.includes lower "could you"
  || JS.includes lower "help".

(** The first loop of [findReplyTarget], over the messages most recent
    first. *)
Fixpoint firstPass (content : string) (newestFirst : list ChatMessage.t)
  : option ChatMessage.t :=
  match newestFirst with
  | [] => None
  | message :: older =>
      if ChatMessage.isAI message then firstPass content older
      else if mentionsAI content then Some message
      else if looksLikeQuestion (ChatMessage.content message)
           then Some message
           else firstPass content older
  end.

(** The second loop. *)
Fixpoint secondPass (newestFirst : list ChatMessage.t)
  : option ChatMessage.t :=
  match newestFirst with
  | [] => None
  | message :: older =>
      if negb (ChatMessage.isAI message) then Some message
      else secondPass older
  end.

Definition findReplyTarget (content : string)
           (recentMessages : list ChatMessage.t) : option ChatMessage.t :=
  match firstPass content (rev recentMessages) with
  | Some m => Some m
  | None => secondPass (rev recentMessages)
  end.

(** *** toggleAIMute *)

Definition toggleAIMute (st : ClientState) (rpc : Awaited string)
  : Result unit :=
  match currentRoom st, user st with
  | Some room, Some u =>
      let body :=
        match rpc with
        | Threw e => Threw e
        | Returned r =>
            match error r with
            | Some _ => Returned tt
            | None => Returned tt
            end
        end in
      mkResult (try_catch body (fun _ => Returned tt)) st
               [RpcToggleRoomAiMute (ChatRoom.id room) (AuthUser.id u)] []
  | _, _ => mkResult (Returned tt) st [] []
  end.

(** *** joinRoom *)

Record JoinEnv := mkJoinEnv {
  join_rpc : Awaited bool;
  join_room : Awaited RoomRow;
  join_participants : Awaited (list Storage.PresenceRow);
  join_settings : Awaited (list SettingsRow);
  join_messages : Awaited (list MessageRow)
}.

Definition notConfigured : Thrown :=
  ErrorObj "Supabase is not configured. Please check your environment variables.".

(** [setRooms(prevRooms => ...)] of [joinRoom]. *)
Definition upsertRoom (roomId : string) (room : ChatRoom.t)
           (prevRooms : list ChatRoom.t) : list ChatRoom.t :=
  if existsb (fun r => String.eqb (ChatRoom.id r) roomId) prevRooms
  then map (fun r => if String.eqb (ChatRoom.id r) roomId then room else r)
           prevRooms
  else prevRooms ++ [room].

(** [joinError || !joinResult], and the same test on the room row. *)
Definition rpcFailed (r : Response bool) : bool :=
  match error r, data r with
  | None, Some true => false
  | _, _ => true
  end.

Definition joinRoom (roomId : string) (st : ClientState) (env : JoinEnv)
  : Result bool :=
  if negb (supabaseConfigured st) then mkResult (Threw notConfigured) st [] []
  else
    match user st with
    | None => mkResult (Returned false) st [] []
    | Some u =>
        let c1 := [RpcJoinRoomAsParticipant roomId (AuthUser.id u)] in
        match join_rpc env with
        | Threw _ => mkResult (Returned false) st c1 []
        | Returned jr =>
            if rpcFailed jr then mkResult (Returned false) st c1 []
            else
              let c2 := c1 ++ [SelectRoom roomId] in
              match join_room env with
              | Threw _ => mkResult (Returned false) st c2 []
              | Returned rr =>
                  match error rr, data rr with
                  | None, Some roomData =>
                      let room :=
                        ChatRoom.mk
                          (room_id roomData) (room_name roomData)
                          (loadParticipantsWithPresence
                             (join_participants env))
                          (loadRoomMessages (join_messages env))
                          (loadRoomSettings roomId (join_settings env))
                          (dateOf (room_created_at roomData)) in
                      let '(st1, c3, tasks) :=
                        setupRealtimeSubscriptions roomId st in
                      let st2 := setRoomAndRef (Some room) (Some room) st1 in
                      let st3 := setRooms (upsertRoom roomId room (rooms st2))
                                          st2 in
                      mkResult (Returned true) st3
                               (c2 ++ [RpcGetRoomParticipantsWithPresence roomId;
                                       RpcGetRoomSettings roomId;
                                       SelectMessages roomId] ++ c3)
                               tasks
                  | _, _ => mkResult (Returned false) st c2 []
                  end
              end
        end
    end.

(** *** createRoom *)

Record CreateEnv := mkCreateEnv {
  create_roomId : string;
  create_now : Z;
  create_rpc : Awaited bool
}.

Definition createChatUser (authUser : AuthUser.t) : ChatUser.t :=
  ChatUser.mk (AuthUser.id authUser) (AuthUser.name authUser)
              (AuthUser.color authUser) true None.

Definition createFailure (r : Response bool) : Thrown :=
  ErrorObj (String.append "Failed to create room: "
              (match error r with
               | Some e => orDefault (pg_message e) "Unknown error"
               | None => "Unknown error"
               end)).

Definition createRoom (roomName : string) (st : ClientState)
           (env : CreateEnv) : Result unit :=
  if negb (supabaseConfigured st) then mkResult (Threw notConfigured) st [] []
  else
    match user st with
    | None => mkResult (Threw (ErrorObj "User not authenticated")) st [] []
    | Some u =>
        let roomId := create_roomId env in
        let c1 := [RpcCreateRoomWithParticipant roomId roomName
                                                (AuthUser.id u)] in
        match create_rpc env with
        | Threw e => mkResult (Threw e) st c1 []
        | Returned r =>
            if rpcFailed r then mkResult (Threw (createFailure r)) st c1 []
            else
              let newRoom :=
                ChatRoom.mk roomId roomName [createChatUser u] []
                            (defaultSettings roomId) (create_now env) in
              let st1 := setRooms (rooms st ++ [newRoom]) st in
              let st2 := setRoomAndRef (Some newRoom) (Some newRoom) st1 in
              let '(st3, c2, tasks) :=
                setupRealtimeSubscriptions roomId st2 in
              mkResult (Returned tt) st3 (c1 ++ c2) tasks
        end
    end.

(** *** sendMessage *)

(** The part up to the first [await]: the guard, the provisional id in
    the pending set, the optimistic message appended, the insert request
    issued. [None]: the guard returned. *)
Definition sendMessage_begin (content tempId : string) (now : Z)
           (st : ClientState) : option (SendClosure * ClientState * Call) :=
  match user st, currentRoom st with
  | Some u, Some room =>
      if negb (supabaseConfigured st) then None
      else
        let st1 := setPending (set_add tempId (pendingMessagesRef st)) st in
        let optimisticMessage :=
          ChatMessage.mk tempId (ChatRoom.id room) (AuthUser.id u)
                         (AuthUser.name u) (AuthUser.color u) content
                         false now None in
        let st2 :=
          updateCurrentRoom
            (fun prevRoom =>
               Some (ChatRoom.withMessages prevRoom
                       (ChatRoom.messages prevRoom ++ [optimisticMessage])))
            st1 in
        Some (mkClosure u room (isAIMuted st) content tempId, st2,
              InsertMessage (ChatRoom.id room) (AuthUser.id u)
                            (AuthUser.name u) (AuthUser.color u) content)
  | _, _ => None
  end.

(** The error branch: the provisional message is taken out. *)
Definition rollback (tempId : string) (st : ClientState) : ClientState :=
  updateCurrentRoom
    (fun prevRoom =>
       Some (ChatRoom.withMessages prevRoom
               (filter (fun m => negb (String.eqb (ChatMessage.id m) tempId))
                       (ChatRoom.messages prevRoom))))
    (setPending (set_delete tempId (pendingMessagesRef st)) st).

Definition realMessageOf (d : MessageRow) : ChatMessage.t :=
  ChatMessage.mk (row_id d) (row_room_id d) (row_user_id d)
                 (row_user_name d) (row_user_color d) (row_content d)
                 (row_is_ai d) (dateOf (row_created_at d)) None.

(** The success branch: the provisional message is replaced in place. *)
Definition reconcile (tempId : string) (d : MessageRow) (st : ClientState)
  : ClientState :=
  updateCurrentRoom
    (fun prevRoom =>
       Some (ChatRoom.withMessages prevRoom
               (map (fun m => if String.eqb (ChatMessage.id m) tempId
                              then realMessageOf d else m)
                    (ChatRoom.messages prevRoom))))
    (setPending (set_delete tempId (pendingMessagesRef st)) st).

(** The thrown PostgREST error object, named by its message. *)
Definition thrownOf (e : PostgrestError) : Thrown := NonError (pg_message e).

(** The part that resumes with the answer to the insert request. An
    answer with an error goes through the error branch; a rejection goes
    straight to the outer [catch], which throws it again. *)
Definition sendMessage_resume (cl : SendClosure) (resp : Awaited MessageRow)
           (st : ClientState) : Result unit :=
  match resp with
  | Threw e => mkResult (Threw e) st [] []
  | Returned r =>
      match error r with
      | Some e =>
          mkResult (Threw (thrownOf e)) (rollback (c_tempId cl) st) [] []
      | None =>
          let st1 :=
            match data r with
            | Some d => reconcile (c_tempId cl) d st
            | None => st
            end in
          if negb (c_isAIMuted cl) && mentionsAI (c_content cl) then
            mkResult (Returned tt)
                     (setAI true (Some (Timeout 25000)) st1) []
                     [ClearAIResponding 25000; AITurn 1500 cl]
          else mkResult (Returned tt) st1 [] []
      end
  end.

Record SendEnv := mkSendEnv {
  send_tempId : string;
  send_now : Z;
  send_insert : Awaited MessageRow
}.

(** [sendMessage(content)] with nothing arriving between the request and
    its answer. *)
Definition sendMessage (content : string) (st : ClientState)
           (env : SendEnv) : Result unit :=
  match sendMessage_begin content (send_tempId env) (send_now env) st with
  | None => mkResult (Returned tt) st [] []
  | Some (cl, st1, call) =>
      let r := sendMessage_resume cl (send_insert env) st1 in
      mkResult (outcome r) (state r) (call :: calls r) (scheduled r)
  end.

(** *** The AI turn (the callback scheduled after 1500 ms) *)

Definition unavailableMessage : string :=
  "I'm having trouble connecting to my AI service right now. Please try mentioning @AI again in a moment!".
Definition respondingTrouble : string :=
  "I'm having trouble responding right now. Please try mentioning @AI again!".
Definition connectingTrouble : string :=
  "I'm having trouble connecting right now. Please try mentioning @AI again in a moment!".

(** [setIsAIResponding(false)] and the safeguard timeout cleared. *)
Definition clearAIResponding (st : ClientState) : ClientState :=
  setAI false None st.

Definition refMessages (st : ClientState) : list ChatMessage.t :=
  match currentRoomRef st with
  | Some r => ChatRoom.messages r
  | None => []
  end.

(** The context handed to the responder. *)
Definition recentContext (messages : list ChatMessage.t)
  : list KlusterAI.ChatTurn :=
  map (fun m =>
         KlusterAI.mkTurn
           (if ChatMessage.isAI m then KlusterAI.assistant
            else KlusterAI.user)
           (String.append (ChatMessage.userName m)
              (String.append ": " (ChatMessage.content m))))
      (KlusterAI.slice_last 10
         (filter (fun m => negb (JS.startsWith (ChatMessage.id m) "temp_"))
                 messages)).

Definition excerpt (content : string) : string :=
  if 50 <? String.length content
  then String.append (JS.take 50 content) "..."
  else content.

Definition replyingToData (target : option ChatMessage.t)
  : option ReplyingTo.t :=
  match target with
  | Some t =>
      Some (ReplyingTo.mk (ChatMessage.userId t) (ChatMessage.userName t)
                          (excerpt (ChatMessage.content t)))
  | None => None
  end.

Record AIEnv := mkAIEnv {
  ai_probe : KlusterAI.RaceOutcome;
  ai_race : KlusterAI.RaceOutcome;
  ai_insert : Awaited string;
  ai_fallback_insert : Awaited string
}.

(** The [try] block of the callback; [Threw] hands over to its [catch]. *)
Definition aiTurn_try (cl : SendClosure) (st : ClientState) (env : AIEnv)
  : Result unit :=
  let roomId := ChatRoom.id (c_room cl) in
  if negb (KlusterAI.testConnection (ai_probe env)) then
    let st1 := clearAIResponding st in
    let c := [TestConnection; RpcInsertAiMessage roomId unavailableMessage] in
    match ai_fallback_insert env with
    | Threw e => mkResult (Threw e) st1 c []
    | Returned _ => mkResult (Returned tt) st1 c []
    end
  else
    let '(request, generated) :=
      KlusterAI.generateResponse (recentContext (refMessages st))
                                 (ChatRoom.name (c_room cl)) (ai_race env) in
    let c1 := [TestConnection; CompletionsCreate request] in
    match generated with
    | Threw e => mkResult (Threw e) st c1 []
    | Returned aiResponse =>
        let replyTarget := findReplyTarget (c_content cl) (refMessages st) in
        let c2 := c1 ++ [RpcInsertAiMessageWithReply
                           roomId aiResponse (replyingToData replyTarget)] in
        match ai_insert env with
        | Threw e => mkResult (Threw e) st c2 []
        | Returned r =>
            match error r with
            | Some _ =>
                let c3 := c2 ++ [RpcInsertAiMessage roomId respondingTrouble] in
                match ai_fallback_insert env with
                | Threw e => mkResult (Threw e) st c3 []
                | Returned _ => mkResult (Returned tt) st c3 []
                end
            | None => mkResult (Returned tt) st c2 []
            end
        end
    end.

Definition aiTurn (cl : SendClosure) (st : ClientState) (env : AIEnv)
  : Result unit :=
  let r := aiTurn_try cl st env in
  match outcome r with
  | Returned _ => r
  | Threw _ =>
      mkResult (Returned tt) (clearAIResponding (state r))
               (calls r ++ [RpcInsertAiMessage (ChatRoom.id (c_room cl))
                                               connectingTrouble])
               []
  end.

(** The safeguard callback armed for 25000 ms. *)
Definition aiResponseTimeout_fire (st : ClientState) : ClientState :=
  setAI false (aiResponseTimeoutRef st) st.

(** *** Change events *)

(** The insert handler up to its [await]. *)
Definition onMessageInsert_apply (roomId : string) (payload : MessageRow)
           (st : ClientState) : ClientState :=
  let newMessage := messageOfRow payload in
  let st1 := if ChatMessage.isAI newMessage then clearAIResponding st
             else st in
  let st2 := setPending (set_delete (ChatMessage.id newMessage)
                                    (pendingMessagesRef st1)) st1 in
  updateCurrentRoom
    (fun prevRoom =>
       if String.eqb (ChatRoom.id prevRoom) roomId then
         if existsb (fun m => String.eqb (ChatMessage.id m)
                                         (ChatMessage.id newMessage))
                    (ChatRoom.messages prevRoom)
         then None
         else Some (ChatRoom.withMessages prevRoom
                      (ChatRoom.messages prevRoom ++ [newMessage]))
       else None)
    st2.

(** Participants replaced wholesale: the end of the message handler, the
    participants handler and the periodic refresh. *)
Definition refreshParticipants (roomId : string)
           (resp : Awaited (list Storage.PresenceRow)) (st : ClientState)
  : ClientState :=
  updateCurrentRoom
    (fun prevRoom =>
       if String.eqb (ChatRoom.id prevRoom) roomId
       then Some (ChatRoom.withParticipants prevRoom
                    (loadParticipantsWithPresence resp))
       else None)
    st.

Definition onMessageInsert (roomId : string) (payload : MessageRow)
           (resp : Awaited (list Storage.PresenceRow)) (st : ClientState)
  : ClientState :=
  refreshParticipants roomId resp (onMessageInsert_apply roomId payload st).

Definition onSettingsChange (roomId : string)
           (resp : Awaited (list SettingsRow)) (st : ClientState)
  : ClientState :=
  updateCurrentRoom
    (fun prevRoom =>
       if String.eqb (ChatRoom.id prevRoom) roomId
       then Some (ChatRoom.withSettings prevRoom
                    (loadRoomSettings roomId resp))
       else None)
    st.

(** *** leaveRoom *)

Definition leaveRoom (st : ClientState) : ClientState * list Call :=
  match currentRoom st with
  | None => (st, [])
  | Some _ =>
      let (st1, removed) := cleanupSubscriptions st in
      let st2 := setPending [] st1 in
      let st3 := setRoomAndRef None None st2 in
      (setAI false (aiResponseTimeoutRef st3) st3, removed)
  end.

End Chat.

(* ================================================================== *)
(** ** The rest of the mention hook ([useMentions]) *)
(* ================================================================== *)

Module MentionActions.
Import Mentions.

(** [s.slice(from)], to the end of the text. *)
Definition sliceFrom (s : string) (from : nat) : string :=
  String.substring from (String.length s - from) s.

Inductive Direction := up | down.

(** What [selectMention] returns: the text as it was, or the new text
    with the new cursor offset. *)
Inductive SelectResult :=
| Unchanged (text : string)
| Replaced (newText : string) (newCursorPosition : nat).

(** The text a chosen option is written as. *)
Definition mentionTextOf (option : MentionOption) : string :=
  match opt_type option with
  | TAi => "@AI "
  | TUser =>
      String.append "@"
        (String.append (JS.stripWhitespace (JS.toLowerCase (opt_name option)))
                       " ")
  end.

(** [selectMention(option, text, cursorPosition)], with the state the
    hook holds. *)
Definition selectMention (st : MentionState) (option : MentionOption)
           (text : string) (cursorPosition : nat)
  : SelectResult * MentionState :=
  if (mentionStart st =? -1)%Z then (Unchanged text, st)
  else
    let start := Z.to_nat (mentionStart st) in
    let mentionText := mentionTextOf option in
    let beforeMention := JS.slice text 0 start in
    let afterCursor := sliceFrom text cursorPosition in
    (Replaced (String.append beforeMention
                 (String.append mentionText afterCursor))
              (start + String.length mentionText),
     close st).

Definition withSelectedIndex (st : MentionState) (i : nat) : MentionState :=
  mkMentionState (isOpen st) (query st) (options st) i (position st)
                 (mentionStart st).

(** [navigateMentions(direction)]. *)
Definition navigateMentions (direction : Direction) (prev : MentionState)
  : MentionState :=
  if negb (isOpen prev) || (List.length (options prev) =? 0) then prev
  else
    let n := List.length (options prev) in
    let newIndex :=
      match direction with
      | up => if 0 <? selectedIndex prev then selectedIndex prev - 1
              else n - 1
      | down => if selectedIndex prev <? n - 1 then selectedIndex prev + 1
                else 0
      end in
    withSelectedIndex prev newIndex.

(** [closeMentions()]. *)
Definition closeMentions (prev : MentionState) : MentionState := close prev.

(** [getSelectedOption()]; [None] is [null], or the [undefined] of an
    index past the end. *)
Definition getSelectedOption (st : MentionState) : option MentionOption :=
  if negb (isOpen st) || (List.length (options st) =? 0) then None
  else nth_error (options st) (selectedIndex st).

End MentionActions.

(* ================================================================== *)
(** ** The chat room component: the callers of the provider and of the
       mention hook *)
(* ================================================================== *)

Module ChatRoomView.
Import Chat.

(** The state of the component the handlers below touch. *)
Record ViewState := mkView {
  newMessage : string;
  isLoading : bool;
  cursorPosition : nat;
  mentionState : Mentions.MentionState
}.

(** [handleSendMessage()]: a draft that trims to nothing is not sent;
    otherwise the draft is cleared, the trimmed text sent, and put back
    as the draft when [sendMessage] throws. [None]: nothing was sent. *)
Definition handleSendMessage (ui : ViewState) (st : ClientState)
           (env : SendEnv) : ViewState * option (Result unit) :=
  if JS.isEmpty (JS.trim (newMessage ui)) then (ui, None)
  else
    let content := JS.trim (newMessage ui) in
    let res := sendMessage content st env in
    let draft :=
      match outcome res with
      | Returned _ => EmptyString
      | Threw _ => content
      end in
    (mkView draft false (cursorPosition ui)
            (MentionActions.closeMentions (mentionState ui)),
     Some res).

(** [handleTextareaChange(e)]: the hook is the one of the current room
    ([participants], [isAIMuted]). *)
Definition handleTextareaChange (st : ClientState) (ui : ViewState)
           (value : string) (cursor : nat) (pos : Mentions.Position)
  : ViewState :=
  let participants :=
    match currentRoom st with
    | Some r =>
        map (fun p => Mentions.mkParticipant (ChatUser.id p) (ChatUser.name p)
                                             (ChatUser.color p))
            (ChatRoom.participants r)
    | None => []
    end in
  mkView value (isLoading ui) cursor
         (Mentions.detectMention participants (isAIMuted st)
                                 (mentionState ui) value cursor pos).

(** [handleMentionSelect(option)]: the new text becomes the draft; the
    cursor offset kept in the state is not touched (the selection of the
    text area is set in a later callback). *)
Definition handleMentionSelect (ui : ViewState)
           (option : Mentions.MentionOption) : ViewState :=
  match MentionActions.selectMention (mentionState ui) option
                                     (newMessage ui) (cursorPosition ui) with
  | (MentionActions.Replaced newText _, m) =>
      mkView newText (isLoading ui) (cursorPosition ui) m
  | (MentionActions.Unchanged _, m) =>
      mkView (newMessage ui) (isLoading ui) (cursorPosition ui) m
  end.

(** An entry of the rendered list: a time label or a run of messages of
    one author. *)
Inductive Item :=
| TimeLabel (timestamp : Z) (label : string)
| MessageGroup (userId userName userColor : string) (isAI : bool)
               (timestamp : Z) (replyingTo : option ReplyingTo.t)
               (messages : list ChatMessage.t).

Section Grouping.

(** [formatDateLabel]: it reads the clock and the locale. *)
Variable formatDateLabel : Z -> string.

Definition twenty_minutes : Z := (20 * 60 * 1000)%Z.
Definition five_minutes : Z := (5 * 60 * 1000)%Z.

(** [needsTimeLabel]. *)
Definition needsTimeLabel (index : nat) (prevMessage : option ChatMessage.t)
           (message : ChatMessage.t) : bool :=
  match prevMessage with
  | None => true
  | Some prev =>
      (twenty_minutes <? ChatMessage.timestamp message
                         - ChatMessage.timestamp prev)%Z
      || ((0 <? index) && (index mod 10 =? 0))
  end.

(** [shouldGroup]. *)
Definition shouldGroup (index : nat) (prevMessage : option ChatMessage.t)
           (message : ChatMessage.t) : bool :=
  match prevMessage with
  | None => false
  | Some prev =>
      String.eqb (ChatMessage.userId prev) (ChatMessage.userId message)
      && Bool.eqb (ChatMessage.isAI prev) (ChatMessage.isAI message)
      && (ChatMessage.timestamp message - ChatMessage.timestamp prev
          <? five_minutes)%Z
      && negb (needsTimeLabel index prevMessage message)
  end.

(** [currentGroup.messages.push(message)] on the object at [i] of the
    array. *)
Fixpoint pushInto (groups : list Item) (i : nat) (message : ChatMessage.t)
  : list Item :=
  match groups, i with
  | [], _ => []
  | MessageGroup a b c d e f ms :: rest, O =>
      MessageGroup a b c d e f (ms ++ [message]) :: rest
  | g :: rest, O => g :: rest
  | g :: rest, S j => g :: pushInto rest j message
  end.

Definition isMessageGroupAt (groups : list Item) (i : nat) : bool :=
  match nth_error groups i with
  | Some (MessageGroup _ _ _ _ _ _ _) => true
  | _ => false
  end.

Definition newGroup (message : ChatMessage.t) : Item :=
  MessageGroup (ChatMessage.userId message) (ChatMessage.userName message)
               (ChatMessage.userColor message) (ChatMessage.isAI message)
               (ChatMessage.timestamp message)
               (ChatMessage.replyingTo message) [message].

(** One turn of the [forEach]: the array [groups] and [currentGroup],
    a reference into it ([None]: null), kept as an index. *)
Definition groupStep (st : list Item * option nat) (index : nat)
           (prevMessage : option ChatMessage.t) (message : ChatMessage.t)
  : list Item * option nat :=
  let (groups, currentGroup) := st in
  let groups1 :=
    if needsTimeLabel index prevMessage message
    then groups ++ [TimeLabel (ChatMessage.timestamp message)
                              (formatDateLabel (ChatMessage.timestamp message))]
    else groups in
  match currentGroup with
  | Some i =>
      if shouldGroup index prevMessage message && isMessageGroupAt groups1 i
      then (pushInto groups1 i message, currentGroup)
      else (groups1 ++ [newGroup message], Some (List.length groups1))
  | None => (groups1 ++ [newGroup message], Some (List.length groups1))
  end.

Fixpoint groupLoop (st : list Item * option nat) (index : nat)
         (prevMessage : option ChatMessage.t) (messages : list ChatMessage.t)
  : list Item * option nat :=
  match messages with
  | [] => st
  | message :: rest =>
      groupLoop (groupStep st index prevMessage message) (S index)
                (Some message) rest
  end.

Definition groupMessages (messages : list ChatMessage.t) : list Item :=
  fst (groupLoop ([], None) 0 None messages).

End Grouping.

End ChatRoomView.

(* ================================================================== *)
(** ** The stored procedures of rooms and settings *)
(* ================================================================== *)

(** [join_room_as_participant], [create_room_with_participant],
    [update_user_presence], [get_room_settings] and
    [initialize_room_settings]. A table is the list of its rows, a
    nullable column an [option]; [now()] is one instant for the whole
    call. A procedure that raises leaves the tables as they were, so the
    raising outcome carries no database. *)

Module Procedures.

Definition timestamptz := Z.

Record Room := mkRoom {
  r_id : string;
  r_name : string;
  r_created_by : option string;
  r_created_at : option timestamptz
}.

Record UserPresence := mkUserPresence {
  up_user_id : string;
  up_is_online : option bool;
  up_last_seen : option timestamptz;
  up_room_id : option string;
  up_updated_at : option timestamptz
}.

Record RoomSettings := mkRoomSettings {
  rs_room_id : string;
  rs_is_ai_muted : option bool;
  rs_ai_muted_by : option string;
  rs_ai_muted_at : option timestamptz;
  rs_created_at : option timestamptz;
  rs_updated_at : option timestamptz
}.

Record Database := mkDatabase {
  profiles : list Storage.Profile;
  rooms : list Room;
  room_participants : list Storage.RoomParticipant;
  room_settings : list RoomSettings;
  user_presence : list UserPresence
}.

Definition withRooms (l : list Room) (db : Database) : Database :=
  mkDatabase (profiles db) l (room_participants db) (room_settings db)
             (user_presence db).

Definition withParticipants (l : list Storage.RoomParticipant)
           (db : Database) : Database :=
  mkDatabase (profiles db) (rooms db) l (room_settings db)
             (user_presence db).

Definition withSettings (l : list RoomSettings) (db : Database)
  : Database :=
  mkDatabase (profiles db) (rooms db) (room_participants db) l
             (user_presence db).

Definition withPresence (l : list UserPresence) (db : Database)
  : Database :=
  mkDatabase (profiles db) (rooms db) (room_participants db)
             (room_settings db) l.

(** A row of the table [get_room_settings] returns. *)
Record SettingsResult := mkSettingsResult {
  sr_room_id : string;
  sr_is_ai_muted : option bool;
  sr_ai_muted_by : option string;
  sr_ai_muted_by_name : option string;
  sr_ai_muted_at : option timestamptz
}.

(** A constraint of a table that a statement broke. *)
Inductive Violation :=
| UniqueViolation (table : string)
| ForeignKeyViolation (table : string).

Definition bind {A B} (o : Outcome A) (f : A -> Outcome B) : Outcome B :=
  match o with
  | Returned a => f a
  | Threw e => Threw e
  end.

(** [RAISE EXCEPTION 'message']. *)
Definition raise {A} (message : string) : Outcome A :=
  Threw (ErrorObj message).

(** [SQLERRM] in a handler. *)
Definition messageOf (e : Thrown) : string :=
  match e with
  | ErrorObj message => message
  | NonError description => description
  end.

(** [EXISTS (SELECT 1 FROM profiles WHERE id = p_user_id)]. *)
Definition profile_exists (db : Database) (p_user_id : string) : bool :=
  existsb (fun p => String.eqb (Storage.prof_id p) p_user_id) (profiles db).

(** [EXISTS (SELECT 1 FROM rooms WHERE id = p_room_id)]. *)
Definition room_exists (db : Database) (p_room_id : string) : bool :=
  existsb (fun r => String.eqb (r_id r) p_room_id) (rooms db).

Definition is_participant_row (p_room_id p_user_id : string)
           (rp : Storage.RoomParticipant) : bool :=
  String.eqb (Storage.rp_room_id rp) p_room_id
  && String.eqb (Storage.rp_user_id rp) p_user_id.

(** [EXISTS (SELECT 1 FROM room_participants WHERE room_id = p_room_id
     AND user_id = p_user_id)]. *)
Definition is_participant (db : Database) (p_room_id p_user_id : string)
  : bool :=
  existsb (is_participant_row p_room_id p_user_id) (room_participants db).

(** [SELECT ... FROM room_settings WHERE room_id = p_room_id]. *)
Definition settings_rows (db : Database) (p_room_id : string)
  : list RoomSettings :=
  filter (fun rs => String.eqb (rs_room_id rs) p_room_id) (room_settings db).

Definition has_settings (db : Database) (p_room_id : string) : bool :=
  existsb (fun rs => String.eqb (rs_room_id rs) p_room_id)
          (room_settings db).

(** [COALESCE(b, false)]. *)
Definition coalesce_false (b : option bool) : bool :=
  match b with Some x => x | None => false end.

Section Statements.

(** The text [SQLERRM] holds for a broken constraint. *)
Variable sqlerrm : Violation -> string.

Definition violates {A} (v : Violation) : Outcome A :=
  Threw (ErrorObj (sqlerrm v)).

(** *** update_user_presence *)

(** [INSERT INTO user_presence ... ON CONFLICT (user_id) DO UPDATE SET
     room_id = EXCLUDED.room_id, updated_at = now()]: a row the user
    already has keeps its [is_online] and [last_seen]. *)
Definition update_user_presence (db : Database)
           (p_user_id p_room_id : string) (p_is_online : bool)
           (now : timestamptz) : Outcome Database :=
  if negb (room_exists db p_room_id)
  then violates (ForeignKeyViolation "user_presence")
  else if existsb (fun up => String.eqb (up_user_id up) p_user_id)
                  (user_presence db)
  then Returned
         (withPresence
            (map (fun up =>
                    if String.eqb (up_user_id up) p_user_id
                    then mkUserPresence (up_user_id up) (up_is_online up)
                                        (up_last_seen up) (Some p_room_id)
                                        (Some now)
                    else up)
                 (user_presence db))
            db)
  else if negb (profile_exists db p_user_id)
  then violates (ForeignKeyViolation "user_presence")
  else Returned
         (withPresence
            (user_presence db
             ++ [mkUserPresence p_user_id (Some p_is_online) (Some now)
                                (Some p_room_id) (Some now)])
            db).

(** *** initialize_room_settings *)

(** [INSERT INTO room_settings (room_id, is_ai_muted) VALUES (p_room_id,
     false) ON CONFLICT (room_id) DO NOTHING]; the other columns take
    their defaults. *)
Definition initialize_room_settings (db : Database) (p_room_id : string)
           (now : timestamptz) : Outcome Database :=
  if has_settings db p_room_id then Returned db
  else if negb (room_exists db p_room_id)
  then violates (ForeignKeyViolation "room_settings")
  else Returned
         (withSettings
            (room_settings db
             ++ [mkRoomSettings p_room_id (Some false) None None
                                (Some now) (Some now)])
            db).

(** *** join_room_as_participant *)

Definition join_room_as_participant (db : Database)
           (p_room_id p_user_id : string) (now : timestamptz)
  : Outcome (Database * bool) :=
  try_catch
    (if negb (profile_exists db p_user_id)
     then raise "User profile not found"
     else if negb (room_exists db p_room_id)
     then raise "Room not found"
     else
       (* ON CONFLICT (room_id, user_id) DO NOTHING *)
       let db1 :=
         if is_participant db p_room_id p_user_id then db
         else withParticipants
                (room_participants db
                 ++ [Storage.mkRoomParticipant p_room_id p_user_id now])
                db in
       bind (update_user_presence db1 p_user_id p_room_id true now)
            (fun db2 => Returned (db2, true)))
    (fun e => raise (String.append "Failed to join room: " (messageOf e))).

(** *** create_room_with_participant *)

Definition create_room_with_participant (db : Database)
           (p_room_id p_room_name p_user_id : string) (now : timestamptz)
  : Outcome (Database * bool) :=
  try_catch
    (if negb (profile_exists db p_user_id)
     then raise "User profile not found"
     else if room_exists db p_room_id
     then violates (UniqueViolation "rooms")
     else
       let db1 :=
         withRooms (rooms db
                    ++ [mkRoom p_room_id p_room_name (Some p_user_id)
                               (Some now)])
                   db in
       if is_participant db1 p_room_id p_user_id
       then violates (UniqueViolation "room_participants")
       else
         let db2 :=
           withParticipants
             (room_participants db1
              ++ [Storage.mkRoomParticipant p_room_id p_user_id now])
             db1 in
         bind (initialize_room_settings db2 p_room_id now) (fun db3 =>
         bind (update_user_presence db3 p_user_id p_room_id true now)
              (fun db4 => Returned (db4, true))))
    (fun e => raise (String.append "Failed to create room: "
                                   (messageOf e))).

End Statements.

(** *** get_room_settings *)

(** The first [SELECT]: [FROM room_settings rs LEFT JOIN profiles p ON
     p.id = rs.ai_muted_by], with [COALESCE(rs.is_ai_muted, false)] and
    [COALESCE(p.name, 'Unknown User')]. *)
Definition stored_settings (db : Database) (p_room_id : string)
           (rs : RoomSettings) : list SettingsResult :=
  let row name :=
    mkSettingsResult p_room_id (Some (coalesce_false (rs_is_ai_muted rs)))
                     (rs_ai_muted_by rs) (Some name) (rs_ai_muted_at rs) in
  match filter (fun p => Storage.optEqb (rs_ai_muted_by rs)
                                        (Storage.prof_id p))
               (profiles db) with
  | [] => [row "Unknown User"]
  | ps => map (fun p => row (Storage.prof_name p)) ps
  end.

(** The second [SELECT]: the default row, [WHERE NOT EXISTS] a stored
    one. *)
Definition default_settings (db : Database) (p_room_id : string)
  : list SettingsResult :=
  if has_settings db p_room_id then []
  else [mkSettingsResult p_room_id (Some false) None None None].

(** [... UNION ALL ... LIMIT 1]. *)
Definition get_room_settings (db : Database) (p_room_id : string)
  : list SettingsResult :=
  firstn 1 (flat_map (stored_settings db p_room_id)
                     (settings_rows db p_room_id)
            ++ default_settings db p_room_id).

End Procedures.

(* ================================================================== *)
(** ** What the specification says, as predicates, and sample data *)
(* ================================================================== *)

Module MentionSpec.
Import Mentions.

(** The trigger the specification describes: an [@] at [j], before the
    cursor, at position 0 or right after white space, with no white
    space from there to the cursor. *)
Definition activeTrigger (text : string) (cursor j : nat) : Prop :=
  j < cursor
  /\ JS.charAt text j = Some "@"%char
  /\ (j = 0 \/ JS.testWhitespace (JS.charAt text (j - 1)) = true)
  /\ (forall k, j < k < cursor ->
                JS.testWhitespace (JS.charAt text k) = false).

Definition origin : Position := mkPosition 0 0.

End MentionSpec.

Module PresenceSpec.
Import Storage.

(** A message that counts for the presence of [uid] in [room]: written
    in that room, by that user, and not by the AI. *)
Definition authored (db : Database) (room uid : string) (m : Message)
  : Prop :=
  In m (messages db)
  /\ msg_room_id m = Some room
  /\ msg_is_ai m = Some false
  /\ msg_user_id m = Some uid.

(** [t] is the instant of the most recent such message. *)
Definition lastActivity (db : Database) (room uid : string)
           (t : timestamptz) : Prop :=
  (exists m, authored db room uid m /\ msg_created_at m = t)
  /\ (forall m, authored db room uid m -> (msg_created_at m <= t)%Z).

(** A room with one participant whose only message was written at
    [t]. *)
Definition oneSpeaker (t : timestamptz) : Database :=
  mkDatabase [mkProfile "u1" "Ada" "#111111"]
             [mkRoomParticipant "room_1" "u1" 0%Z]
             [mkMessage "m1" (Some "room_1") (Some "u1") "hello"
                        (Some false) t].

Definition second : Z := 1000000%Z.
Definition minute : Z := (60 * second)%Z.

(** What the gateway answers the client for a call of a procedure: the
    rows as [data], an error raised as the [error] of the answer. *)
Definition rpcAnswer {A} (r : ProcedureResult A) : Chat.Awaited A :=
  match r with
  | Rows rows => Returned (Chat.mkResponse (Some rows) None)
  | Raised sqlstate message =>
      Returned (Chat.mkResponse None
                  (Some (Chat.mkPgError sqlstate message)))
  end.

(** The participants the client shows after loading them from [db] at
    [now]. *)
Definition loadedParticipants (db : Database) (room : string)
           (now : timestamptz) : list Chat.ChatUser.t :=
  Chat.loadParticipantsWithPresence
    (rpcAnswer (get_room_participants_with_presence db room now)).

(** The client shows [uid] online. *)
Definition classifiedOnline (db : Database) (room : string)
           (now : timestamptz) (uid : string) : Prop :=
  exists u, In u (loadedParticipants db room now)
            /\ Chat.ChatUser.id u = uid
            /\ Chat.ChatUser.isOnline u = true.

End PresenceSpec.

Module ResponderSpec.
Import KlusterAI.

Definition cannedFallbacks : list string :=
  [timeoutFallback; networkFallback; authFallback; genericFallback].

End ResponderSpec.

Module ChatSpec.
Import Chat.

(** *** Sample data *)

Definition ada : AuthUser.t := AuthUser.mk "u-a" "userA" "#EF4444".

Definition settingsOf (muted : bool) : RoomSettings.t :=
  RoomSettings.mk "room_1" muted None None None.

Definition roomWith (muted : bool) (ms : list ChatMessage.t) : ChatRoom.t :=
  ChatRoom.mk "room_1" "Planning" [createChatUser ada] ms
              (settingsOf muted) 0%Z.

(** A session that has joined [room]. *)
Definition joined (room : ChatRoom.t) : ClientState :=
  mkState (Some ada) true (Some room) [room] true false (Some room)
          (Some "room-messages-room_1") (Some "room-participants-room_1")
          (Some "room-settings-room_1") (Some (Interval 60000 "room_1"))
          None [].

(** The row the gateway stores for a message of [ada]. *)
Definition durableRow (id content : string) : MessageRow :=
  mkMessageRow id "room_1" "u-a" "userA" "#EF4444" content false
               1718000000000000%Z ReplyNull.

(** An insert answered with the stored row, and a request answered with
    an error. *)
Definition saved (row : MessageRow) : Awaited MessageRow :=
  Returned (mkResponse (Some row) None).

Definition refused {A} (message : string) : Awaited A :=
  Returned (mkResponse None (Some (mkPgError "42501" message))).

(** The message list of the current room. *)
Definition roomMessages (st : ClientState) : list ChatMessage.t :=
  match currentRoom st with
  | Some r => ChatRoom.messages r
  | None => []
  end.

(** *** The AI turn after a send *)

(** A case-insensitive search: both texts lowered. *)
Definition containsIgnoreCase (s needle : string) : bool :=
  JS.includes (JS.toLowerCase s) (JS.toLowerCase needle).

Definition isAITurn (t : Task) : bool :=
  match t with
  | AITurn _ _ => true
  | _ => false
  end.

Definition aiTurnTriggered {A} (r : Result A) : bool :=
  existsb isAITurn (scheduled r).

(** The probe and the generate request. *)
Definition isAICall (c : Call) : bool :=
  match c with
  | TestConnection | CompletionsCreate _ => true
  | _ => false
  end.

(** The guard of [sendMessage]. *)
Definition guardPasses (st : ClientState) : bool :=
  match user st, currentRoom st with
  | Some _, Some _ => supabaseConfigured st
  | _, _ => false
  end.

(** The insert request was answered without an error. *)
Definition insertSucceeded (a : Awaited MessageRow) : bool :=
  match a with
  | Returned r => match error r with None => true | Some _ => false end
  | Threw _ => false
  end.

(** Every request of a send followed by the AI turns it scheduled. *)
Definition sendAndRespond (content : string) (st : ClientState)
           (env : SendEnv) (aienv : AIEnv) : list Call :=
  let r := sendMessage content st env in
  calls r
  ++ flat_map (fun t => match t with
                        | AITurn _ cl => calls (aiTurn cl (state r) aienv)
                        | _ => []
                        end)
              (scheduled r).

(** The claim C4 as the specification words it: an AI turn follows a
    send exactly when the content mentions the AI and the room's AI is
    not muted. *)
Definition turnIffMentionAndUnmuted : Prop :=
  forall (content : string) (st : ClientState) (env : SendEnv),
    aiTurnTriggered (sendMessage content st env) = true
    <-> (containsIgnoreCase content "@ai" = true /\ isAIMuted st = false).

(** *** What the caller learns of a failure *)

(** A request failed: it rejected, or its answer carries an error. *)
Definition requestFailed {A} (a : Awaited A) : Prop :=
  match a with
  | Threw _ => True
  | Returned r => error r <> None
  end.

(** A request that must answer [true] (or a row) did not. *)
Definition noData {A} (a : Awaited A) : Prop :=
  match a with
  | Threw _ => True
  | Returned r => error r <> None \/ data r = None
  end.

Definition rpcRefused (a : Awaited bool) : Prop :=
  match a with
  | Threw _ => True
  | Returned r => rpcFailed r = true
  end.

(** The caller is told: the call threw, or it returned a value that
    stands for a failure. *)
Definition reported {A} (failureValue : A -> bool) (o : Outcome A) : Prop :=
  match o with
  | Threw _ => True
  | Returned a => failureValue a = true
  end.

(** [void] has no value that stands for a failure. *)
Definition noFailureValue (_ : unit) : bool := false.

Definition joinReports : Prop :=
  forall (roomId : string) (st : ClientState) (env : JoinEnv),
    supabaseConfigured st = false \/ user st = None
    \/ rpcRefused (join_rpc env) \/ noData (join_room env) ->
    reported negb (outcome (joinRoom roomId st env))
    /\ currentRoom (state (joinRoom roomId st env)) = currentRoom st.

Definition createReports : Prop :=
  forall (roomName : string) (st : ClientState) (env : CreateEnv),
    supabaseConfigured st = false \/ user st = None
    \/ rpcRefused (create_rpc env) ->
    reported noFailureValue (outcome (createRoom roomName st env))
    /\ state (createRoom roomName st env) = st.

Definition sendReports : Prop :=
  forall (content : string) (st : ClientState) (env : SendEnv),
    guardPasses st = true ->
    requestFailed (send_insert env) ->
    reported noFailureValue (outcome (sendMessage content st env)).

Definition toggleReports : Prop :=
  forall (st : ClientState) (rpc : Awaited string),
    user st <> None -> currentRoom st <> None ->
    requestFailed rpc ->
    reported noFailureValue (outcome (toggleAIMute st rpc)).

(** One of the three loads of a join failed. *)
Definition loadFailed (env : JoinEnv) : Prop :=
  requestFailed (join_participants env)
  \/ requestFailed (join_settings env)
  \/ requestFailed (join_messages env).

(** A failed load of a join is reported, as every failure is in the
    words of the claim. *)
Definition joinReportsLoads : Prop :=
  forall (roomId : string) (st : ClientState) (env : JoinEnv),
    loadFailed env -> reported negb (outcome (joinRoom roomId st env)).

(** The claim C8 as the specification words it. *)
Definition syncFailuresPropagate : Prop :=
  joinReports /\ joinReportsLoads /\ createReports /\ toggleReports
  /\ sendReports.

(** What a join does about its loads, once the join request and the row
    of the room have come back: it returns [true] and publishes the
    room, without what a failed load would have given. *)
Definition joinSwallowsLoads : Prop :=
  forall (roomId : string) (st : ClientState) (env : JoinEnv)
         (u : AuthUser.t) (jr : Response bool) (rr : Response RoomRow)
         (roomData : RoomRow),
    supabaseConfigured st = true -> user st = Some u ->
    join_rpc env = Returned jr -> rpcFailed jr = false ->
    join_room env = Returned rr ->
    error rr = None -> data rr = Some roomData ->
    outcome (joinRoom roomId st env) = Returned true
    /\ exists room,
         currentRoom (state (joinRoom roomId st env)) = Some room
         /\ ChatRoom.id room = room_id roomData
         /\ ChatRoom.participants room
            = loadParticipantsWithPresence (join_participants env)
         /\ ChatRoom.messages room = loadRoomMessages (join_messages env)
         /\ ChatRoom.settings room
            = loadRoomSettings roomId (join_settings env)
         /\ (requestFailed (join_participants env) ->
             ChatRoom.participants room = [])
         /\ (requestFailed (join_messages env) ->
             ChatRoom.messages room = [])
         /\ (requestFailed (join_settings env) ->
             ChatRoom.settings room = defaultSettings roomId).

(** A join whose three loads are all refused. *)
Definition nothingLoads : JoinEnv :=
  mkJoinEnv (Returned (mkResponse (Some true) None))
            (Returned (mkResponse
                         (Some (mkRoomRow "room_2" "Retro" "u-a" 0%Z))
                         None))
            (refused "permission denied")
            (refused "permission denied")
            (refused "permission denied").

(** *** The reply target *)

(** [m] is the most recent message of [ms] the AI did not write. *)
Definition mostRecentNonAI (ms : list ChatMessage.t) (m : ChatMessage.t)
  : Prop :=
  exists older newer,
    ms = older ++ m :: newer
    /\ ChatMessage.isAI m = false
    /\ Forall (fun x => ChatMessage.isAI x = true) newer.

Definition said (id uid uname text : string) : ChatMessage.t :=
  ChatMessage.mk id "room_1" uid uname "#EF4444" text false
                 (dateOf 1718000000000000) None.

Definition planQuestion : ChatMessage.t :=
  said "m1" "u-a" "userA" "what's the plan?".
Definition notSure : ChatMessage.t := said "m2" "u-b" "userB" "not sure".
Definition helpRequest : ChatMessage.t :=
  said "m3" "u-a" "userA" "@AI can you help?".

Definition aiAnswers (text : string) : KlusterAI.RaceOutcome :=
  KlusterAI.Resolved
    (KlusterAI.mkCompletion
       (Some [KlusterAI.mkChoice
                (Some (KlusterAI.mkChoiceMessage (Some text)))])).

Definition aiWorks : AIEnv :=
  mkAIEnv (aiAnswers "AI service is working") (aiAnswers "Here is a plan.")
          (Returned (mkResponse (Some "ok") None))
          (Returned (mkResponse (Some "ok") None)).

Definition turn (n : string) : KlusterAI.ChatTurn :=
  KlusterAI.mkTurn KlusterAI.user n.

(** *** The two paths that deliver a saved message *)

Inductive Path := DirectReconcile | ChangeEvent.

(** One path run on [st]: the answer to the insert request resumes
    [sendMessage], or the insert event reaches the handler. Both carry
    the same saved row. *)
Definition deliver (cl : SendClosure) (roomId : string) (row : MessageRow)
           (p : Path) (st : ClientState) : ClientState :=
  match p with
  | DirectReconcile => state (sendMessage_resume cl (saved row) st)
  | ChangeEvent => onMessageInsert_apply roomId row st
  end.

Definition interleave (cl : SendClosure) (roomId : string)
           (row : MessageRow) (order : list Path) (st : ClientState)
  : ClientState :=
  fold_left (fun s p => deliver cl roomId row p s) order st.

(** The message list after a send has begun and the two paths have run
    in [order]. *)
Definition afterSend (content tempId : string) (now : Z) (roomId : string)
           (row : MessageRow) (order : list Path) (st : ClientState)
  : list ChatMessage.t :=
  match sendMessage_begin content tempId now st with
  | Some (cl, st1, _) => roomMessages (interleave cl roomId row order st1)
  | None => roomMessages st
  end.

Definition countId (d : string) (ms : list ChatMessage.t) : nat :=
  List.length (filter (fun m => String.eqb (ChatMessage.id m) d) ms).

(** [m => m.id === tempId ? realMessage : m]. *)
Definition swapIn (tempId : string) (row : MessageRow) (m : ChatMessage.t)
  : ChatMessage.t :=
  if String.eqb (ChatMessage.id m) tempId then realMessageOf row else m.

Definition hasId (d : string) (m : ChatMessage.t) : bool :=
  String.eqb (ChatMessage.id m) d.

End ChatSpec.

(* ================================================================== *)
(** ** Notions used by the further properties *)
(* ================================================================== *)

Module ExtraSpec.
Import Chat.

(** A run of arrow keys. *)
Definition navigateAll (dirs : list MentionActions.Direction)
           (st : Mentions.MentionState) : Mentions.MentionState :=
  fold_left (fun s d => MentionActions.navigateMentions d s) dirs st.

(** The option of the AI and the option of a participant. *)
Definition aiOption : Mentions.MentionOption :=
  Mentions.mkOption "ai" "AI Assistant" Mentions.TAi None.

Definition userOption (p : Mentions.Participant) : Mentions.MentionOption :=
  Mentions.mkOption (Mentions.p_id p) (Mentions.p_name p) Mentions.TUser
                    (Some (Mentions.p_color p)).

(** The query is blank, or the name of [o], as it is or without its
    white space, contains the query, letter case aside. *)
Definition nameMatches (q : string) (o : Mentions.MentionOption) : bool :=
  JS.isEmpty (JS.trim q)
  || JS.includes (JS.toLowerCase (Mentions.opt_name o))
                 (JS.trim (JS.toLowerCase q))
  || JS.includes (JS.stripWhitespace
                    (JS.toLowerCase (Mentions.opt_name o)))
                 (JS.trim (JS.toLowerCase q)).

(** [l1] is [l2] with some elements left out, the others in place. *)
Inductive subseq {A : Type} : list A -> list A -> Prop :=
| subseq_nil : subseq [] []
| subseq_skip (x : A) (l1 l2 : list A) :
    subseq l1 l2 -> subseq l1 (x :: l2)
| subseq_keep (x : A) (l1 l2 : list A) :
    subseq l1 l2 -> subseq (x :: l1) (x :: l2).

(** The ids of the messages shown. *)
Definition messageIds (st : ClientState) : list string :=
  map ChatMessage.id (ChatSpec.roomMessages st).

(** The insert handler before it touches the room: the AI flag cleared
    for a message of the AI, the id taken out of the pending set. *)
Definition eventPrelude (row : MessageRow) (st : ClientState) : ClientState :=
  let st1 := if row_is_ai row then clearAIResponding st else st in
  setPending (set_delete (row_id row) (pendingMessagesRef st1)) st1.

(** The updater of the insert handler. *)
Definition appendIfNew (roomId : string) (row : MessageRow)
           (prevRoom : ChatRoom.t) : option ChatRoom.t :=
  if String.eqb (ChatRoom.id prevRoom) roomId then
    if existsb (ChatSpec.hasId (row_id row)) (ChatRoom.messages prevRoom)
    then None
    else Some (ChatRoom.withMessages prevRoom
                 (ChatRoom.messages prevRoom ++ [messageOfRow row]))
  else None.

(** A run of insert events handled one after the other. *)
Definition applyEvents (roomId : string) (rows : list MessageRow)
           (st : ClientState) : ClientState :=
  fold_left (fun s row => onMessageInsert_apply roomId row s) rows st.

(** The channel refs and the presence interval of a session that
    holds the subscriptions of [roomId]. *)
Definition subscribedTo (roomId : string) (st : ClientState) : Prop :=
  messagesChannelRef st = Some (String.append "room-messages-" roomId)
  /\ participantsChannelRef st
     = Some (String.append "room-participants-" roomId)
  /\ settingsChannelRef st = Some (String.append "room-settings-" roomId)
  /\ presenceUpdateInterval st = Some (Interval 60000 roomId).

(** No channel, no interval, no timer, no room, nothing pending, the AI
    not responding. *)
Definition idle (st : ClientState) : Prop :=
  currentRoom st = None /\ currentRoomRef st = None
  /\ messagesChannelRef st = None /\ participantsChannelRef st = None
  /\ settingsChannelRef st = None /\ presenceUpdateInterval st = None
  /\ aiResponseTimeoutRef st = None /\ pendingMessagesRef st = []
  /\ isAIResponding st = false.

(** An answer of [get_room_settings] with one row. *)
Definition settingsAnswer (muted : bool) : Awaited (list SettingsRow) :=
  Returned (mkResponse (Some [mkSettingsRow muted None None None]) None).

(** The ids of the rooms of the directory. *)
Definition roomIds (st : ClientState) : list string :=
  map ChatRoom.id (rooms st).

(** Requests answered with [true], and with a room row. *)
Definition accepted : Awaited bool := Returned (mkResponse (Some true) None).
Definition found (row : RoomRow) : Awaited RoomRow :=
  Returned (mkResponse (Some row) None).

(** An insert of an AI message, with or without a reply. *)
Definition isAIInsert (c : Call) : bool :=
  match c with
  | RpcInsertAiMessage _ _ | RpcInsertAiMessageWithReply _ _ _ => true
  | _ => false
  end.

Definition isCompletion (c : Call) : bool :=
  match c with
  | CompletionsCreate _ => true
  | _ => false
  end.

(** The turn a message is handed to the responder as. *)
Definition turnOf (m : ChatMessage.t) : KlusterAI.ChatTurn :=
  KlusterAI.mkTurn
    (if ChatMessage.isAI m then KlusterAI.assistant else KlusterAI.user)
    (String.append (ChatMessage.userName m)
       (String.append ": " (ChatMessage.content m))).

Definition isProvisional (m : ChatMessage.t) : bool :=
  JS.startsWith (ChatMessage.id m) "temp_".

(** The messages an entry of the rendered list holds. *)
Definition itemMessages (i : ChatRoomView.Item) : list ChatMessage.t :=
  match i with
  | ChatRoomView.MessageGroup _ _ _ _ _ _ ms => ms
  | ChatRoomView.TimeLabel _ _ => []
  end.

Definition flatten (items : list ChatRoomView.Item) : list ChatMessage.t :=
  flat_map itemMessages items.

(** A group is not empty, is headed like its first message, and all its
    messages have the author and the AI flag of the group. *)
Definition wellFormed (i : ChatRoomView.Item) : Prop :=
  match i with
  | ChatRoomView.MessageGroup uid uname ucolor ai ts reply ms =>
      (exists first rest,
          ms = first :: rest
          /\ uname = ChatMessage.userName first
          /\ ucolor = ChatMessage.userColor first
          /\ ts = ChatMessage.timestamp first
          /\ reply = ChatMessage.replyingTo first)
      /\ Forall (fun m => ChatMessage.userId m = uid
                          /\ ChatMessage.isAI m = ai) ms
  | ChatRoomView.TimeLabel _ _ => True
  end.

Definition isTimeLabel (i : ChatRoomView.Item) : bool :=
  match i with
  | ChatRoomView.TimeLabel _ _ => true
  | _ => false
  end.

(** What holds of the array and of [currentGroup] after each turn of the
    loop of [groupMessages]: [currentGroup] is the last entry, a group
    whose last message is the message just seen, and the first entry is
    the time label of the first message. *)
Definition loopInvariant (formatDateLabel : Z -> string)
           (st : list ChatRoomView.Item * option nat)
           (seen : list ChatMessage.t) (prev : option ChatMessage.t) : Prop :=
  flatten (fst st) = seen
  /\ Forall wellFormed (fst st)
  /\ Forall (fun i => forall ts label,
                        i = ChatRoomView.TimeLabel ts label ->
                        label = formatDateLabel ts)
            (fst st)
  /\ match prev with
     | None => st = ([], None) /\ seen = []
     | Some p =>
         exists pre a b c d e f ms first,
           fst st
           = ChatRoomView.TimeLabel
               (ChatMessage.timestamp first)
               (formatDateLabel (ChatMessage.timestamp first))
             :: pre ++ [ChatRoomView.MessageGroup a b c d e f ms]
           /\ snd st = Some (S (List.length pre))
           /\ ChatMessage.userId p = a /\ ChatMessage.isAI p = d
           /\ hd_error seen = Some first
     end.

(** *** The stored procedures *)

(** How the client reads a row of [get_room_settings]:
    [settings?.is_ai_muted || false] and the other columns as they
    are. *)
Definition asClientRow (r : Procedures.SettingsResult) : SettingsRow :=
  mkSettingsRow (Procedures.coalesce_false (Procedures.sr_is_ai_muted r))
                (Procedures.sr_ai_muted_by r)
                (Procedures.sr_ai_muted_by_name r)
                (Procedures.sr_ai_muted_at r).

(** The settings the client holds after [loadRoomSettings] on a
    database. *)
Definition loadedSettings (db : Procedures.Database) (roomId : string)
  : RoomSettings.t :=
  loadRoomSettings
    roomId
    (Returned (mkResponse
                 (Some (map asClientRow
                            (Procedures.get_room_settings db roomId)))
                 None)).

(** Some text for [SQLERRM]. *)
Definition sampleSqlerrm (v : Procedures.Violation) : string :=
  match v with
  | Procedures.UniqueViolation table =>
      String.append "duplicate key in " table
  | Procedures.ForeignKeyViolation table =>
      String.append "missing reference from " table
  end.

(** One profile, one room, nobody in it. *)
Definition emptyLobby : Procedures.Database :=
  Procedures.mkDatabase
    [Storage.mkProfile "u1" "Ada" "#111111"]
    [Procedures.mkRoom "room_1" "Lobby" (Some "u1") (Some 0%Z)]
    [] [] [].

(** The same, with Ada seen offline in another room. *)
Definition adaOffline : Procedures.Database :=
  Procedures.withPresence
    [Procedures.mkUserPresence "u1" (Some false) (Some 5%Z) None (Some 5%Z)]
    emptyLobby.

End ExtraSpec.

(* ================================================================== *)
(** * Properties *)
(* ================================================================== *)

(** ** Texts *)

Section JSFacts.

Lemma isEmpty_false_nonempty (s : string) :
  JS.isEmpty s = false -> s <> EmptyString.
Proof. destruct s; simpl; congruence. Qed.

(** A text that includes a space has a space at some index. *)
Lemma includes_space_get (s : string) :
  JS.includes s " " = true -> exists k, String.get k s = Some " "%char.
Proof.
  induction s as [|c s IH]; intros H.
  - discriminate.
  - change (JS.includes (String c s) " ")
      with ((Ascii.eqb " " c && true) || JS.includes s " ") in H.
    apply orb_true_iff in H as [H|H].
    + apply andb_true_iff in H as [H _].
      apply Ascii.eqb_eq in H. subst c. now exists 0.
    + destruct (IH H) as [k Hk]. now exists (S k).
Qed.

Lemma slice_get (s : string) (a b k : nat) (c : ascii) :
  String.get k (JS.slice s a b) = Some c ->
  a + k < b /\ String.get (a + k) s = Some c.
Proof.
  unfold JS.slice. intros H.
  destruct (Nat.lt_ge_cases k (b - a)) as [Hlt|Hge].
  - rewrite (substring_correct1 s a (b - a) k Hlt) in H.
    split; [lia|]. now rewrite Nat.add_comm.
  - rewrite (substring_correct2 s a (b - a) k Hge) in H. discriminate.
Qed.

End JSFacts.

(** ** The mention detector *)

Module MentionFacts.
Import Mentions.
Import MentionSpec.

Lemma isAt_true (o : option ascii) : isAt o = true <-> o = Some "@"%char.
Proof.
  destruct o as [c|]; simpl; split; intros H; try discriminate.
  - apply Ascii.eqb_eq in H. now subst.
  - injection H as ->. reflexivity.
Qed.

Lemma at_not_whitespace (o : option ascii) :
  isAt o = true -> JS.testWhitespace o = false.
Proof. intros H. apply isAt_true in H. subst o. reflexivity. Qed.

Lemma activeTrigger_shrink (text : string) (i j : nat) :
  activeTrigger text (S i) j -> j < i -> activeTrigger text i j.
Proof.
  intros (_ & Hat & Hq & Hws) Hlt.
  repeat split; auto. intros k Hk. apply Hws. lia.
Qed.

Lemma activeTrigger_grow (text : string) (i j : nat) :
  activeTrigger text i j ->
  JS.testWhitespace (JS.charAt text i) = false ->
  activeTrigger text (S i) j.
Proof.
  intros (Hlt & Hat & Hq & Hws) Hi.
  repeat split; auto. intros k Hk.
  destruct (Nat.eq_dec k i) as [->|Hne]; [assumption|apply Hws; lia].
Qed.

(** The loop finds the trigger when there is one, and only then. *)
Lemma scan_spec (text : string) (n : nat) :
  (scan text n = (-1)%Z /\ forall j, ~ activeTrigger text n j)
  \/ (exists j, scan text n = Z.of_nat j /\ activeTrigger text n j).
Proof.
  induction n as [|i IH]; simpl.
  - left. split; [reflexivity|]. intros j (H & _). lia.
  - destruct (isAt (JS.charAt text i)) eqn:Hat.
    + destruct ((i =? 0) || JS.testWhitespace (JS.charAt text (i - 1)))
        eqn:Hq.
      * right. exists i. split; [reflexivity|].
        repeat split.
        -- lia.
        -- now apply isAt_true.
        -- apply orb_true_iff in Hq as [Hq|Hq];
             [left; now apply Nat.eqb_eq|right; assumption].
        -- intros k Hk. lia.
      * apply orb_false_iff in Hq as [Hz Hw].
        destruct IH as [[Hs Hno]|[j [Hs Hj]]].
        -- left. split; [assumption|]. intros j Hj.
           destruct (Nat.eq_dec j i) as [->|Hne].
           ++ destruct Hj as (_ & _ & [H0|H1] & _).
              ** subst i. discriminate.
              ** congruence.
           ++ apply (Hno j). apply activeTrigger_shrink; [assumption|].
              destruct Hj as (H & _). lia.
        -- right. exists j. split; [assumption|].
           apply activeTrigger_grow; [assumption|].
           now apply at_not_whitespace.
    + destruct (JS.testWhitespace (JS.charAt text i)) eqn:Hw.
      * left. split; [reflexivity|]. intros j Hj.
        destruct (Nat.eq_dec j i) as [->|Hne].
        -- destruct Hj as (_ & Hj & _). apply isAt_true in Hj. congruence.
        -- destruct Hj as (Hlt & _ & _ & Hws).
           rewrite (Hws i) in Hw; [discriminate|lia].
      * destruct IH as [[Hs Hno]|[j [Hs Hj]]].
        -- left. split; [assumption|]. intros j Hj.
           destruct (Nat.eq_dec j i) as [->|Hne].
           ++ destruct Hj as (_ & Hj & _). apply isAt_true in Hj.
              congruence.
           ++ apply (Hno j). apply activeTrigger_shrink; [assumption|].
              destruct Hj as (H & _). lia.
        -- right. exists j. split; [assumption|].
           now apply activeTrigger_grow.
Qed.

(** There is at most one trigger for a cursor. *)
Lemma activeTrigger_lt_absurd (text : string) (n a b : nat) :
  activeTrigger text n a -> activeTrigger text n b -> a < b -> False.
Proof.
  intros (_ & Hat & _ & Hws) (Hb & _ & Hq & _) Hab.
  destruct Hq as [->|Hq]; [lia|].
  destruct (Nat.eq_dec (b - 1) a) as [He|Hne].
  - rewrite He, Hat in Hq. discriminate.
  - rewrite (Hws (b - 1)) in Hq; [discriminate|lia].
Qed.

Lemma activeTrigger_unique (text : string) (n j j' : nat) :
  activeTrigger text n j -> activeTrigger text n j' -> j = j'.
Proof.
  intros H H'.
  destruct (Nat.lt_trichotomy j j') as [Hlt|[Heq|Hgt]]; [|assumption|].
  - exfalso. exact (activeTrigger_lt_absurd text n j j' H H' Hlt).
  - exfalso. exact (activeTrigger_lt_absurd text n j' j H' H Hgt).
Qed.

(** Between the trigger and the cursor there is no space, so the test
    [query.includes(' ')] never closes the dropdown. *)
Lemma query_has_no_space (text : string) (n j : nat) :
  activeTrigger text n j ->
  JS.includes (JS.slice text (j + 1) n) " " = false.
Proof.
  intros (_ & _ & _ & Hws).
  destruct (JS.includes (JS.slice text (j + 1) n) " ") eqn:Hinc;
    [|reflexivity].
  apply includes_space_get in Hinc as [k Hk].
  apply slice_get in Hk as [Hlt Hget].
  specialize (Hws (j + 1 + k)). unfold JS.charAt in Hws.
  rewrite Hget in Hws. simpl in Hws.
  assert (j < j + 1 + k < n) as Hr by lia.
  specialize (Hws Hr). discriminate.
Qed.

Lemma detectMention_open (ps : list Participant) (muted : bool)
      (prev : MentionState) (text : string) (cursor : nat)
      (pos : Position) (j : nat) :
  activeTrigger text cursor j ->
  detectMention ps muted prev text cursor pos
  = mkMentionState true (JS.slice text (j + 1) cursor)
      (filterOptions ps muted (JS.slice text (j + 1) cursor)) 0 pos
      (Z.of_nat j).
Proof.
  intros Hj. unfold detectMention.
  destruct (scan_spec text cursor) as [[_ Hno]|[j' [Hs Hj']]].
  - exfalso. exact (Hno j Hj).
  - assert (j' = j) by (eapply activeTrigger_unique; eassumption).
    subst j'. rewrite Hs.
    replace (Z.of_nat j =? -1)%Z with false
      by (symmetry; apply Z.eqb_neq; lia).
    rewrite Nat2Z.id. rewrite (query_has_no_space text cursor j Hj).
    reflexivity.
Qed.

Lemma detectMention_closed (ps : list Participant) (muted : bool)
      (prev : MentionState) (text : string) (cursor : nat)
      (pos : Position) :
  (forall j, ~ activeTrigger text cursor j) ->
  detectMention ps muted prev text cursor pos = close prev.
Proof.
  intros Hno. unfold detectMention.
  destruct (scan_spec text cursor) as [[Hs _]|[j [_ Hj]]].
  - rewrite Hs. reflexivity.
  - exfalso. exact (Hno j Hj).
Qed.

(** C5. Given a text and a cursor offset, [detectMention] opens the
    dropdown exactly when there is an active trigger: an [@] before the
    cursor, at position 0 or right after white space, met by the backward
    scan before any white space. The trigger start is the index of that
    [@] and the query is the text between it and the cursor; with no
    trigger the dropdown is closed and the rest of the state is kept.
    In particular "hi @al" with the cursor at 6 gives the query "al",
    "hi @al ice" with the cursor at 10 gives no trigger, and
    "@AI please help" with the cursor at 3 gives the query "AI". *)
Theorem C5_detectMention_active_trigger :
  (forall (ps : list Participant) (muted : bool) (prev : MentionState)
          (text : string) (cursor : nat) (pos : Position),
      let st := detectMention ps muted prev text cursor pos in
      (isOpen st = true <-> exists j, activeTrigger text cursor j)
      /\ (forall j, activeTrigger text cursor j ->
                    isOpen st = true
                    /\ mentionStart st = Z.of_nat j
                    /\ query st = JS.slice text (j + 1) cursor)
      /\ ((forall j, ~ activeTrigger text cursor j) -> st = close prev))
  /\ (let st := detectMention [] false initialState "hi @al" 6 origin in
      isOpen st = true /\ query st = "al" /\ mentionStart st = 3%Z)
  /\ isOpen (detectMention [] false initialState "hi @al ice" 10 origin)
     = false
  /\ (let st := detectMention [] false initialState "@AI please help" 3
                              origin in
      isOpen st = true /\ query st = "AI" /\ mentionStart st = 0%Z).
Proof.
  split; [|repeat split; reflexivity].
  intros ps muted prev text cursor pos st.
  assert (Hopen : forall j, activeTrigger text cursor j ->
                            isOpen st = true
                            /\ mentionStart st = Z.of_nat j
                            /\ query st = JS.slice text (j + 1) cursor).
  { intros j Hj. unfold st.
    rewrite (detectMention_open ps muted prev text cursor pos j Hj).
    repeat split. }
  assert (Hclosed : (forall j, ~ activeTrigger text cursor j) ->
                    st = close prev).
  { intros Hno. now apply detectMention_closed. }
  split; [|split; assumption].
  split.
  - intros Hst. destruct (scan_spec text cursor) as [[_ Hno]|[j [_ Hj]]].
    + rewrite (Hclosed Hno) in Hst. discriminate.
    + now exists j.
  - intros [j Hj]. now destruct (Hopen j Hj).
Qed.

Lemma C5_detectMention_active_trigger_witness :
  activeTrigger "hi @al" 6 3
  /\ query (detectMention [] false initialState "hi @al" 6 origin)
     = JS.slice "hi @al" (3 + 1) 6.
Proof.
  assert (H : activeTrigger "hi @al" 6 3).
  { repeat split.
    - lia.
    - right. reflexivity.
    - intros k Hk.
      assert (k = 4 \/ k = 5) as [->| ->] by lia; reflexivity. }
  split; [exact H|].
  destruct C5_detectMention_active_trigger as [Hall _].
  destruct (Hall [] false initialState "hi @al" 6 origin) as (_ & Hq & _).
  exact (proj2 (proj2 (Hq 3 H))).
Defined.

End MentionFacts.

(** ** The presence classifier *)

Module PresenceFacts.
Import Storage.
Import PresenceSpec.

Lemma optEqb_true (o : option string) (s : string) :
  optEqb o s = true <-> o = Some s.
Proof.
  destruct o as [x|]; simpl; split; intros H; try discriminate.
  - apply String.eqb_eq in H. now subst.
  - injection H as ->. apply String.eqb_refl.
Qed.

Lemma in_group_authored (db : Database) (room uid : string) (m : Message) :
  In m (filter (in_group room uid) (messages db)) <-> authored db room uid m.
Proof.
  rewrite filter_In. unfold in_group, authored.
  rewrite !andb_true_iff, !optEqb_true.
  destruct (msg_is_ai m) as [[|]|]; intuition congruence.
Qed.

Lemma max_created_at_none (ms : list Message) :
  max_created_at ms = None -> ms = [].
Proof.
  destruct ms as [|m rest]; [reflexivity|]. simpl.
  destruct (max_created_at rest); discriminate.
Qed.

Lemma max_created_at_some (ms : list Message) (t : timestamptz) :
  max_created_at ms = Some t ->
  (exists m, In m ms /\ msg_created_at m = t)
  /\ (forall m, In m ms -> (msg_created_at m <= t)%Z).
Proof.
  revert t. induction ms as [|m rest IH]; intros t H; [discriminate|].
  simpl in H. destruct (max_created_at rest) as [t'|] eqn:Hrest.
  - injection H as <-. destruct (IH t' eq_refl) as [[m' [Hin Heq]] Hle].
    split.
    + destruct (Z.max_spec (msg_created_at m) t') as [[_ ->]|[_ ->]].
      * exists m'. split; [now right|assumption].
      * exists m. split; [now left|reflexivity].
    + intros x [->|Hx]; [lia|]. specialize (Hle x Hx). lia.
  - injection H as <-. apply max_created_at_none in Hrest. subst rest.
    split.
    + exists m. split; [now left|reflexivity].
    + intros x [->|[]]. lia.
Qed.

(** The sub-select computes the instant of the last activity. *)
Lemma last_message_time_spec (db : Database) (room uid : string)
      (t : timestamptz) :
  last_message_time db room uid = Some t <-> lastActivity db room uid t.
Proof.
  unfold last_message_time, lastActivity. split.
  - intros H. apply max_created_at_some in H as [[m [Hin Heq]] Hle].
    split.
    + exists m. split; [now apply in_group_authored|assumption].
    + intros x Hx. apply Hle. now apply in_group_authored.
  - intros [[m [Hm Heq]] Hle].
    destruct (max_created_at (filter (in_group room uid) (messages db)))
      as [t'|] eqn:Hmax.
    + apply max_created_at_some in Hmax as [[m' [Hin' Heq']] Hle'].
      f_equal.
      apply (proj1 (in_group_authored _ _ _ _)) in Hin'.
      apply (proj2 (in_group_authored _ _ _ _)) in Hm.
      specialize (Hle m' Hin'). specialize (Hle' m Hm). lia.
    + apply max_created_at_none in Hmax.
      apply (proj2 (in_group_authored _ _ _ _)) in Hm.
      rewrite Hmax in Hm. destruct Hm.
Qed.

Lemma In_insert_row (r x : PresenceRow) (rows : list PresenceRow) :
  In x (insert_row r rows) <-> x = r \/ In x rows.
Proof.
  induction rows as [|y rest IH]; simpl.
  - intuition.
  - destruct (before r y); simpl; [intuition|]. rewrite IH. intuition.
Qed.

(** The ORDER BY keeps the rows. *)
Lemma In_order_by (x : PresenceRow) (rows : list PresenceRow) :
  In x (order_by rows) <-> In x rows.
Proof.
  induction rows as [|r rest IH]; simpl; [reflexivity|].
  rewrite In_insert_row, IH. intuition.
Qed.

Lemma In_joined_rows (db : Database) (room : string) (now : timestamptz)
      (row : PresenceRow) :
  In row (joined_rows db room now) ->
  exists rp p,
    In rp (room_participants db) /\ rp_room_id rp = room
    /\ In p (profiles db) /\ prof_id p = rp_user_id rp
    /\ row = presence_row db room now rp p.
Proof.
  unfold joined_rows. intros H.
  apply in_flat_map in H as [rp [Hrp Hrow]].
  apply filter_In in Hrp as [Hrp Hroom].
  apply in_map_iff in Hrow as [p [Heq Hp]].
  apply filter_In in Hp as [Hp Hid].
  apply String.eqb_eq in Hroom, Hid.
  exists rp, p. repeat split; auto.
Qed.

Lemma online_case_true (last : option timestamptz) (now : timestamptz) :
  online_case last now = true
  <-> exists t, last = Some t /\ (now - t < ten_minutes)%Z.
Proof.
  unfold online_case. destruct last as [t|].
  - rewrite Z.ltb_lt. split.
    + intros H. exists t. split; [reflexivity|lia].
    + intros [t' [Heq H]]. injection Heq as <-. lia.
  - split; [discriminate|]. intros [t [H _]]. discriminate.
Qed.

(** What the [SELECT] computes: a row is marked online exactly when the
    participant's most recent non-AI message in the room is less than
    ten minutes older than [now]. *)
Lemma presence_query_online_iff (db : Database) (room : string)
      (now : timestamptz) (row : PresenceRow) :
  In row (presence_query db room now) ->
  (is_online row = true
   <-> exists t, lastActivity db room (user_id row) t
                 /\ (now - t < ten_minutes)%Z).
Proof.
  intros Hin. unfold presence_query in Hin.
  apply (proj1 (In_order_by _ _)) in Hin.
  apply In_joined_rows in Hin as (rp & p & _ & _ & _ & Hid & ->).
  unfold presence_row. simpl. rewrite Hid, online_case_true.
  split; intros [t [H Hlt]]; exists t; split; auto;
    now apply last_message_time_spec.
Qed.

(** The client copies the flag of every row it is given. *)
Lemma loadParticipantsWithPresence_flags (rows : list PresenceRow) :
  map Chat.ChatUser.isOnline
      (Chat.loadParticipantsWithPresence
         (Returned (Chat.mkResponse (Some rows) None)))
  = map is_online rows.
Proof. simpl. rewrite map_map. reflexivity. Qed.

(** The sub-select names [user_id] bare, and [user_id] is an output
    column of the procedure. *)
Lemma first_ambiguous_reference :
  find is_ambiguous procedure_references
  = Some (bare "user_id" messages_columns).
Proof. reflexivity. Qed.

Lemma procedure_raises (db : Database) (room : string)
      (now : timestamptz) :
  get_room_participants_with_presence db room now
  = Raised "42702" (ambiguous_column "user_id").
Proof.
  unfold get_room_participants_with_presence.
  now rewrite first_ambiguous_reference.
Qed.

Lemma oneSpeaker_lastActivity (t : timestamptz) :
  lastActivity (oneSpeaker t) "room_1" "u1" t.
Proof. apply last_message_time_spec. reflexivity. Qed.

(** C6. The procedure ends every call by raising: the column [user_id]
    of its sub-select is named bare, and [user_id] is also an output
    column of the procedure. The client takes the error for an empty
    list, so no participant is shown online through this path. At the
    input of the claim -- one participant whose last message is nine
    minutes old -- the [SELECT] alone gives online, as the claim says,
    and the client shows nobody. On the client the creator of a room is
    put in the list as online before any message exists. *)
Theorem C6_presence_procedure_raises_on_every_call :
  forall (db : Database) (room : string) (now : timestamptz),
    get_room_participants_with_presence db room now
    = Raised "42702" (ambiguous_column "user_id")
    /\ loadedParticipants db room now = []
    /\ (forall uid, ~ classifiedOnline db room now uid)
    /\ lastActivity (oneSpeaker (now - 9 * minute)%Z) "room_1" "u1"
                    (now - 9 * minute)%Z
    /\ (now - (now - 9 * minute) < ten_minutes)%Z
    /\ map is_online
           (presence_query (oneSpeaker (now - 9 * minute)%Z) "room_1" now)
       = [true]
    /\ map is_online
           (presence_query (oneSpeaker (now - 10 * minute - second)%Z)
                           "room_1" now)
       = [false]
    /\ ~ classifiedOnline (oneSpeaker (now - 9 * minute)%Z) "room_1" now
                          "u1"
    /\ (let created :=
          Chat.state (Chat.createRoom
                        "Planning"
                        (Chat.initialState (Some ChatSpec.ada) true)
                        (Chat.mkCreateEnv "room_9" 7%Z ExtraSpec.accepted))
        in
        map Chat.ChatUser.isOnline
            (match Chat.currentRoom created with
             | Some r => Chat.ChatRoom.participants r
             | None => []
             end) = [true]
        /\ ChatSpec.roomMessages created = []).
Proof.
  intros db room now.
  assert (Hload : forall d, loadedParticipants d room now = []).
  { intros d. unfold loadedParticipants.
    now rewrite procedure_raises. }
  assert (Hnone : forall d uid, ~ classifiedOnline d room now uid).
  { intros d uid (u & Hin & _). rewrite Hload in Hin. destruct Hin. }
  split; [apply procedure_raises|].
  split; [apply Hload|].
  split; [apply Hnone|].
  split; [apply oneSpeaker_lastActivity|].
  split; [unfold ten_minutes, minute, second; lia|].
  split.
  { cbn. f_equal. apply Z.ltb_lt.
    unfold ten_minutes, minute, second. lia. }
  split.
  { cbn. f_equal. apply Z.ltb_ge.
    unfold ten_minutes, minute, second. lia. }
  split.
  { intros (u & Hin & _). unfold loadedParticipants in Hin.
    rewrite procedure_raises in Hin. destruct Hin. }
  split; reflexivity.
Qed.

End PresenceFacts.

(** ** The AI responder *)

Module ResponderFacts.
Import KlusterAI.
Import ResponderSpec.

Lemma cannedFallbacks_nonempty (s : string) :
  In s cannedFallbacks -> s <> EmptyString.
Proof.
  intros [<-|[<-|[<-|[<-|[]]]]]; discriminate.
Qed.

Lemma orElse_nonempty (o : option string) (d : string) :
  d <> EmptyString -> orElse o d <> EmptyString.
Proof.
  intros Hd. unfold orElse. destruct o as [s|]; [|assumption].
  destruct (JS.isEmpty s) eqn:He; [assumption|].
  now apply isEmpty_false_nonempty.
Qed.

(** The [catch] block returns one of the canned texts, whatever was
    thrown. *)
Lemma generateResponse_catch_canned (e : Thrown) :
  exists s, generateResponse_catch e = Returned s /\ In s cannedFallbacks.
Proof.
  unfold generateResponse_catch, cannedFallbacks.
  destruct e as [message|d].
  - destruct (String.eqb message "AI response timeout").
    + eexists; split; [reflexivity|]. simpl; auto.
    + destruct (JS.includes message "fetch" || JS.includes message "network").
      * eexists; split; [reflexivity|]. simpl; auto.
      * destruct (JS.includes message "401");
          eexists; (split; [reflexivity|]); simpl; auto.
  - eexists; split; [reflexivity|]. simpl; auto.
Qed.

(** C7. For every history and every way the request can end -- the
    20 s timeout, a network error, an authentication error, any other
    error or thrown value, a completion of any shape --
    [generateResponse] returns a non-empty text and throws nothing. On a
    failure the text is one of the canned fallbacks, chosen by the kind
    of failure: timeout, network, authentication, anything else. *)
Theorem C7_generateResponse_never_throws :
  forall (messages : list ChatTurn) (roomName : string)
         (race : RaceOutcome),
    (exists s, snd (generateResponse messages roomName race) = Returned s
               /\ s <> EmptyString
               /\ (forall e, race = Rejected e -> In s cannedFallbacks))
    /\ snd (generateResponse messages roomName (Rejected timeoutError))
       = Returned timeoutFallback
    /\ (forall m,
           String.eqb m "AI response timeout" = false ->
           snd (generateResponse messages roomName (Rejected (ErrorObj m)))
           = Returned
               (if JS.includes m "fetch" || JS.includes m "network"
                then networkFallback
                else if JS.includes m "401" then authFallback
                     else genericFallback))
    /\ (forall d,
           snd (generateResponse messages roomName (Rejected (NonError d)))
           = Returned genericFallback).
Proof.
  intros messages roomName race. split; [|split; [|split]].
  - unfold generateResponse. simpl. destruct race as [c|e]; simpl.
    + destruct (choices c) as [cs|]; simpl.
      * eexists. split; [reflexivity|]. split.
        -- apply orElse_nonempty. discriminate.
        -- intros e He. discriminate.
      * eexists. split; [reflexivity|]. split; [discriminate|].
        intros e He. discriminate.
    + destruct (generateResponse_catch_canned e) as [s [Hs Hin]].
      exists s. split; [assumption|]. split.
      * now apply cannedFallbacks_nonempty.
      * intros _ _. assumption.
  - reflexivity.
  - intros m Hm. unfold generateResponse. simpl. rewrite Hm.
    destruct (JS.includes m "fetch" || JS.includes m "network");
      [reflexivity|].
    destruct (JS.includes m "401"); reflexivity.
  - reflexivity.
Qed.

Lemma C7_generateResponse_never_throws_witness :
  String.eqb "Failed to fetch" "AI response timeout" = false
  /\ snd (generateResponse [] "Planning"
                           (Rejected (ErrorObj "Failed to fetch")))
     = Returned networkFallback.
Proof.
  split; [reflexivity|].
  exact (proj1 (proj2 (proj2 (C7_generateResponse_never_throws
                                [] "Planning" (Rejected timeoutError))))
               "Failed to fetch" eq_refl).
Defined.

Lemma slice_last_length {A} (n : nat) (xs : list A) :
  List.length (slice_last n xs) = Nat.min n (List.length xs).
Proof. unfold slice_last. rewrite length_skipn. lia. Qed.

Lemma slice_last_suffix {A} (n : nat) (xs : list A) :
  xs = firstn (List.length xs - n) xs ++ slice_last n xs.
Proof. unfold slice_last. symmetry. apply firstn_skipn. Qed.

Lemma slice_last_all {A} (n : nat) (xs : list A) :
  List.length xs <= n -> slice_last n xs = xs.
Proof.
  intros H. unfold slice_last.
  replace (List.length xs - n) with 0 by lia. reflexivity.
Qed.

End ResponderFacts.

(** ** The synchronizer *)

Module ChatFacts.
Import Chat.
Import ChatSpec.

(** *** Small facts on the state *)

Lemma withMessages_same (room : ChatRoom.t) (ms : list ChatMessage.t) :
  ChatRoom.withMessages (ChatRoom.withMessages room ms)
                        (ChatRoom.messages room) = room.
Proof. destruct room; reflexivity. Qed.

Lemma filter_other_ids (tempId : string) (ms : list ChatMessage.t) :
  (forall m, In m ms -> ChatMessage.id m <> tempId) ->
  filter (fun m => negb (String.eqb (ChatMessage.id m) tempId)) ms = ms.
Proof.
  induction ms as [|m rest IH]; intros H; simpl; [reflexivity|].
  destruct (String.eqb_spec (ChatMessage.id m) tempId) as [He|Hne]; simpl.
  - exfalso. apply (H m); [now left|assumption].
  - f_equal. apply IH. intros x Hx. apply H. now right.
Qed.

Lemma filter_drops_provisional (tempId : string) (ms : list ChatMessage.t)
      (opt : ChatMessage.t) :
  ChatMessage.id opt = tempId ->
  filter (fun m => negb (String.eqb (ChatMessage.id m) tempId)) (ms ++ [opt])
  = filter (fun m => negb (String.eqb (ChatMessage.id m) tempId)) ms.
Proof.
  intros He. rewrite filter_app. simpl. rewrite He, String.eqb_refl. simpl.
  apply app_nil_r.
Qed.

(** What [sendMessage_begin] does once its guard has passed. *)
Lemma sendMessage_begin_joined (content tempId : string) (now : Z)
      (st : ClientState) (u : AuthUser.t) (room : ChatRoom.t) :
  user st = Some u -> currentRoom st = Some room ->
  supabaseConfigured st = true ->
  exists st1,
    sendMessage_begin content tempId now st
    = Some (mkClosure u room (isAIMuted st) content tempId, st1,
            InsertMessage (ChatRoom.id room) (AuthUser.id u)
                          (AuthUser.name u) (AuthUser.color u) content)
    /\ user st1 = Some u
    /\ supabaseConfigured st1 = true
    /\ isAIResponding st1 = isAIResponding st
    /\ currentRoom st1
       = Some (ChatRoom.withMessages room
                 (ChatRoom.messages room
                  ++ [ChatMessage.mk tempId (ChatRoom.id room)
                        (AuthUser.id u) (AuthUser.name u)
                        (AuthUser.color u) content false now None])).
Proof.
  intros Hu Hr Hc. unfold sendMessage_begin.
  rewrite Hu, Hr, Hc. simpl. eexists. split; [reflexivity|].
  unfold updateCurrentRoom. simpl. rewrite Hr. simpl. repeat split.
  - assumption.
  - assumption.
Qed.

(** C9. A [sendMessage] made with no room joined, or with no signed-in
    user, returns without throwing, issues no request, schedules nothing
    and leaves the whole client state as it was. *)
Theorem C9_sendMessage_guard_is_silent :
  forall (content : string) (st : ClientState) (env : SendEnv),
    user st = None \/ currentRoom st = None ->
    sendMessage content st env = mkResult (Returned tt) st [] [].
Proof.
  intros content st env H. unfold sendMessage, sendMessage_begin.
  destruct H as [H|H]; rewrite H; [reflexivity|].
  destruct (user st); reflexivity.
Qed.

Lemma C9_sendMessage_guard_is_silent_witness :
  currentRoom (initialState (Some ada) true) = None
  /\ sendMessage "hello" (initialState (Some ada) true)
                 (mkSendEnv "temp_1" 0%Z (saved (durableRow "m1" "hello")))
     = mkResult (Returned tt) (initialState (Some ada) true) [] [].
Proof.
  split; [reflexivity|].
  apply C9_sendMessage_guard_is_silent. right. reflexivity.
Defined.

(** C3. When the persistence request of a [sendMessage] fails -- the
    gateway answers it with an error -- the call throws that error and
    the provisional message is taken out again: no message of the room
    carries the provisional id, and, the provisional id being a fresh
    one, the room -- its message list with it -- is what it was before
    the call. No AI turn is scheduled. *)
Theorem C3_failed_send_rolls_back :
  forall (content : string) (st : ClientState) (env : SendEnv)
         (u : AuthUser.t) (room : ChatRoom.t)
         (r : Response MessageRow) (e : PostgrestError),
    user st = Some u -> currentRoom st = Some room ->
    supabaseConfigured st = true ->
    send_insert env = Returned r -> error r = Some e ->
    (forall m, In m (ChatRoom.messages room) ->
               ChatMessage.id m <> send_tempId env) ->
    let res := sendMessage content st env in
    outcome res = Threw (thrownOf e)
    /\ roomMessages (state res) = ChatRoom.messages room
    /\ currentRoom (state res) = Some room
    /\ currentRoomRef (state res) = Some room
    /\ (forall m, In m (roomMessages (state res)) ->
                  ChatMessage.id m <> send_tempId env)
    /\ scheduled res = [].
Proof.
  intros content st env u room r e Hu Hr Hc Hins Herr Hfresh res.
  destruct (sendMessage_begin_joined content (send_tempId env)
              (send_now env) st u room Hu Hr Hc)
    as (st1 & Hbegin & _ & _ & _ & Hroom1).
  assert (Hstate : currentRoom (state res) = Some room
                   /\ currentRoomRef (state res) = Some room
                   /\ outcome res = Threw (thrownOf e)
                   /\ scheduled res = []).
  { unfold res, sendMessage. rewrite Hbegin. simpl.
    unfold sendMessage_resume. rewrite Hins, Herr. simpl.
    unfold rollback, updateCurrentRoom. simpl. rewrite Hroom1. simpl.
    rewrite filter_drops_provisional by reflexivity.
    rewrite (filter_other_ids _ _ Hfresh).
    rewrite withMessages_same. repeat split. }
  destruct Hstate as (Hcur & Href & Hout & Hsched).
  assert (Hmsgs : roomMessages (state res) = ChatRoom.messages room).
  { unfold roomMessages. rewrite Hcur. reflexivity. }
  repeat split; try assumption.
  rewrite Hmsgs. exact Hfresh.
Qed.

Lemma C3_failed_send_rolls_back_witness :
  let st := joined (roomWith false [messageOfRow (durableRow "m1" "hi")]) in
  let env := mkSendEnv "temp_1" 5%Z (refused "row-level security") in
  outcome (sendMessage "hello" st env)
  = Threw (NonError "row-level security")
  /\ roomMessages (state (sendMessage "hello" st env))
     = [messageOfRow (durableRow "m1" "hi")].
Proof.
  intros st env.
  assert (Hfresh : forall m,
             In m (ChatRoom.messages
                     (roomWith false [messageOfRow (durableRow "m1" "hi")])) ->
             ChatMessage.id m <> send_tempId env).
  { intros m [<-|[]]. discriminate. }
  destruct (C3_failed_send_rolls_back "hello" st env ada
              (roomWith false [messageOfRow (durableRow "m1" "hi")])
              (mkResponse None (Some (mkPgError "42501" "row-level security")))
              (mkPgError "42501" "row-level security")
              eq_refl eq_refl eq_refl eq_refl eq_refl Hfresh)
    as (Hout & Hmsgs & _).
  split; [exact Hout|exact Hmsgs].
Defined.

(** *** The AI mention *)

Lemma startsWith_lower (p s : string) :
  JS.startsWith s p = true ->
  JS.startsWith (JS.toLowerCase s) (JS.toLowerCase p) = true.
Proof.
  revert s. induction p as [|c p IH]; intros s H; [reflexivity|].
  destruct s as [|d s]; [discriminate|].
  change (Ascii.eqb c d && JS.startsWith s p = true) in H.
  apply andb_true_iff in H as [Hc Hs]. apply Ascii.eqb_eq in Hc. subst d.
  change (Ascii.eqb (JS.lowerChar c) (JS.lowerChar c)
          && JS.startsWith (JS.toLowerCase s) (JS.toLowerCase p) = true).
  rewrite Ascii.eqb_refl. simpl. now apply IH.
Qed.

Lemma includes_lower (p s : string) :
  JS.includes s p = true ->
  JS.includes (JS.toLowerCase s) (JS.toLowerCase p) = true.
Proof.
  induction s as [|d s IH]; intros H.
  - change (JS.startsWith EmptyString p || false = true) in H.
    rewrite orb_false_r in H. apply startsWith_lower in H.
    change (JS.startsWith (JS.toLowerCase EmptyString) (JS.toLowerCase p)
            || false = true).
    now rewrite H.
  - change (JS.startsWith (String d s) p || JS.includes s p = true) in H.
    change (JS.startsWith (JS.toLowerCase (String d s)) (JS.toLowerCase p)
            || JS.includes (JS.toLowerCase s) (JS.toLowerCase p) = true).
    apply orb_true_iff in H as [H|H]; apply orb_true_iff.
    + left. now apply startsWith_lower.
    + right. now apply IH.
Qed.

(** The test of [sendMessage] is the case-insensitive search for
    "@ai". *)
Lemma mentionsAI_spec (content : string) :
  mentionsAI content = containsIgnoreCase content "@ai".
Proof.
  unfold mentionsAI, containsIgnoreCase.
  change (JS.toLowerCase "@ai") with "@ai".
  destruct (JS.includes (JS.toLowerCase content) "@ai") eqn:H.
  - apply orb_true_r.
  - rewrite orb_false_r.
    destruct (JS.includes content "@AI") eqn:H'; [|reflexivity].
    apply includes_lower in H'.
    change (JS.toLowerCase "@AI") with "@ai" in H'. congruence.
Qed.

(** *** Whether an AI turn follows a send *)

Lemma sendMessage_cases (content : string) (st : ClientState)
      (env : SendEnv) :
  let res := sendMessage content st env in
  (guardPasses st = false /\ res = mkResult (Returned tt) st [] [])
  \/ (exists cl st1 call,
         guardPasses st = true
         /\ sendMessage_begin content (send_tempId env) (send_now env) st
            = Some (cl, st1, call)
         /\ c_isAIMuted cl = isAIMuted st /\ c_content cl = content
         /\ isAICall call = false
         /\ res = mkResult
                    (outcome (sendMessage_resume cl (send_insert env) st1))
                    (state (sendMessage_resume cl (send_insert env) st1))
                    (call :: calls (sendMessage_resume cl (send_insert env)
                                                       st1))
                    (scheduled (sendMessage_resume cl (send_insert env)
                                                   st1))).
Proof.
  unfold sendMessage, sendMessage_begin, guardPasses.
  destruct (user st) as [u|]; [|left; split; reflexivity].
  destruct (currentRoom st) as [room|] eqn:Hr;
    [|left; split; reflexivity].
  destruct (supabaseConfigured st); simpl;
    [|left; split; reflexivity].
  right. do 3 eexists. repeat split.
Qed.

Lemma resume_triggered (cl : SendClosure) (a : Awaited MessageRow)
      (st : ClientState) :
  aiTurnTriggered (sendMessage_resume cl a st)
  = insertSucceeded a && negb (c_isAIMuted cl) && mentionsAI (c_content cl).
Proof.
  unfold sendMessage_resume, insertSucceeded, aiTurnTriggered.
  destruct a as [r|e]; [|reflexivity].
  destruct (error r); [reflexivity|]. simpl.
  destruct (negb (c_isAIMuted cl) && mentionsAI (c_content cl));
    reflexivity.
Qed.

Lemma resume_quiet (cl : SendClosure) (a : Awaited MessageRow)
      (st : ClientState) :
  negb (c_isAIMuted cl) && mentionsAI (c_content cl) = false ->
  scheduled (sendMessage_resume cl a st) = []
  /\ calls (sendMessage_resume cl a st) = []
  /\ (insertSucceeded a = true ->
      outcome (sendMessage_resume cl a st) = Returned tt
      /\ isAIResponding (state (sendMessage_resume cl a st))
         = isAIResponding st).
Proof.
  intros Hq. unfold sendMessage_resume, insertSucceeded.
  destruct a as [r|e]; [|repeat split; discriminate].
  destruct (error r); [repeat split; discriminate|].
  rewrite Hq. repeat split.
  destruct (data r); [|reflexivity].
  unfold reconcile, updateCurrentRoom. simpl.
  destruct (currentRoom st); reflexivity.
Qed.

Lemma aiTurn_try_probes_first (cl : SendClosure) (st : ClientState)
      (aienv : AIEnv) :
  exists rest, calls (aiTurn_try cl st aienv) = TestConnection :: rest.
Proof.
  unfold aiTurn_try.
  destruct (negb (KlusterAI.testConnection (ai_probe aienv))).
  - destruct (ai_fallback_insert aienv); eexists; reflexivity.
  - unfold KlusterAI.generateResponse.
    destruct (try_catch (KlusterAI.generateResponse_try (ai_race aienv))
                        KlusterAI.generateResponse_catch);
      [|eexists; reflexivity].
    destruct (ai_insert aienv) as [r|e]; [|eexists; reflexivity].
    destruct (error r); [|eexists; reflexivity].
    destruct (ai_fallback_insert aienv); eexists; reflexivity.
Qed.

(** The AI turn never throws, and its first request is the probe. *)
Lemma aiTurn_probes_first (cl : SendClosure) (st : ClientState)
      (aienv : AIEnv) :
  outcome (aiTurn cl st aienv) = Returned tt
  /\ exists rest, calls (aiTurn cl st aienv) = TestConnection :: rest.
Proof.
  unfold aiTurn.
  destruct (aiTurn_try_probes_first cl st aienv) as [rest Hrest].
  destruct (outcome (aiTurn_try cl st aienv)) as [[]|e] eqn:Ho.
  - split; [assumption|]. now exists rest.
  - split; [reflexivity|]. simpl. rewrite Hrest. eexists. reflexivity.
Qed.

(** A send that mentions the AI in an unmuted room and whose insert is
    refused schedules no AI turn. *)
Lemma C4_refused_send_triggers_nothing : ~ turnIffMentionAndUnmuted.
Proof.
  intros H.
  specialize (H "@AI hello" (joined (roomWith false []))
                (mkSendEnv "temp_1" 0%Z (refused "permission denied"))).
  destruct H as [_ H]. specialize (H (conj eq_refl eq_refl)).
  discriminate H.
Qed.

(** C4, amended. A [sendMessage] schedules the AI turn exactly when its
    guard passes, its insert request is answered without an error, the
    content contains "@ai" in any letter case and the room's AI is not
    muted; the AI turn then starts with the probe. When the content
    mentions the AI, the AI is muted and the insert succeeds, the call
    returns normally, schedules nothing, leaves the AI-responding flag
    alone, and neither the probe nor the generate request is issued. *)
Theorem C4_ai_turn_trigger :
  forall (content : string) (st : ClientState) (env : SendEnv),
    let res := sendMessage content st env in
    aiTurnTriggered res
    = guardPasses st && insertSucceeded (send_insert env)
      && negb (isAIMuted st) && containsIgnoreCase content "@ai"
    /\ (aiTurnTriggered res = true ->
        forall aienv, In TestConnection
                         (sendAndRespond content st env aienv))
    /\ (containsIgnoreCase content "@ai" = true ->
        isAIMuted st = true ->
        guardPasses st = true ->
        insertSucceeded (send_insert env) = true ->
        outcome res = Returned tt
        /\ scheduled res = []
        /\ isAIResponding (state res) = isAIResponding st
        /\ forall aienv c, In c (sendAndRespond content st env aienv) ->
                           isAICall c = false).
Proof.
  intros content st env res.
  rewrite <- mentionsAI_spec.
  destruct (sendMessage_cases content st env)
    as [[Hg Hres]|(cl & st1 & call & Hg & Hbegin & Hm & Hc & Hcall & Hres)];
    fold res in Hres.
  - rewrite Hg. split; [rewrite Hres; reflexivity|]. split.
    + rewrite Hres. discriminate.
    + intros _ _ Habs. discriminate Habs.
  - assert (Ht : aiTurnTriggered res
                 = insertSucceeded (send_insert env)
                   && negb (isAIMuted st) && mentionsAI content).
    { rewrite Hres. unfold aiTurnTriggered. simpl.
      fold (aiTurnTriggered (sendMessage_resume cl (send_insert env) st1)).
      rewrite resume_triggered, Hm, Hc. reflexivity. }
    split; [rewrite Ht, Hg; reflexivity|]. split.
    + intros Htrig aienv. unfold sendAndRespond. fold res.
      apply in_or_app. right.
      unfold aiTurnTriggered in Htrig.
      apply existsb_exists in Htrig as [t [Hin Hturn]].
      apply in_flat_map. exists t. split; [assumption|].
      destruct t as [ms|ms cl'|ms rid]; try discriminate.
      destruct (aiTurn_probes_first cl' (state res) aienv)
        as [_ [rest ->]].
      now left.
    + intros _ Hmuted _ Hok.
      assert (Hq : negb (c_isAIMuted cl) && mentionsAI (c_content cl)
                   = false) by (rewrite Hm, Hmuted; reflexivity).
      destruct (resume_quiet cl (send_insert env) st1 Hq)
        as (Hs & Hcs & Hrest).
      destruct (Hrest Hok) as [Hout Hflag].
      assert (Hflag1 : isAIResponding st1 = isAIResponding st).
      { unfold sendMessage_begin in Hbegin.
        destruct (user st); [|discriminate].
        destruct (currentRoom st) eqn:Hr; [|discriminate].
        destruct (supabaseConfigured st); [|discriminate].
        simpl in Hbegin. injection Hbegin as _ <- _.
        unfold updateCurrentRoom. simpl. rewrite Hr. reflexivity. }
      rewrite Hres. simpl. repeat split.
      * assumption.
      * assumption.
      * congruence.
      * intros aienv c. unfold sendAndRespond. fold res. rewrite Hres.
        simpl. rewrite Hs, Hcs. simpl.
        intros [<-|[]]. assumption.
Qed.

Lemma C4_ai_turn_trigger_witness :
  let st := joined (roomWith true []) in
  let env := mkSendEnv "temp_1" 0%Z (saved (durableRow "m1" "@AI hello")) in
  containsIgnoreCase "@AI hello" "@ai" = true
  /\ isAIMuted st = true
  /\ outcome (sendMessage "@AI hello" st env) = Returned tt
  /\ scheduled (sendMessage "@AI hello" st env) = [].
Proof.
  intros st env.
  destruct (C4_ai_turn_trigger "@AI hello" st env) as (_ & _ & H).
  destruct (H eq_refl eq_refl eq_refl eq_refl) as (Hout & Hs & _).
  split; [reflexivity|]. split; [reflexivity|].
  split; [exact Hout|exact Hs].
Defined.

(** *** What the caller learns of a failure *)

Lemma toggleAIMute_returns (st : ClientState) (rpc : Awaited string) :
  outcome (toggleAIMute st rpc) = Returned tt
  /\ state (toggleAIMute st rpc) = st
  /\ scheduled (toggleAIMute st rpc) = [].
Proof.
  unfold toggleAIMute.
  destruct (currentRoom st); [|repeat split].
  destruct (user st); [|repeat split].
  destruct rpc as [r|e]; [|repeat split].
  destruct (error r); repeat split.
Qed.

(** A failed load ends like a load that found nothing. *)
Lemma loadParticipantsWithPresence_failed
      (a : Awaited (list Storage.PresenceRow)) :
  requestFailed a -> loadParticipantsWithPresence a = [].
Proof.
  intros H. destruct a as [r|e]; [|reflexivity]. simpl in H |- *.
  destruct (error r); [reflexivity|congruence].
Qed.

Lemma loadRoomMessages_failed (a : Awaited (list MessageRow)) :
  requestFailed a -> loadRoomMessages a = [].
Proof.
  intros H. destruct a as [r|e]; [|reflexivity]. simpl in H |- *.
  destruct (error r); [reflexivity|congruence].
Qed.

Lemma loadRoomSettings_failed (roomId : string)
      (a : Awaited (list SettingsRow)) :
  requestFailed a -> loadRoomSettings roomId a = defaultSettings roomId.
Proof.
  intros H. destruct a as [r|e]; [|reflexivity]. simpl in H |- *.
  destruct (error r); [reflexivity|congruence].
Qed.

(** A refused toggle request ends like an accepted one, and a join whose
    loads are refused returns [true]: the claim fails on both. *)
Lemma C8_toggle_and_load_failures_are_swallowed :
  ~ syncFailuresPropagate /\ ~ toggleReports /\ ~ joinReportsLoads.
Proof.
  assert (Htoggle : ~ toggleReports).
  { intros H.
    specialize (H (joined (roomWith false [])) (refused "not a participant")).
    simpl in H.
    assert (Hrep : noFailureValue tt = true) by (apply H; discriminate).
    discriminate Hrep. }
  assert (Hloads : ~ joinReportsLoads).
  { intros H.
    specialize (H "room_2" (initialState (Some ada) true) nothingLoads).
    assert (Hrep : reported negb
                     (outcome (joinRoom "room_2"
                                 (initialState (Some ada) true)
                                 nothingLoads))).
    { apply H. left. simpl. discriminate. }
    simpl in Hrep. discriminate Hrep. }
  split; [|split; assumption].
  intros (_ & _ & _ & H & _). exact (Htoggle H).
Qed.

Lemma joinRoom_reports : joinReports.
Proof.
  intros roomId st env H. unfold joinRoom.
  destruct (supabaseConfigured st) eqn:Hc; simpl; [|split; [exact I|reflexivity]].
  destruct (user st) as [u|] eqn:Hu; [|split; reflexivity].
  destruct (join_rpc env) as [jr|e] eqn:Hj; [|split; reflexivity].
  destruct (rpcFailed jr) eqn:Hjr; [split; reflexivity|].
  destruct (join_room env) as [rr|e] eqn:Hroom; [|split; reflexivity].
  destruct (error rr) as [err|] eqn:He; [split; reflexivity|].
  destruct (data rr) as [roomData|] eqn:Hd; [|split; reflexivity].
  exfalso. destruct H as [H|[H|[H|H]]]; simpl in H.
  - discriminate.
  - discriminate.
  - congruence.
  - destruct H as [H|H]; congruence.
Qed.

Lemma createRoom_reports : createReports.
Proof.
  intros roomName st env H. unfold createRoom.
  destruct (supabaseConfigured st) eqn:Hc; simpl; [|split; [exact I|reflexivity]].
  destruct (user st) as [u|] eqn:Hu; [|split; [exact I|reflexivity]].
  destruct (create_rpc env) as [r|e] eqn:Hr; [|split; [exact I|reflexivity]].
  destruct (rpcFailed r) eqn:Hf; [split; [exact I|reflexivity]|].
  exfalso. destruct H as [H|[H|H]]; simpl in H; congruence.
Qed.

Lemma sendMessage_reports : sendReports.
Proof.
  intros content st env Hg Hfail.
  destruct (sendMessage_cases content st env)
    as [[Hg' _]|(cl & st1 & call & _ & _ & _ & _ & _ & ->)];
    [congruence|].
  simpl. unfold sendMessage_resume.
  destruct (send_insert env) as [r|e]; [|exact I].
  simpl in Hfail. destruct (error r); [exact I|congruence].
Qed.

(** A join that meets none of the failures returns [true] and publishes
    the room: [false] is not returned on success. *)
Lemma joinRoom_succeeds (roomId : string) (st : ClientState) (env : JoinEnv)
      (u : AuthUser.t) (roomData : RoomRow) :
  supabaseConfigured st = true -> user st = Some u ->
  join_rpc env = Returned (mkResponse (Some true) None) ->
  join_room env = Returned (mkResponse (Some roomData) None) ->
  outcome (joinRoom roomId st env) = Returned true
  /\ exists room, currentRoom (state (joinRoom roomId st env)) = Some room
                  /\ ChatRoom.id room = room_id roomData.
Proof.
  intros Hc Hu Hj Hr. unfold joinRoom, setupRealtimeSubscriptions.
  rewrite Hc, Hu, Hj, Hr. simpl. split; [reflexivity|].
  eexists. split; reflexivity.
Qed.

(** A join whose request and room row came back returns [true] and
    publishes the room with what its loads gave. *)
Lemma joinRoom_swallows_loads : joinSwallowsLoads.
Proof.
  intros roomId st env u jr rr roomData Hc Hu Hj Hjr Hr He Hd.
  unfold joinRoom, setupRealtimeSubscriptions.
  rewrite Hc, Hu, Hj, Hjr, Hr, He, Hd. simpl.
  split; [reflexivity|].
  eexists. split; [reflexivity|]. simpl.
  split; [reflexivity|]. split; [reflexivity|]. split; [reflexivity|].
  split; [reflexivity|]. split; [|split].
  - apply loadParticipantsWithPresence_failed.
  - apply loadRoomMessages_failed.
  - apply loadRoomSettings_failed.
Qed.

(** C8, amended. A failure of [joinRoom] to get in (no configuration, no
    user, a refused join request, a room that does not resolve) is
    reported: the call throws or returns [false], and the current room
    stays as it was. A failure of [createRoom] and a failed insert
    request of [sendMessage] are thrown to the caller. Two failures are
    not reported. Once the join request and the row of the room have
    come back, [joinRoom] returns [true] whatever its three loads
    answer, and publishes the room without what a failed load would have
    given: no participants, no messages, the default settings.
    [toggleAIMute] reports nothing: whatever its request answers, it
    returns normally and leaves the state unchanged. *)
Theorem C8_failures_reported_but_toggle_and_loads :
  joinReports /\ createReports /\ sendReports
  /\ joinSwallowsLoads
  /\ (forall (st : ClientState) (rpc : Awaited string),
         outcome (toggleAIMute st rpc) = Returned tt
         /\ state (toggleAIMute st rpc) = st
         /\ scheduled (toggleAIMute st rpc) = []).
Proof.
  split; [exact joinRoom_reports|].
  split; [exact createRoom_reports|].
  split; [exact sendMessage_reports|].
  split; [exact joinRoom_swallows_loads|].
  exact toggleAIMute_returns.
Qed.

Lemma C8_failures_reported_but_toggle_and_loads_witness :
  let st := joined (roomWith false []) in
  let env := mkSendEnv "temp_1" 0%Z (refused "permission denied") in
  (guardPasses st = true
   /\ requestFailed (send_insert env)
   /\ reported noFailureValue (outcome (sendMessage "hello" st env)))
  /\ (requestFailed (join_participants nothingLoads)
      /\ outcome (joinRoom "room_2" (initialState (Some ada) true)
                           nothingLoads) = Returned true).
Proof.
  intros st env.
  assert (Hf : requestFailed (send_insert env)) by (simpl; discriminate).
  assert (Hl : requestFailed (join_participants nothingLoads))
    by (simpl; discriminate).
  split.
  - split; [reflexivity|]. split; [exact Hf|].
    exact (proj1 (proj2 (proj2 C8_failures_reported_but_toggle_and_loads))
                 "hello" st env eq_refl Hf).
  - split; [exact Hl|].
    exact (proj1 (proj1 (proj2 (proj2 (proj2
                   C8_failures_reported_but_toggle_and_loads)))
                   "room_2" (initialState (Some ada) true) nothingLoads
                   ada _ _ _ eq_refl eq_refl eq_refl eq_refl eq_refl
                   eq_refl eq_refl)).
Defined.

(** *** The reply target *)

Lemma firstPass_mention (content : string) (l : list ChatMessage.t) :
  mentionsAI content = true -> firstPass content l = secondPass l.
Proof.
  intros Hm. induction l as [|m rest IH]; simpl; [reflexivity|].
  destruct (ChatMessage.isAI m); simpl; [assumption|].
  now rewrite Hm.
Qed.

Lemma secondPass_some (l : list ChatMessage.t) (m : ChatMessage.t) :
  secondPass l = Some m ->
  exists skipped rest,
    l = skipped ++ m :: rest
    /\ ChatMessage.isAI m = false
    /\ Forall (fun x => ChatMessage.isAI x = true) skipped.
Proof.
  induction l as [|x l IH]; simpl; [discriminate|].
  destruct (ChatMessage.isAI x) eqn:Hx; simpl.
  - intros H. destruct (IH H) as (sk & rest & -> & Hm & Hall).
    exists (x :: sk), rest. repeat split; auto.
  - intros H. injection H as <-. exists [], l. repeat split; auto.
Qed.

Lemma secondPass_skips (skipped rest : list ChatMessage.t)
      (m : ChatMessage.t) :
  Forall (fun x => ChatMessage.isAI x = true) skipped ->
  ChatMessage.isAI m = false ->
  secondPass (skipped ++ m :: rest) = Some m.
Proof.
  intros Hall Hm. induction Hall as [|x sk Hx _ IH]; simpl.
  - now rewrite Hm.
  - now rewrite Hx.
Qed.

Lemma secondPass_none (l : list ChatMessage.t) :
  secondPass l = None <-> Forall (fun x => ChatMessage.isAI x = true) l.
Proof.
  induction l as [|x l IH]; simpl.
  - split; auto.
  - destruct (ChatMessage.isAI x) eqn:Hx; simpl.
    + rewrite IH. split.
      * intros H. now constructor.
      * intros H. now inversion H.
    + split; [discriminate|]. intros H. inversion H. congruence.
Qed.

Lemma Forall_rev_iff {A} (P : A -> Prop) (l : list A) :
  Forall P (rev l) <-> Forall P l.
Proof.
  rewrite !Forall_forall. split; intros H x Hx; apply H.
  - now apply -> in_rev.
  - now apply <- in_rev in Hx.
Qed.

Lemma findReplyTarget_mention (content : string) (ms : list ChatMessage.t)
      (m : ChatMessage.t) :
  mentionsAI content = true ->
  (findReplyTarget content ms = Some m <-> mostRecentNonAI ms m).
Proof.
  intros Hc. unfold findReplyTarget. rewrite (firstPass_mention _ _ Hc).
  assert (Heq : match secondPass (rev ms) with
                | Some x => Some x
                | None => secondPass (rev ms)
                end = secondPass (rev ms))
    by (destruct (secondPass (rev ms)); reflexivity).
  rewrite Heq. split.
  - intros H. apply secondPass_some in H as (sk & rest & Hrev & Hm & Hall).
    exists (rev rest), (rev sk). repeat split.
    + rewrite <- (rev_involutive ms), Hrev, rev_app_distr. simpl.
      now rewrite <- app_assoc.
    + assumption.
    + now apply Forall_rev_iff.
  - intros (older & newer & -> & Hm & Hall).
    rewrite rev_app_distr. simpl. rewrite <- app_assoc. simpl.
    apply secondPass_skips; [now apply Forall_rev_iff|assumption].
Qed.

(** On the history of the specification the target is the triggering
    message itself, not the message before it. *)
Lemma C2_target_is_the_trigger :
  findReplyTarget "@AI can you help?" [planQuestion; notSure; helpRequest]
  = Some helpRequest
  /\ findReplyTarget "@AI can you help?"
                     [planQuestion; notSure; helpRequest]
     <> Some notSure.
Proof.
  split; [reflexivity|]. intros H. discriminate H.
Qed.

(** C2, amended. When the triggering content contains "@ai" in any
    letter case, [findReplyTarget] scans the messages it is given most
    recent first, skips the messages of the AI and returns the most
    recent other message, or nothing when the AI wrote them all. The list
    [sendMessage] hands over is the room's list, the triggering message
    included: on the history [userA: "what's the plan?", userB: "not
    sure", userA: "@AI can you help?"] the target is userA's
    "@AI can you help?", and the AI turn that follows that send stores
    its answer as a reply to it. *)
Theorem C2_reply_target_on_mention :
  forall (content : string) (ms : list ChatMessage.t),
    containsIgnoreCase content "@ai" = true ->
    (forall m, findReplyTarget content ms = Some m <-> mostRecentNonAI ms m)
    /\ (findReplyTarget content ms = None
        <-> Forall (fun x => ChatMessage.isAI x = true) ms)
    /\ findReplyTarget "@AI can you help?"
                       [planQuestion; notSure; helpRequest]
       = Some helpRequest
    /\ (let sent :=
          sendMessage "@AI can you help?"
                      (joined (roomWith false [planQuestion; notSure]))
                      (mkSendEnv "temp_1" 0%Z
                         (saved (durableRow "m3" "@AI can you help?"))) in
        roomMessages (state sent) = [planQuestion; notSure; helpRequest]
        /\ exists cl,
             scheduled sent = [ClearAIResponding 25000; AITurn 1500 cl]
             /\ In (RpcInsertAiMessageWithReply
                      "room_1" "Here is a plan."
                      (Some (ReplyingTo.mk "u-a" "userA"
                                           "@AI can you help?")))
                   (calls (aiTurn cl (state sent) aiWorks))).
Proof.
  intros content ms Hc. rewrite <- mentionsAI_spec in Hc.
  split; [intros m; now apply findReplyTarget_mention|].
  split; [|split; [reflexivity|]].
  - unfold findReplyTarget. rewrite (firstPass_mention _ _ Hc).
    destruct (secondPass (rev ms)) as [m|] eqn:Hs.
    + split; [discriminate|]. intros Hall.
      apply Forall_rev_iff in Hall. apply secondPass_none in Hall.
      congruence.
    + split; [|reflexivity]. intros _.
      apply Forall_rev_iff. now apply secondPass_none.
  - split; [reflexivity|].
    eexists. split; [reflexivity|].
    vm_compute. right. right. left. reflexivity.
Qed.

Lemma C2_reply_target_on_mention_witness :
  containsIgnoreCase "@AI can you help?" "@ai" = true
  /\ mostRecentNonAI [planQuestion; notSure; helpRequest] helpRequest.
Proof.
  split; [reflexivity|].
  exact (proj1 (proj1 (C2_reply_target_on_mention
                         "@AI can you help?"
                         [planQuestion; notSure; helpRequest] eq_refl)
                      helpRequest)
               eq_refl).
Defined.

(** *** What reaches the model *)

Lemma recentContext_length (ms : list ChatMessage.t) :
  List.length (recentContext ms) <= 10.
Proof.
  unfold recentContext.
  rewrite length_map, ResponderFacts.slice_last_length. lia.
Qed.

Lemma aiTurn_sends_request (cl : SendClosure) (st : ClientState)
      (aienv : AIEnv) :
  KlusterAI.testConnection (ai_probe aienv) = true ->
  In (CompletionsCreate
        (KlusterAI.buildRequest (recentContext (refMessages st))
                                (ChatRoom.name (c_room cl))))
     (calls (aiTurn cl st aienv)).
Proof.
  intros Hp. unfold aiTurn, aiTurn_try. rewrite Hp. simpl.
  destruct (try_catch (KlusterAI.generateResponse_try (ai_race aienv))
                      KlusterAI.generateResponse_catch) as [text|e];
    [|simpl; auto].
  destruct (ai_insert aienv) as [r|e]; [|simpl; auto].
  destruct (error r); [|simpl; auto].
  destruct (ai_fallback_insert aienv); simpl; auto.
Qed.

(** C10. Whatever history [generateResponse] is given, the request it
    sends holds the system prompt followed by the last five entries of
    the history, all of them when there are five or fewer. The
    synchronizer supplies at most ten entries, so the request of an AI
    turn holds the system prompt and at most five of them. *)
Theorem C10_request_holds_last_five :
  forall (messages : list KlusterAI.ChatTurn) (roomName : string)
         (race : KlusterAI.RaceOutcome),
    let request := fst (KlusterAI.generateResponse messages roomName race) in
    KlusterAI.req_messages request
    = KlusterAI.mkTurn KlusterAI.system (KlusterAI.systemPrompt roomName)
      :: KlusterAI.slice_last 5 messages
    /\ messages = firstn (List.length messages - 5) messages
                  ++ KlusterAI.slice_last 5 messages
    /\ List.length (KlusterAI.slice_last 5 messages)
       = Nat.min 5 (List.length messages)
    /\ (List.length messages <= 5 ->
        KlusterAI.slice_last 5 messages = messages)
    /\ (forall (cl : SendClosure) (st : ClientState) (aienv : AIEnv),
           KlusterAI.testConnection (ai_probe aienv) = true ->
           let context := recentContext (refMessages st) in
           let sent := KlusterAI.buildRequest context
                                              (ChatRoom.name (c_room cl)) in
           In (CompletionsCreate sent) (calls (aiTurn cl st aienv))
           /\ List.length context <= 10
           /\ KlusterAI.req_messages sent
              = KlusterAI.mkTurn KlusterAI.system
                  (KlusterAI.systemPrompt (ChatRoom.name (c_room cl)))
                :: KlusterAI.slice_last 5 context
           /\ List.length (KlusterAI.slice_last 5 context) <= 5).
Proof.
  intros messages roomName race request.
  split; [reflexivity|].
  split; [apply ResponderFacts.slice_last_suffix|].
  split; [apply ResponderFacts.slice_last_length|].
  split; [apply ResponderFacts.slice_last_all|].
  intros cl st aienv Hp context sent.
  split; [now apply aiTurn_sends_request|].
  split; [apply recentContext_length|].
  split; [reflexivity|].
  rewrite ResponderFacts.slice_last_length. lia.
Qed.

Lemma C10_request_holds_last_five_witness :
  List.length [turn "1"; turn "2"; turn "3"] <= 5
  /\ KlusterAI.slice_last 5 [turn "1"; turn "2"; turn "3"]
     = [turn "1"; turn "2"; turn "3"].
Proof.
  assert (H : List.length [turn "1"; turn "2"; turn "3"] <= 5)
    by (simpl; lia).
  split; [exact H|].
  exact (proj1 (proj2 (proj2 (proj2
           (C10_request_holds_last_five
              [turn "1"; turn "2"; turn "3"] "Planning"
              (KlusterAI.Rejected KlusterAI.timeoutError))))) H).
Defined.

(** Seven entries: the first two never reach the model. *)
Example seven_entries_five_sent :
  KlusterAI.req_messages
    (fst (KlusterAI.generateResponse
            [turn "1"; turn "2"; turn "3"; turn "4"; turn "5"; turn "6";
             turn "7"]
            "Planning" (KlusterAI.Rejected KlusterAI.timeoutError)))
  = KlusterAI.mkTurn KlusterAI.system (KlusterAI.systemPrompt "Planning")
    :: [turn "3"; turn "4"; turn "5"; turn "6"; turn "7"].
Proof. reflexivity. Qed.

(** *** The two paths that deliver a saved message *)

(** The participants reload that ends the insert handler leaves the
    messages alone. *)
Lemma refreshParticipants_keeps_messages (roomId : string)
      (resp : Awaited (list Storage.PresenceRow)) (st : ClientState) :
  roomMessages (refreshParticipants roomId resp st) = roomMessages st.
Proof.
  unfold refreshParticipants, updateCurrentRoom, roomMessages.
  destruct (currentRoom st) as [r|] eqn:Hr; [|now rewrite Hr].
  destruct (String.eqb (ChatRoom.id r) roomId); simpl; [reflexivity|].
  now rewrite Hr.
Qed.

Lemma currentRoom_resume (cl : SendClosure) (row : MessageRow)
      (st : ClientState) (r : ChatRoom.t) :
  currentRoom st = Some r ->
  currentRoom (state (sendMessage_resume cl (saved row) st))
  = Some (ChatRoom.withMessages r
            (map (swapIn (c_tempId cl) row) (ChatRoom.messages r))).
Proof.
  intros Hr. unfold sendMessage_resume, saved. simpl.
  destruct (negb (c_isAIMuted cl) && mentionsAI (c_content cl)); simpl;
    unfold reconcile, updateCurrentRoom; simpl; rewrite Hr; reflexivity.
Qed.

Lemma currentRoom_event (roomId : string) (row : MessageRow)
      (st : ClientState) (r : ChatRoom.t) :
  currentRoom st = Some r -> ChatRoom.id r = roomId ->
  currentRoom (onMessageInsert_apply roomId row st)
  = Some (if existsb (hasId (row_id row)) (ChatRoom.messages r) then r
          else ChatRoom.withMessages r
                 (ChatRoom.messages r ++ [messageOfRow row])).
Proof.
  intros Hr Hid. unfold onMessageInsert_apply, updateCurrentRoom.
  assert (Hcur : currentRoom
                   (setPending
                      (set_delete (ChatMessage.id (messageOfRow row))
                         (pendingMessagesRef
                            (if ChatMessage.isAI (messageOfRow row)
                             then clearAIResponding st else st)))
                      (if ChatMessage.isAI (messageOfRow row)
                       then clearAIResponding st else st))
                 = Some r).
  { destruct (ChatMessage.isAI (messageOfRow row)); simpl; assumption. }
  rewrite Hcur, Hid, String.eqb_refl.
  change (ChatMessage.id (messageOfRow row)) with (row_id row).
  fold (hasId (row_id row)).
  destruct (existsb (hasId (row_id row)) (ChatRoom.messages r));
    [assumption|reflexivity].
Qed.

Lemma swapIn_others (tempId : string) (row : MessageRow)
      (ms : list ChatMessage.t) :
  (forall m, In m ms -> ChatMessage.id m <> tempId) ->
  map (swapIn tempId row) ms = ms.
Proof.
  induction ms as [|m rest IH]; intros H; simpl; [reflexivity|].
  unfold swapIn at 1.
  destruct (String.eqb_spec (ChatMessage.id m) tempId) as [He|_].
  - exfalso. apply (H m); [now left|assumption].
  - f_equal. apply IH. intros x Hx. apply H. now right.
Qed.

Lemma existsb_hasId_false (d : string) (ms : list ChatMessage.t) :
  (forall m, In m ms -> ChatMessage.id m <> d) ->
  existsb (hasId d) ms = false.
Proof.
  induction ms as [|m rest IH]; intros H; simpl; [reflexivity|].
  unfold hasId at 1.
  destruct (String.eqb_spec (ChatMessage.id m) d) as [He|_].
  - exfalso. apply (H m); [now left|assumption].
  - apply IH. intros x Hx. apply H. now right.
Qed.

Lemma countId_absent (d : string) (ms : list ChatMessage.t) :
  (forall m, In m ms -> ChatMessage.id m <> d) -> countId d ms = 0.
Proof.
  unfold countId. induction ms as [|m rest IH]; intros H; simpl;
    [reflexivity|].
  destruct (String.eqb_spec (ChatMessage.id m) d) as [He|_].
  - exfalso. apply (H m); [now left|assumption].
  - apply IH. intros x Hx. apply H. now right.
Qed.

Lemma countId_app (d : string) (a b : list ChatMessage.t) :
  countId d (a ++ b) = countId d a + countId d b.
Proof. unfold countId. now rewrite filter_app, length_app. Qed.

(** The two orders, for any send that passes its guard in a room whose
    list holds neither the provisional nor the durable id: reconciling
    first leaves one entry with the durable id, the event first leaves
    two. *)
Lemma two_orders (content tempId : string) (now : Z) (st : ClientState)
      (u : AuthUser.t) (room : ChatRoom.t) (row : MessageRow) :
  user st = Some u -> currentRoom st = Some room ->
  supabaseConfigured st = true ->
  (forall m, In m (ChatRoom.messages room) -> ChatMessage.id m <> tempId) ->
  (forall m, In m (ChatRoom.messages room) ->
             ChatMessage.id m <> row_id row) ->
  row_id row <> tempId ->
  afterSend content tempId now (ChatRoom.id room) row
            [DirectReconcile; ChangeEvent] st
  = ChatRoom.messages room ++ [realMessageOf row]
  /\ afterSend content tempId now (ChatRoom.id room) row
               [ChangeEvent; DirectReconcile] st
     = ChatRoom.messages room ++ [realMessageOf row; messageOfRow row].
Proof.
  intros Hu Hr Hc Hfresh Hnew Hne.
  destruct (sendMessage_begin_joined content tempId now st u room Hu Hr Hc)
    as (st1 & Hbegin & _ & _ & _ & Hroom1).
  unfold afterSend. rewrite Hbegin. unfold interleave. simpl.
  set (cl := mkClosure u room (isAIMuted st) content tempId).
  set (opt := ChatMessage.mk tempId (ChatRoom.id room) (AuthUser.id u)
                (AuthUser.name u) (AuthUser.color u) content false now None)
    in *.
  assert (Hswap : map (swapIn tempId row) (ChatRoom.messages room ++ [opt])
                  = ChatRoom.messages room ++ [realMessageOf row]).
  { rewrite map_app, (swapIn_others _ _ _ Hfresh). simpl.
    unfold swapIn. simpl. now rewrite String.eqb_refl. }
  split.
  - pose proof (currentRoom_resume cl row st1 _ Hroom1) as H1.
    simpl in H1. rewrite Hswap in H1.
    pose proof (currentRoom_event (ChatRoom.id room) row _ _ H1 eq_refl)
      as H2.
    simpl in H2. rewrite existsb_app in H2. simpl in H2.
    unfold hasId at 2 in H2. simpl in H2.
    rewrite String.eqb_refl, orb_true_r in H2.
    unfold roomMessages. rewrite H2. reflexivity.
  - pose proof (currentRoom_event (ChatRoom.id room) row st1 _ Hroom1
                                  eq_refl) as H1.
    simpl in H1. rewrite existsb_app in H1. simpl in H1.
    rewrite (existsb_hasId_false _ _ Hnew) in H1.
    unfold hasId in H1. simpl in H1.
    destruct (String.eqb_spec tempId (row_id row)) as [He|_];
      [congruence|].
    simpl in H1.
    pose proof (currentRoom_resume cl row _ _ H1) as H2.
    simpl in H2. rewrite <- app_assoc in H2. simpl in H2.
    rewrite map_app, (swapIn_others _ _ _ Hfresh) in H2. simpl in H2.
    unfold swapIn in H2. simpl in H2.
    rewrite String.eqb_refl in H2.
    destruct (String.eqb_spec (row_id row) tempId) as [He|_];
      [congruence|].
    unfold roomMessages. rewrite H2. reflexivity.
Qed.

(** C1 fails on the code. A send into an empty room with the provisional
    id "temp_1" is saved under the durable id "d1". When the answer to
    the insert request is reconciled first and the change event comes
    second, the list ends with one entry with the durable id; when the
    change event comes first, the reconciliation that follows turns the
    provisional entry into a second entry with the same durable id. *)
Theorem C1_event_first_leaves_two_entries :
  let st := joined (roomWith false []) in
  let row := durableRow "d1" "hello" in
  countId "d1" (afterSend "hello" "temp_1" 5%Z "room_1" row
                          [DirectReconcile; ChangeEvent] st) = 1
  /\ afterSend "hello" "temp_1" 5%Z "room_1" row
               [ChangeEvent; DirectReconcile] st
     = [realMessageOf row; messageOfRow row]
  /\ countId "d1" (afterSend "hello" "temp_1" 5%Z "room_1" row
                             [ChangeEvent; DirectReconcile] st) = 2.
Proof.
  intros st row.
  destruct (two_orders "hello" "temp_1" 5%Z st ada (roomWith false []) row
              eq_refl eq_refl eq_refl) as [Ha Hb].
  - intros m [].
  - intros m [].
  - discriminate.
  - change (ChatRoom.id (roomWith false [])) with "room_1" in Ha, Hb.
    rewrite Ha, Hb. repeat split.
Qed.

End ChatFacts.

(* ================================================================== *)
(** * Further properties of the code *)
(* ================================================================== *)

(** ** Texts, continued *)

Lemma length_append (a b : string) :
  String.length (String.append a b) = String.length a + String.length b.
Proof. induction a as [|c a IH]; simpl; [reflexivity|now rewrite IH]. Qed.

Lemma length_prefix (s : string) (n : nat) :
  n <= String.length s -> String.length (String.substring 0 n s) = n.
Proof.
  revert n. induction s as [|c s IH]; intros [|n] H; simpl in *;
    try reflexivity; try lia.
  f_equal. apply IH. lia.
Qed.

Lemma length_substring_le (s : string) (a n : nat) :
  String.length (String.substring a n s) <= n.
Proof.
  revert a n. induction s as [|c s IH]; intros [|a] [|n]; simpl;
    try lia.
  - specialize (IH 0 n). lia.
  - apply (IH a 0).
  - apply (IH a (S n)).
Qed.

Lemma get_lt_length (s : string) (i : nat) (c : ascii) :
  String.get i s = Some c -> i < String.length s.
Proof.
  revert i. induction s as [|d s IH]; intros [|i] H; simpl in *;
    try discriminate; try lia.
  apply IH in H. lia.
Qed.

(** ** The mention hook, continued *)

Module MentionActionFacts.
Import Mentions.
Import MentionSpec.
Import MentionActions.

Lemma mentionTextOf_ends_with_space (o : MentionOption) :
  exists body, mentionTextOf o = String.append body " ".
Proof.
  unfold mentionTextOf. destruct (opt_type o).
  - exists (String.append "@"
              (JS.stripWhitespace (JS.toLowerCase (opt_name o)))).
    reflexivity.
  - exists "@AI". reflexivity.
Qed.

Lemma get_last_of_append_space (body rest : string) :
  String.get (String.length body)
             (String.append (String.append body " ") rest)
  = Some " "%char.
Proof.
  induction body as [|c body IH]; simpl; [reflexivity|assumption].
Qed.

(** Right after [scan] starts on a white space it stops. *)
Lemma scan_stops_on_whitespace (text : string) (i : nat) :
  JS.charAt text i = Some " "%char -> scan text (S i) = (-1)%Z.
Proof. intros H. simpl. rewrite H. reflexivity. Qed.

(** Choosing an option of a dropdown that [detectMention] has opened
    replaces the text from the [@] to the cursor by the mention and one
    space, keeps what stands before and after, puts the cursor behind
    that space, and closes the dropdown; detecting again on the new text
    at the new cursor finds no trigger. *)
Theorem selectMention_replaces_the_trigger :
  forall (ps : list Participant) (muted : bool) (prev : MentionState)
         (text : string) (cursor : nat) (pos : Position) (j : nat)
         (o : MentionOption),
    activeTrigger text cursor j ->
    let st := detectMention ps muted prev text cursor pos in
    let newText :=
      String.append (JS.slice text 0 j)
        (String.append (mentionTextOf o) (sliceFrom text cursor)) in
    let newCursor := j + String.length (mentionTextOf o) in
    selectMention st o text cursor = (Replaced newText newCursor, close st)
    /\ String.length (JS.slice text 0 j) = j
    /\ JS.charAt newText (newCursor - 1) = Some " "%char
    /\ detectMention ps muted (close st) newText newCursor pos = close st.
Proof.
  intros ps muted prev text cursor pos j o Hj st newText newCursor.
  assert (Hst : st = mkMentionState true (JS.slice text (j + 1) cursor)
                       (filterOptions ps muted (JS.slice text (j + 1) cursor))
                       0 pos (Z.of_nat j)).
  { unfold st. now apply MentionFacts.detectMention_open. }
  assert (Hlen : String.length (JS.slice text 0 j) = j).
  { unfold JS.slice. rewrite Nat.sub_0_r. apply length_prefix.
    destruct Hj as (_ & Hat & _). apply get_lt_length in Hat. lia. }
  assert (Hsel : selectMention st o text cursor
                 = (Replaced newText newCursor, close st)).
  { unfold selectMention. rewrite Hst. cbn [mentionStart close].
    replace (Z.of_nat j =? -1)%Z with false
      by (symmetry; apply Z.eqb_neq; lia).
    rewrite Nat2Z.id. reflexivity. }
  assert (Hspace : JS.charAt newText (newCursor - 1) = Some " "%char).
  { unfold JS.charAt, newText, newCursor.
    destruct (mentionTextOf_ends_with_space o) as [body Hbody].
    rewrite Hbody, length_append. simpl.
    replace (j + (String.length body + 1) - 1)
      with (String.length body + String.length (JS.slice text 0 j))
      by (rewrite Hlen; lia).
    rewrite <- append_correct2. apply get_last_of_append_space. }
  repeat split; try assumption.
  unfold detectMention.
  assert (Hpos : newCursor = S (newCursor - 1)).
  { unfold newCursor. destruct (mentionTextOf_ends_with_space o) as [b Hb].
    rewrite Hb, length_append. simpl. lia. }
  rewrite Hpos, (scan_stops_on_whitespace _ _ Hspace). reflexivity.
Qed.

Lemma selectMention_replaces_the_trigger_witness :
  activeTrigger "hi @al" 6 3
  /\ fst (selectMention
            (detectMention [] false initialState "hi @al" 6 origin)
            (mkOption "ai" "AI Assistant" TAi None) "hi @al" 6)
     = Replaced "hi @AI " 7.
Proof.
  assert (H : activeTrigger "hi @al" 6 3).
  { repeat split.
    - lia.
    - right. reflexivity.
    - intros k Hk.
      assert (k = 4 \/ k = 5) as [->| ->] by lia; reflexivity. }
  split; [exact H|].
  exact (f_equal fst
           (proj1 (selectMention_replaces_the_trigger
                     [] false initialState "hi @al" 6 origin 3
                     (mkOption "ai" "AI Assistant" TAi None) H))).
Defined.

(** What an open dropdown holds. *)
Lemma detectMention_open_form (ps : list Participant) (muted : bool)
      (prev : MentionState) (text : string) (cursor : nat) (pos : Position) :
  isOpen (detectMention ps muted prev text cursor pos) = true ->
  exists j,
    activeTrigger text cursor j
    /\ detectMention ps muted prev text cursor pos
       = mkMentionState true (JS.slice text (j + 1) cursor)
           (filterOptions ps muted (JS.slice text (j + 1) cursor)) 0 pos
           (Z.of_nat j).
Proof.
  intros Hopen.
  destruct (MentionFacts.scan_spec text cursor) as [[_ Hno]|[j [_ Hj]]].
  - rewrite (MentionFacts.detectMention_closed ps muted prev text cursor pos
               Hno) in Hopen.
    discriminate.
  - exists j. split; [assumption|].
    now apply MentionFacts.detectMention_open.
Qed.

Lemma filterOptions_incl (ps : list Participant) (muted : bool) (q : string) :
  incl (filterOptions ps muted q) (getAllMentionOptions ps muted).
Proof.
  unfold filterOptions. destruct (JS.isEmpty (JS.trim q)).
  - apply incl_refl.
  - intros o Ho. apply filter_In in Ho. tauto.
Qed.

Lemma muted_options_are_users (ps : list Participant) (o : MentionOption) :
  In o (getAllMentionOptions ps true) -> opt_type o = TUser.
Proof.
  unfold getAllMentionOptions. simpl. intros H.
  apply in_map_iff in H as [p [<- _]]. reflexivity.
Qed.

(** An open dropdown lists options of the room and selects the first. *)
Lemma detectMention_open_options (ps : list Participant) (muted : bool)
      (prev : MentionState) (text : string) (cursor : nat)
      (pos : Position) :
  isOpen (detectMention ps muted prev text cursor pos) = true ->
  incl (options (detectMention ps muted prev text cursor pos))
       (getAllMentionOptions ps muted)
  /\ selectedIndex (detectMention ps muted prev text cursor pos) = 0.
Proof.
  intros Hopen.
  destruct (detectMention_open_form ps muted prev text cursor pos Hopen)
    as [j [_ Hform]].
  rewrite Hform. simpl. split; [apply filterOptions_incl|reflexivity].
Qed.

Lemma startsWith_includes (s p : string) :
  JS.startsWith s p = true -> JS.includes s p = true.
Proof.
  intros H. destruct s; cbn [JS.includes]; now rewrite H.
Qed.

(** The two prefix tests of the filter add nothing to its two
    containment tests. *)
Lemma filterOptions_nameMatches (ps : list Participant) (muted : bool)
      (q : string) :
  filterOptions ps muted q
  = filter (ExtraSpec.nameMatches q) (getAllMentionOptions ps muted).
Proof.
  unfold filterOptions, ExtraSpec.nameMatches.
  destruct (JS.isEmpty (JS.trim q)).
  - cbn [orb]. induction (getAllMentionOptions ps muted) as [|o l IH];
      [reflexivity|]. cbn [filter]. now rewrite <- IH.
  - cbn [orb]. apply filter_ext. intros o.
    destruct (JS.includes (JS.toLowerCase (opt_name o))
                          (JS.trim (JS.toLowerCase q))) eqn:H1;
      [reflexivity|].
    destruct (JS.includes (JS.stripWhitespace
                             (JS.toLowerCase (opt_name o)))
                          (JS.trim (JS.toLowerCase q))) eqn:H2;
      [reflexivity|].
    cbn [orb].
    destruct (JS.startsWith (JS.toLowerCase (opt_name o))
                            (JS.trim (JS.toLowerCase q))) eqn:H3.
    { apply startsWith_includes in H3. congruence. }
    destruct (JS.startsWith (JS.stripWhitespace
                               (JS.toLowerCase (opt_name o)))
                            (JS.trim (JS.toLowerCase q))) eqn:H4.
    { apply startsWith_includes in H4. congruence. }
    reflexivity.
Qed.

Lemma filter_map_swap {A B} (f : B -> bool) (g : A -> B) (l : list A) :
  filter f (map g l) = map g (filter (fun x => f (g x)) l).
Proof.
  induction l as [|x l IH]; [reflexivity|]. cbn [map filter].
  destruct (f (g x)); cbn [map]; now rewrite IH.
Qed.

Lemma subseq_filter {A} (f : A -> bool) (l : list A) :
  ExtraSpec.subseq (filter f l) l.
Proof.
  induction l as [|x l IH]; [constructor|]. cbn [filter].
  destruct (f x); now constructor.
Qed.

(** The options of an open dropdown are exactly the options of the room
    that match the query, in the order of the room: the AI first, when
    it is not muted and matches, then the matching participants in the
    order of the participant list. A query that is empty shows them all;
    in a room whose AI is muted the AI is never among them. The query of
    an open dropdown has no white space, its trigger lies before the
    cursor, and the first option is selected. *)
Theorem open_dropdown_contents :
  forall (ps : list Participant) (muted : bool) (prev : MentionState)
         (text : string) (cursor : nat) (pos : Position),
    let st := detectMention ps muted prev text cursor pos in
    isOpen st = true ->
    options st
    = filter (ExtraSpec.nameMatches (query st))
             (getAllMentionOptions ps muted)
    /\ (exists ai shown,
          options st = ai ++ map ExtraSpec.userOption shown
          /\ ExtraSpec.subseq shown ps
          /\ (ai = [] \/ (muted = false /\ ai = [ExtraSpec.aiOption])))
    /\ (query st = EmptyString ->
        options st = getAllMentionOptions ps muted)
    /\ incl (options st) (getAllMentionOptions ps muted)
    /\ (muted = true -> forall o, In o (options st) -> opt_type o = TUser)
    /\ (forall k c, String.get k (query st) = Some c ->
                    JS.isWhitespace c = false)
    /\ (0 <= mentionStart st < Z.of_nat cursor)%Z
    /\ selectedIndex st = 0.
Proof.
  intros ps muted prev text cursor pos st Hopen.
  destruct (detectMention_open_form ps muted prev text cursor pos Hopen)
    as [j [Hj Hform]].
  fold st in Hform. rewrite Hform. cbn [options query mentionStart
                                        selectedIndex].
  set (q := JS.slice text (j + 1) cursor).
  split; [apply filterOptions_nameMatches|]. split.
  { rewrite filterOptions_nameMatches.
    exists (filter (ExtraSpec.nameMatches q)
                   (if muted then [] else [ExtraSpec.aiOption])),
           (filter (fun p => ExtraSpec.nameMatches q (ExtraSpec.userOption p))
                   ps).
    split; [|split].
    - unfold getAllMentionOptions. rewrite filter_app. f_equal.
      apply (filter_map_swap (ExtraSpec.nameMatches q) ExtraSpec.userOption).
    - apply subseq_filter.
    - destruct muted; [now left|]. cbn [filter].
      destruct (ExtraSpec.nameMatches q ExtraSpec.aiOption);
        [right; now split|now left]. }
  split.
  { intros Hq. rewrite Hq. reflexivity. }
  split; [apply filterOptions_incl|]. split.
  - intros -> o Ho. apply muted_options_are_users with (ps := ps).
    eapply filterOptions_incl. eassumption.
  - split; [|split; [destruct Hj; lia|reflexivity]].
    intros k c Hk. apply slice_get in Hk as [Hlt Hget].
    destruct Hj as (_ & _ & _ & Hws).
    specialize (Hws (j + 1 + k)). unfold JS.charAt in Hws.
    rewrite Hget in Hws. apply Hws. lia.
Qed.

Lemma open_dropdown_contents_witness :
  let st := detectMention [mkParticipant "u1" "Bob" "#111111";
                           mkParticipant "u2" "Alice" "#222222";
                           mkParticipant "u3" "Carla" "#333333"]
                          false initialState "hi @a" 5 origin in
  isOpen st = true
  /\ map opt_name (options st) = ["AI Assistant"; "Alice"; "Carla"]
  /\ options st
     = filter (ExtraSpec.nameMatches (query st))
              (getAllMentionOptions
                 [mkParticipant "u1" "Bob" "#111111";
                  mkParticipant "u2" "Alice" "#222222";
                  mkParticipant "u3" "Carla" "#333333"] false).
Proof.
  intros st. split; [reflexivity|]. split; [reflexivity|].
  exact (proj1 (open_dropdown_contents
                  [mkParticipant "u1" "Bob" "#111111";
                   mkParticipant "u2" "Alice" "#222222";
                   mkParticipant "u3" "Carla" "#333333"]
                  false initialState "hi @a" 5 origin eq_refl)).
Defined.

Lemma navigateMentions_fields (d : Direction) (st : MentionState) :
  isOpen (navigateMentions d st) = isOpen st
  /\ options (navigateMentions d st) = options st
  /\ query (navigateMentions d st) = query st
  /\ mentionStart (navigateMentions d st) = mentionStart st.
Proof.
  unfold navigateMentions.
  destruct (negb (isOpen st) || (List.length (options st) =? 0));
    repeat split.
Qed.

Lemma navigateMentions_in_range (d : Direction) (st : MentionState) :
  isOpen st = true -> options st <> [] ->
  selectedIndex st < List.length (options st) ->
  selectedIndex (navigateMentions d st) < List.length (options st).
Proof.
  intros Ho Hne Hlt. unfold navigateMentions. rewrite Ho. simpl.
  destruct (Nat.eqb_spec (List.length (options st)) 0) as [H0|Hn]; [lia|].
  simpl. destruct d.
  - destruct (Nat.ltb_spec 0 (selectedIndex st)); lia.
  - destruct (Nat.ltb_spec (selectedIndex st) (List.length (options st) - 1));
      lia.
Qed.

(** Where an arrow key puts the selection of an open dropdown. *)
Lemma navigateMentions_index (d : Direction) (st : MentionState) :
  isOpen st = true -> selectedIndex st < List.length (options st) ->
  selectedIndex (navigateMentions d st)
  = match d with
    | up => if 0 <? selectedIndex st then selectedIndex st - 1
            else List.length (options st) - 1
    | down => if selectedIndex st <? List.length (options st) - 1
              then selectedIndex st + 1 else 0
    end.
Proof.
  intros Ho Hlt. unfold navigateMentions. rewrite Ho. cbn [negb orb].
  destruct (Nat.eqb_spec (List.length (options st)) 0) as [H0|_]; [lia|].
  destruct d; reflexivity.
Qed.

(** The arrow keys move the selection of an open dropdown by one place,
    down to the next option and up to the one before, around the ends:
    down from the last option selects the first, up from the first
    selects the last. With two options or more the selection changes at
    every key. Arrow up and arrow down undo each other, and a closed
    dropdown ignores both. *)
Theorem navigateMentions_round_trip :
  forall st : MentionState,
    selectedIndex st < List.length (options st) ->
    navigateMentions up (navigateMentions down st) = st
    /\ navigateMentions down (navigateMentions up st) = st
    /\ (isOpen st = true ->
        selectedIndex (navigateMentions down st)
        = (selectedIndex st + 1) mod List.length (options st)
        /\ selectedIndex (navigateMentions up st)
           = (selectedIndex st + (List.length (options st) - 1))
             mod List.length (options st)
        /\ (selectedIndex st = List.length (options st) - 1 ->
            selectedIndex (navigateMentions down st) = 0)
        /\ (selectedIndex st = 0 ->
            selectedIndex (navigateMentions up st)
            = List.length (options st) - 1)
        /\ (2 <= List.length (options st) ->
            selectedIndex (navigateMentions down st) <> selectedIndex st
            /\ selectedIndex (navigateMentions up st) <> selectedIndex st))
    /\ (isOpen st = false -> forall d, navigateMentions d st = st).
Proof.
  intros st Hlt. split; [|split; [|split]].
  - destruct st as [o q opts i pos start]. simpl in Hlt.
    unfold navigateMentions. simpl.
    destruct o; simpl; [|reflexivity].
    destruct (Nat.eqb_spec (List.length opts) 0) as [H0|Hn]; [lia|]. simpl.
    rewrite (proj2 (Nat.eqb_neq _ _) Hn). simpl.
    destruct (Nat.ltb_spec i (List.length opts - 1)); simpl.
    + destruct (Nat.ltb_spec 0 (i + 1)); [|lia].
      unfold withSelectedIndex. simpl. f_equal. lia.
    + unfold withSelectedIndex. simpl. f_equal. lia.
  - destruct st as [o q opts i pos start]. simpl in Hlt.
    unfold navigateMentions. simpl.
    destruct o; simpl; [|reflexivity].
    destruct (Nat.eqb_spec (List.length opts) 0) as [H0|Hn]; [lia|]. simpl.
    rewrite (proj2 (Nat.eqb_neq _ _) Hn). simpl.
    destruct (Nat.ltb_spec 0 i); simpl.
    + destruct (Nat.ltb_spec (i - 1) (List.length opts - 1)); [|lia].
      unfold withSelectedIndex. simpl. f_equal. lia.
    + destruct (Nat.ltb_spec (List.length opts - 1) (List.length opts - 1));
        [lia|].
      unfold withSelectedIndex. simpl. f_equal. lia.
  - intros Ho.
    rewrite (navigateMentions_index down st Ho Hlt).
    rewrite (navigateMentions_index up st Ho Hlt).
    set (n := List.length (options st)) in *.
    set (i := selectedIndex st) in *.
    split; [|split; [|split; [|split]]].
    + destruct (Nat.ltb_spec i (n - 1)).
      * symmetry. apply Nat.mod_small. lia.
      * replace (i + 1) with n by lia. symmetry. apply Nat.Div0.mod_same.
    + destruct (Nat.ltb_spec 0 i).
      * replace (i + (n - 1)) with (i - 1 + 1 * n) by lia.
        rewrite Nat.Div0.mod_add. symmetry. apply Nat.mod_small. lia.
      * replace (i + (n - 1)) with (n - 1) by lia.
        symmetry. apply Nat.mod_small. lia.
    + intros Hlast. destruct (Nat.ltb_spec i (n - 1)); [lia|reflexivity].
    + intros Hfirst. destruct (Nat.ltb_spec 0 i); [lia|reflexivity].
    + intros Htwo. split.
      * destruct (Nat.ltb_spec i (n - 1)); lia.
      * destruct (Nat.ltb_spec 0 i); lia.
  - intros Hc d. unfold navigateMentions. now rewrite Hc.
Qed.

Lemma navigateMentions_round_trip_witness :
  let st := detectMention [mkParticipant "u1" "Alice" "#111111";
                           mkParticipant "u2" "Carla" "#222222"]
                          false initialState "@a" 2 origin in
  selectedIndex st < List.length (options st)
  /\ navigateMentions down (navigateMentions up st) = st
  /\ selectedIndex (navigateMentions up st) = 2
  /\ selectedIndex (navigateMentions down st) <> selectedIndex st.
Proof.
  intros st.
  assert (H : selectedIndex st < List.length (options st))
    by (vm_compute; lia).
  split; [exact H|].
  destruct (navigateMentions_round_trip st H) as (_ & Hdu & Hmove & _).
  split; [exact Hdu|].
  destruct (Hmove eq_refl) as (_ & _ & _ & Hfirst & Htwo).
  split; [exact (Hfirst eq_refl)|].
  refine (proj1 (Htwo _)). vm_compute. lia.
Defined.

Lemma navigateAll_invariant (dirs : list Direction) (st : MentionState) :
  (isOpen st = true -> options st <> [] ->
   selectedIndex st < List.length (options st)) ->
  isOpen (ExtraSpec.navigateAll dirs st) = isOpen st
  /\ options (ExtraSpec.navigateAll dirs st) = options st
  /\ (isOpen st = true -> options st <> [] ->
      selectedIndex (ExtraSpec.navigateAll dirs st)
      < List.length (options st)).
Proof.
  revert st. induction dirs as [|d dirs IH]; intros st Hinv; simpl.
  - repeat split. assumption.
  - destruct (navigateMentions_fields d st) as (Ho & Hopts & _ & _).
    destruct (IH (navigateMentions d st)) as (IHo & IHopts & IHinv).
    { rewrite Ho, Hopts. intros H1 H2.
      apply navigateMentions_in_range; auto. }
    rewrite IHo, IHopts, Ho, Hopts. repeat split.
    intros H1 H2. specialize (IHinv ltac:(congruence) ltac:(congruence)).
    now rewrite Hopts in IHinv.
Qed.

(** After [detectMention] and any run of arrow keys, a dropdown that is
    open with options has one of them selected: Enter and Tab always find
    an option to insert, and it is an option of the room. *)
Theorem navigation_keeps_a_selection :
  forall (ps : list Participant) (muted : bool) (prev : MentionState)
         (text : string) (cursor : nat) (pos : Position)
         (dirs : list Direction),
    let st := ExtraSpec.navigateAll
                dirs (detectMention ps muted prev text cursor pos) in
    isOpen st = true -> options st <> [] ->
    exists o, getSelectedOption st = Some o
              /\ In o (options st)
              /\ In o (getAllMentionOptions ps muted).
Proof.
  intros ps muted prev text cursor pos dirs st Hopen Hne.
  set (st0 := detectMention ps muted prev text cursor pos) in *.
  destruct (navigateAll_invariant dirs st0) as (Ho & Hopts & Hidx).
  { intros H0 Hn0. unfold st0 in *.
    destruct (detectMention_open_options ps muted prev text cursor pos H0)
      as (_ & Hsel).
    rewrite Hsel.
    destruct (options (detectMention ps muted prev text cursor pos));
      [congruence|simpl; lia]. }
  fold st in Ho, Hopts, Hidx.
  assert (H0 : isOpen st0 = true) by congruence.
  assert (Hne0 : options st0 <> []) by congruence.
  specialize (Hidx H0 Hne0). rewrite <- Hopts in Hidx.
  unfold getSelectedOption. rewrite Hopen. simpl.
  destruct (Nat.eqb_spec (List.length (options st)) 0) as [Hz|_]; [lia|].
  destruct (nth_error (options st) (selectedIndex st)) as [o|] eqn:Hnth.
  - exists o. split; [reflexivity|].
    assert (Hin : In o (options st)) by (eapply nth_error_In; eassumption).
    split; [assumption|].
    rewrite Hopts in Hin. unfold st0 in Hin, H0.
    now apply (proj1 (detectMention_open_options ps muted prev text cursor
                                                 pos H0)).
  - apply nth_error_None in Hnth. lia.
Qed.

Lemma navigation_keeps_a_selection_witness :
  let st := ExtraSpec.navigateAll
              [up; up; down]
              (detectMention [mkParticipant "u1" "Alice" "#111111"] false
                             initialState "@a" 2 origin) in
  isOpen st = true /\ options st <> []
  /\ exists o, getSelectedOption st = Some o /\ In o (options st).
Proof.
  intros st.
  assert (Ho : isOpen st = true) by reflexivity.
  assert (Hn : options st <> []) by (vm_compute; discriminate).
  split; [exact Ho|]. split; [exact Hn|].
  destruct (navigation_keeps_a_selection
              [mkParticipant "u1" "Alice" "#111111"] false initialState
              "@a" 2 origin [up; up; down] Ho Hn) as [o (H1 & H2 & _)].
  exists o. split; assumption.
Defined.

End MentionActionFacts.

(** ** The synchronizer, continued *)

Module ChatExtraFacts.
Import Chat.
Import ChatSpec.

Lemma set_delete_not_in (x : string) (s : list string) :
  ~ In x (set_delete x s).
Proof.
  unfold set_delete. intros H. apply filter_In in H as [_ H].
  rewrite String.eqb_refl in H. discriminate.
Qed.

Lemma set_delete_keeps (x y : string) (s : list string) :
  y <> x -> (In y (set_delete x s) <-> In y s).
Proof.
  intros Hne. unfold set_delete. rewrite filter_In.
  destruct (String.eqb_spec y x); [congruence|]. simpl. tauto.
Qed.

Lemma set_add_in (x y : string) (s : list string) :
  In y (set_add x s) <-> y = x \/ In y s.
Proof.
  unfold set_add. destruct (existsb (String.eqb x) s) eqn:He.
  - apply existsb_exists in He as [z [Hz Heq]].
    apply String.eqb_eq in Heq. subst z. split; [auto|].
    intros [->|H]; assumption.
  - rewrite in_app_iff. simpl. intuition.
Qed.

(** The state [sendMessage_begin] leaves, written out. *)
Lemma sendMessage_begin_state (content tempId : string) (now : Z)
      (st : ClientState) (u : AuthUser.t) (room : ChatRoom.t) :
  user st = Some u -> currentRoom st = Some room ->
  supabaseConfigured st = true ->
  let r1 := ChatRoom.withMessages room
              (ChatRoom.messages room
               ++ [ChatMessage.mk tempId (ChatRoom.id room) (AuthUser.id u)
                     (AuthUser.name u) (AuthUser.color u) content false now
                     None]) in
  sendMessage_begin content tempId now st
  = Some (mkClosure u room (isAIMuted st) content tempId,
          setRoomAndRef (Some r1) (Some r1)
            (setPending (set_add tempId (pendingMessagesRef st)) st),
          InsertMessage (ChatRoom.id room) (AuthUser.id u) (AuthUser.name u)
                        (AuthUser.color u) content).
Proof.
  intros Hu Hr Hc r1. unfold sendMessage_begin. rewrite Hu, Hr, Hc.
  unfold updateCurrentRoom. simpl. rewrite Hr. reflexivity.
Qed.

(** The state the success branch leaves, written out. *)
Lemma sendMessage_resume_saved_state (cl : SendClosure) (row : MessageRow)
      (st : ClientState) (r : ChatRoom.t) :
  currentRoom st = Some r ->
  let r2 := ChatRoom.withMessages r
              (map (swapIn (c_tempId cl) row) (ChatRoom.messages r)) in
  let st2 := setRoomAndRef (Some r2) (Some r2)
               (setPending (set_delete (c_tempId cl) (pendingMessagesRef st))
                           st) in
  sendMessage_resume cl (saved row) st
  = if negb (c_isAIMuted cl) && mentionsAI (c_content cl)
    then mkResult (Returned tt) (setAI true (Some (Timeout 25000)) st2) []
                  [ClearAIResponding 25000; AITurn 1500 cl]
    else mkResult (Returned tt) st2 [] [].
Proof.
  intros Hr r2 st2. unfold sendMessage_resume, saved. simpl.
  unfold reconcile, updateCurrentRoom. simpl. rewrite Hr. reflexivity.
Qed.

(** Reconciling swaps the provisional message, at the end of the list,
    for the stored one. *)
Lemma swapIn_provisional (tempId : string) (row : MessageRow)
      (ms : list ChatMessage.t) (opt : ChatMessage.t) :
  (forall m, In m ms -> ChatMessage.id m <> tempId) ->
  ChatMessage.id opt = tempId ->
  map (swapIn tempId row) (ms ++ [opt]) = ms ++ [realMessageOf row].
Proof.
  intros Hfresh Hid.
  rewrite map_app, (ChatFacts.swapIn_others _ _ _ Hfresh). simpl.
  unfold swapIn. now rewrite Hid, String.eqb_refl.
Qed.


(** A send whose insert is answered with the stored row, nothing
    arriving in between: the call returns, the provisional message has
    become the stored one at the end of the list, where it was, the ref
    holds the room shown, and the provisional id has left the pending
    set, which keeps its other ids. *)
Theorem sendMessage_success_replaces_in_place :
  forall (content : string) (st : ClientState) (env : SendEnv)
         (u : AuthUser.t) (room : ChatRoom.t) (row : MessageRow),
    user st = Some u -> currentRoom st = Some room ->
    supabaseConfigured st = true ->
    send_insert env = saved row ->
    (forall m, In m (ChatRoom.messages room) ->
               ChatMessage.id m <> send_tempId env) ->
    let res := sendMessage content st env in
    outcome res = Returned tt
    /\ currentRoom (state res)
       = Some (ChatRoom.withMessages room
                 (ChatRoom.messages room ++ [realMessageOf row]))
    /\ currentRoomRef (state res) = currentRoom (state res)
    /\ ~ In (send_tempId env) (pendingMessagesRef (state res))
    /\ (forall y, y <> send_tempId env ->
                  (In y (pendingMessagesRef (state res))
                   <-> In y (pendingMessagesRef st)))
    /\ calls res = [InsertMessage (ChatRoom.id room) (AuthUser.id u)
                                  (AuthUser.name u) (AuthUser.color u)
                                  content].
Proof.
  intros content st env u room row Hu Hr Hc Hins Hfresh res.
  unfold res, sendMessage.
  rewrite (sendMessage_begin_state content (send_tempId env) (send_now env)
             st u room Hu Hr Hc).
  rewrite Hins.
  erewrite sendMessage_resume_saved_state by (simpl; reflexivity).
  cbn [c_tempId c_isAIMuted c_content ChatRoom.messages
       ChatRoom.withMessages].
  erewrite swapIn_provisional; [|exact Hfresh|reflexivity].
  destruct (negb (isAIMuted st) && mentionsAI content); simpl;
    (split; [reflexivity|]); (split; [reflexivity|]);
    (split; [reflexivity|]);
    (split; [apply set_delete_not_in|]);
    (split; [|reflexivity]);
    intros y Hy; rewrite (set_delete_keeps _ _ _ Hy), set_add_in;
    intuition congruence.
Qed.

Lemma sendMessage_success_replaces_in_place_witness :
  let st := joined (roomWith false [messageOfRow (durableRow "m1" "hi")]) in
  let env := mkSendEnv "temp_1" 5%Z (saved (durableRow "m2" "hello")) in
  roomMessages (state (sendMessage "hello" st env))
  = [messageOfRow (durableRow "m1" "hi"); realMessageOf (durableRow "m2" "hello")].
Proof.
  intros st env.
  assert (Hfresh : forall m,
             In m (ChatRoom.messages
                     (roomWith false [messageOfRow (durableRow "m1" "hi")])) ->
             ChatMessage.id m <> send_tempId env).
  { intros m [<-|[]]. discriminate. }
  unfold roomMessages.
  rewrite (proj1 (proj2 (sendMessage_success_replaces_in_place
                           "hello" st env ada _ (durableRow "m2" "hello")
                           eq_refl eq_refl eq_refl eq_refl Hfresh))).
  reflexivity.
Defined.

Lemma set_delete_idem (x : string) (s : list string) :
  set_delete x (set_delete x s) = set_delete x s.
Proof.
  unfold set_delete. induction s as [|y s IH]; simpl; [reflexivity|].
  destruct (String.eqb y x) eqn:He; simpl; [assumption|].
  rewrite He. simpl. now rewrite IH.
Qed.

Lemma existsb_hasId_In (d : string) (ms : list ChatMessage.t) :
  existsb (hasId d) ms = true <-> In d (map ChatMessage.id ms).
Proof.
  rewrite existsb_exists, in_map_iff. unfold hasId.
  split; intros [m [H1 H2]]; exists m.
  - apply String.eqb_eq in H2. tauto.
  - split; [tauto|]. apply String.eqb_eq. tauto.
Qed.

Lemma updateCurrentRoom_some (f : ChatRoom.t -> option ChatRoom.t)
      (st : ClientState) (r r' : ChatRoom.t) :
  currentRoom st = Some r -> f r = Some r' ->
  updateCurrentRoom f st = setRoomAndRef (Some r') (Some r') st.
Proof. intros Hr Hf. unfold updateCurrentRoom. now rewrite Hr, Hf. Qed.

Lemma updateCurrentRoom_none (f : ChatRoom.t -> option ChatRoom.t)
      (st : ClientState) (r : ChatRoom.t) :
  currentRoom st = Some r -> f r = None -> updateCurrentRoom f st = st.
Proof. intros Hr Hf. unfold updateCurrentRoom. now rewrite Hr, Hf. Qed.

Lemma updateCurrentRoom_idle (f : ChatRoom.t -> option ChatRoom.t)
      (st : ClientState) :
  currentRoom st = None -> updateCurrentRoom f st = st.
Proof. intros Hr. unfold updateCurrentRoom. now rewrite Hr. Qed.

Lemma onMessageInsert_apply_unfold (roomId : string) (row : MessageRow)
      (st : ClientState) :
  onMessageInsert_apply roomId row st
  = updateCurrentRoom (ExtraSpec.appendIfNew roomId row)
                      (ExtraSpec.eventPrelude row st).
Proof. reflexivity. Qed.

Lemma eventPrelude_room (row : MessageRow) (st : ClientState) :
  currentRoom (ExtraSpec.eventPrelude row st) = currentRoom st.
Proof.
  unfold ExtraSpec.eventPrelude. destruct (row_is_ai row); reflexivity.
Qed.

Lemma eventPrelude_setRoomAndRef (row : MessageRow) (a b : option ChatRoom.t)
      (st : ClientState) :
  ExtraSpec.eventPrelude row (setRoomAndRef a b st)
  = setRoomAndRef a b (ExtraSpec.eventPrelude row st).
Proof.
  unfold ExtraSpec.eventPrelude. destruct (row_is_ai row); reflexivity.
Qed.

Lemma eventPrelude_idem (row : MessageRow) (st : ClientState) :
  ExtraSpec.eventPrelude row (ExtraSpec.eventPrelude row st)
  = ExtraSpec.eventPrelude row st.
Proof.
  unfold ExtraSpec.eventPrelude.
  destruct (row_is_ai row); unfold setPending, clearAIResponding, setAI;
    cbn [user supabaseConfigured currentRoom rooms isConnected
         isAIResponding currentRoomRef messagesChannelRef
         participantsChannelRef settingsChannelRef presenceUpdateInterval
         aiResponseTimeoutRef pendingMessagesRef];
    now rewrite set_delete_idem.
Qed.

(** What the insert handler does to the current room. *)
Lemma onMessageInsert_apply_room (roomId : string) (row : MessageRow)
      (st : ClientState) :
  currentRoom (onMessageInsert_apply roomId row st)
  = match currentRoom st with
    | Some r =>
        if String.eqb (ChatRoom.id r) roomId
           && negb (existsb (hasId (row_id row)) (ChatRoom.messages r))
        then Some (ChatRoom.withMessages r
                     (ChatRoom.messages r ++ [messageOfRow row]))
        else Some r
    | None => None
    end.
Proof.
  unfold onMessageInsert_apply, updateCurrentRoom.
  change (ChatMessage.id (messageOfRow row)) with (row_id row).
  fold (hasId (row_id row)).
  set (st2 := setPending _ _).
  assert (H2 : currentRoom st2 = currentRoom st).
  { unfold st2. destruct (ChatMessage.isAI (messageOfRow row)); reflexivity. }
  rewrite H2. destruct (currentRoom st) as [r|] eqn:Hr; [|exact H2].
  destruct (String.eqb (ChatRoom.id r) roomId); [|exact H2].
  destruct (existsb (hasId (row_id row)) (ChatRoom.messages r));
    [exact H2|reflexivity].
Qed.

(** One insert event keeps the ids shown distinct. *)
Lemma onMessageInsert_apply_NoDup (roomId : string) (row : MessageRow)
      (st : ClientState) :
  NoDup (ExtraSpec.messageIds st) ->
  NoDup (ExtraSpec.messageIds (onMessageInsert_apply roomId row st)).
Proof.
  unfold ExtraSpec.messageIds, roomMessages.
  rewrite onMessageInsert_apply_room.
  destruct (currentRoom st) as [r|]; [|auto].
  destruct (String.eqb (ChatRoom.id r) roomId); simpl; [|auto].
  destruct (existsb (hasId (row_id row)) (ChatRoom.messages r)) eqn:Hex;
    simpl; [auto|].
  intros Hnd. rewrite map_app. simpl.
  apply NoDup_app; [assumption|repeat constructor; intros []|].
  intros x Hx [<-|[]].
  apply existsb_hasId_In in Hx. congruence.
Qed.

(** Before its reload, the handler does nothing the second time. *)
Lemma onMessageInsert_apply_idem (roomId : string) (row : MessageRow)
      (st : ClientState) :
  onMessageInsert_apply roomId row (onMessageInsert_apply roomId row st)
  = onMessageInsert_apply roomId row st.
Proof.
  rewrite (onMessageInsert_apply_unfold roomId row st).
  set (s2 := ExtraSpec.eventPrelude row st).
  assert (Hcr : currentRoom s2 = currentRoom st)
    by apply eventPrelude_room.
  assert (Hs2 : ExtraSpec.eventPrelude row s2 = s2)
    by apply eventPrelude_idem.
  destruct (currentRoom st) as [r|] eqn:Hr.
  + destruct (ExtraSpec.appendIfNew roomId row r) as [r'|] eqn:Hf.
    * rewrite (updateCurrentRoom_some _ s2 r r' Hcr Hf).
      rewrite onMessageInsert_apply_unfold, eventPrelude_setRoomAndRef, Hs2.
      apply (updateCurrentRoom_none _ _ r'); [reflexivity|].
      unfold ExtraSpec.appendIfNew in Hf |- *.
      destruct (String.eqb (ChatRoom.id r) roomId) eqn:Hid;
        [|discriminate].
      destruct (existsb (hasId (row_id row)) (ChatRoom.messages r));
        [discriminate|].
      injection Hf as <-.
      cbn [ChatRoom.id ChatRoom.messages ChatRoom.withMessages].
      rewrite Hid, existsb_app.
      cbn [existsb]. unfold hasId at 2.
      change (ChatMessage.id (messageOfRow row)) with (row_id row).
      now rewrite String.eqb_refl, orb_true_r.
    * rewrite (updateCurrentRoom_none _ s2 r Hcr Hf).
      rewrite onMessageInsert_apply_unfold, Hs2.
      apply (updateCurrentRoom_none _ s2 r Hcr Hf).
  + rewrite (updateCurrentRoom_idle _ s2 Hcr).
    rewrite onMessageInsert_apply_unfold, Hs2.
    apply (updateCurrentRoom_idle _ s2 Hcr).
Qed.

Lemma onMessageInsert_apply_shows (roomId : string) (row : MessageRow)
      (st : ClientState) (r : ChatRoom.t) :
  currentRoom st = Some r -> ChatRoom.id r = roomId ->
  In (row_id row)
     (ExtraSpec.messageIds (onMessageInsert_apply roomId row st)).
Proof.
  intros Hr Hid. unfold ExtraSpec.messageIds, roomMessages.
  rewrite onMessageInsert_apply_room, Hr, Hid, String.eqb_refl. simpl.
  destruct (existsb (hasId (row_id row)) (ChatRoom.messages r)) eqn:Hex;
    simpl.
  + now apply existsb_hasId_In.
  + rewrite map_app, in_app_iff. right. now left.
Qed.

Lemma setRoomAndRef_twice (a b c d : option ChatRoom.t)
      (st : ClientState) :
  setRoomAndRef a b (setRoomAndRef c d st) = setRoomAndRef a b st.
Proof. reflexivity. Qed.

(** The updater of the participants reload. *)
Lemma refreshParticipants_unfold (roomId : string)
      (resp : Awaited (list Storage.PresenceRow)) (st : ClientState) :
  refreshParticipants roomId resp st
  = match currentRoom st with
    | Some r =>
        if String.eqb (ChatRoom.id r) roomId
        then let r' := ChatRoom.withParticipants
                         r (loadParticipantsWithPresence resp) in
             setRoomAndRef (Some r') (Some r') st
        else st
    | None => st
    end.
Proof.
  unfold refreshParticipants, updateCurrentRoom.
  destruct (currentRoom st) as [r|]; [|reflexivity].
  now destruct (String.eqb (ChatRoom.id r) roomId).
Qed.

(** The reload and the part of the handler before it do not get in each
    other's way. *)
Lemma onMessageInsert_apply_refresh (roomId : string) (row : MessageRow)
      (resp : Awaited (list Storage.PresenceRow)) (st : ClientState) :
  onMessageInsert_apply roomId row (refreshParticipants roomId resp st)
  = refreshParticipants roomId resp (onMessageInsert_apply roomId row st).
Proof.
  rewrite (refreshParticipants_unfold roomId resp st).
  rewrite (refreshParticipants_unfold
             roomId resp (onMessageInsert_apply roomId row st)).
  rewrite onMessageInsert_apply_room.
  destruct (currentRoom st) as [r|] eqn:Hr; [|reflexivity].
  destruct (String.eqb (ChatRoom.id r) roomId) eqn:Hid;
    [|cbn [andb]; now rewrite Hid].
  cbn zeta. cbn [andb].
  rewrite !onMessageInsert_apply_unfold, eventPrelude_setRoomAndRef.
  set (s2 := ExtraSpec.eventPrelude row st).
  assert (Hcr : currentRoom s2 = Some r).
  { unfold s2. rewrite eventPrelude_room. exact Hr. }
  set (P := loadParticipantsWithPresence resp).
  destruct (existsb (hasId (row_id row)) (ChatRoom.messages r)) eqn:Hex;
    cbn [negb].
  - rewrite Hid.
    rewrite (updateCurrentRoom_none _ s2 r Hcr)
      by (unfold ExtraSpec.appendIfNew; now rewrite Hid, Hex).
    apply (updateCurrentRoom_none _ _ (ChatRoom.withParticipants r P));
      [reflexivity|].
    unfold ExtraSpec.appendIfNew.
    cbn [ChatRoom.id ChatRoom.messages ChatRoom.withParticipants].
    now rewrite Hid, Hex.
  - cbn [ChatRoom.id ChatRoom.withMessages]. rewrite Hid.
    rewrite (updateCurrentRoom_some
               _ s2 r
               (ChatRoom.withMessages
                  r (ChatRoom.messages r ++ [messageOfRow row])) Hcr)
      by (unfold ExtraSpec.appendIfNew; now rewrite Hid, Hex).
    rewrite (updateCurrentRoom_some
               _ (setRoomAndRef (Some (ChatRoom.withParticipants r P))
                                (Some (ChatRoom.withParticipants r P)) s2)
               (ChatRoom.withParticipants r P)
               (ChatRoom.withMessages
                  (ChatRoom.withParticipants r P)
                  (ChatRoom.messages r ++ [messageOfRow row])));
      [|reflexivity|].
    + rewrite !setRoomAndRef_twice. reflexivity.
    + unfold ExtraSpec.appendIfNew.
      cbn [ChatRoom.id ChatRoom.messages ChatRoom.withParticipants].
      now rewrite Hid, Hex.
Qed.

Lemma refreshParticipants_idem (roomId : string)
      (resp : Awaited (list Storage.PresenceRow)) (st : ClientState) :
  refreshParticipants roomId resp (refreshParticipants roomId resp st)
  = refreshParticipants roomId resp st.
Proof.
  rewrite (refreshParticipants_unfold roomId resp st).
  destruct (currentRoom st) as [r|] eqn:Hr.
  - destruct (String.eqb (ChatRoom.id r) roomId) eqn:Hid.
    + cbn zeta. rewrite refreshParticipants_unfold.
      cbn [currentRoom setRoomAndRef ChatRoom.id
           ChatRoom.withParticipants].
      rewrite Hid. reflexivity.
    + rewrite refreshParticipants_unfold. now rewrite Hr, Hid.
  - rewrite refreshParticipants_unfold. now rewrite Hr.
Qed.

Lemma refreshParticipants_ids (roomId : string)
      (resp : Awaited (list Storage.PresenceRow)) (st : ClientState) :
  ExtraSpec.messageIds (refreshParticipants roomId resp st)
  = ExtraSpec.messageIds st.
Proof.
  unfold ExtraSpec.messageIds.
  now rewrite ChatFacts.refreshParticipants_keeps_messages.
Qed.

(** The handler of insert events, with the participants reload that
    ends it. A second delivery of an event does nothing but its reload:
    the messages, the pending ids and the AI flag stay, and the
    participants are those the second reload gives. When both reloads
    answer the same, the second delivery changes nothing in the whole
    state. The handler never shows one id twice, and for the room it was
    registered for the id of the event is shown afterwards. *)
Theorem insert_event_is_idempotent :
  forall (roomId : string) (row : MessageRow)
         (resp resp' : Awaited (list Storage.PresenceRow))
         (st : ClientState),
    onMessageInsert roomId row resp' (onMessageInsert roomId row resp st)
    = refreshParticipants roomId resp' (onMessageInsert roomId row resp st)
    /\ onMessageInsert roomId row resp (onMessageInsert roomId row resp st)
       = onMessageInsert roomId row resp st
    /\ roomMessages (onMessageInsert roomId row resp'
                       (onMessageInsert roomId row resp st))
       = roomMessages (onMessageInsert roomId row resp st)
    /\ (NoDup (ExtraSpec.messageIds st) ->
        NoDup (ExtraSpec.messageIds (onMessageInsert roomId row resp st)))
    /\ (forall r, currentRoom st = Some r -> ChatRoom.id r = roomId ->
                  In (row_id row)
                     (ExtraSpec.messageIds
                        (onMessageInsert roomId row resp st))).
Proof.
  intros roomId row resp resp' st.
  assert (Hsecond :
            forall answer,
              onMessageInsert roomId row answer
                              (onMessageInsert roomId row resp st)
              = refreshParticipants roomId answer
                  (onMessageInsert roomId row resp st)).
  { intros answer. unfold onMessageInsert.
    now rewrite onMessageInsert_apply_refresh, onMessageInsert_apply_idem. }
  split; [apply Hsecond|]. split; [|split; [|split]].
  - rewrite Hsecond. unfold onMessageInsert.
    apply refreshParticipants_idem.
  - rewrite Hsecond.
    apply ChatFacts.refreshParticipants_keeps_messages.
  - intros Hnd. unfold onMessageInsert.
    rewrite refreshParticipants_ids.
    now apply onMessageInsert_apply_NoDup.
  - intros r Hr Hid. unfold onMessageInsert.
    rewrite refreshParticipants_ids.
    now apply (onMessageInsert_apply_shows roomId row st r).
Qed.

Lemma insert_event_is_idempotent_witness :
  let st := joined (roomWith false [planQuestion]) in
  let row := durableRow "m2" "not sure" in
  NoDup (ExtraSpec.messageIds st)
  /\ NoDup (ExtraSpec.messageIds
              (onMessageInsert "room_1" row (refused "permission denied")
                               st))
  /\ ExtraSpec.messageIds
       (onMessageInsert "room_1" row (refused "permission denied")
          (onMessageInsert "room_1" row (refused "permission denied") st))
     = ["m1"; "m2"].
Proof.
  intros st row.
  assert (H : NoDup (ExtraSpec.messageIds st)).
  { repeat constructor. intros []. }
  split; [exact H|]. split; [|reflexivity].
  exact (proj1 (proj2 (proj2 (proj2 (insert_event_is_idempotent
                                       "room_1" row
                                       (refused "permission denied")
                                       (refused "permission denied") st))))
               H).
Defined.

Lemma onMessageInsert_apply_flag (roomId : string) (row : MessageRow)
      (st : ClientState) :
  isAIResponding (onMessageInsert_apply roomId row st)
  = (if row_is_ai row then false else isAIResponding st)
  /\ aiResponseTimeoutRef (onMessageInsert_apply roomId row st)
     = (if row_is_ai row then None else aiResponseTimeoutRef st).
Proof.
  unfold onMessageInsert_apply, updateCurrentRoom.
  change (ChatMessage.isAI (messageOfRow row)) with (row_is_ai row).
  set (st2 := setPending _ _).
  assert (H2 : isAIResponding st2
               = (if row_is_ai row then false else isAIResponding st)
               /\ aiResponseTimeoutRef st2
                  = (if row_is_ai row then None else aiResponseTimeoutRef st)).
  { unfold st2. destruct (row_is_ai row); split; reflexivity. }
  destruct (currentRoom st2) as [r|]; [|exact H2].
  destruct (if String.eqb (ChatRoom.id r) roomId
            then if existsb _ (ChatRoom.messages r) then None else Some _
            else None); exact H2.
Qed.

(** From a send that mentions the AI in an unmuted room to the end of the
    AI-responding indicator: the send sets the flag and arms the 25 s
    safeguard; an insert event written by the AI clears both, an insert
    event written by a user leaves both; the safeguard clears the flag;
    leaving the room clears both. *)
Theorem ai_responding_lifecycle :
  forall (content : string) (st : ClientState) (env : SendEnv)
         (u : AuthUser.t) (room : ChatRoom.t) (row : MessageRow),
    user st = Some u -> currentRoom st = Some room ->
    supabaseConfigured st = true ->
    send_insert env = saved row ->
    isAIMuted st = false -> mentionsAI content = true ->
    let st1 := state (sendMessage content st env) in
    isAIResponding st1 = true
    /\ aiResponseTimeoutRef st1 = Some (Timeout 25000)
    /\ (forall roomId payload,
           row_is_ai payload = true ->
           isAIResponding (onMessageInsert_apply roomId payload st1) = false
           /\ aiResponseTimeoutRef (onMessageInsert_apply roomId payload st1)
              = None)
    /\ (forall roomId payload,
           row_is_ai payload = false ->
           isAIResponding (onMessageInsert_apply roomId payload st1) = true
           /\ aiResponseTimeoutRef (onMessageInsert_apply roomId payload st1)
              = Some (Timeout 25000))
    /\ isAIResponding (aiResponseTimeout_fire st1) = false
    /\ isAIResponding (fst (leaveRoom st1)) = false
    /\ aiResponseTimeoutRef (fst (leaveRoom st1)) = None.
Proof.
  intros content st env u room row Hu Hr Hc Hins Hmuted Hmention st1.
  assert (Hst1 : isAIResponding st1 = true
                 /\ aiResponseTimeoutRef st1 = Some (Timeout 25000)
                 /\ currentRoom st1 <> None).
  { unfold st1, sendMessage.
    rewrite (sendMessage_begin_state content (send_tempId env) (send_now env)
               st u room Hu Hr Hc).
    rewrite Hins.
    erewrite sendMessage_resume_saved_state by (simpl; reflexivity).
    cbn [c_isAIMuted c_content]. rewrite Hmuted, Hmention. simpl.
    repeat split. discriminate. }
  destruct Hst1 as (Hflag & Htimer & Hroom).
  split; [assumption|]. split; [assumption|]. split; [|split].
  - intros roomId payload Hai.
    destruct (onMessageInsert_apply_flag roomId payload st1) as [H1 H2].
    rewrite H1, H2, Hai. split; reflexivity.
  - intros roomId payload Hai.
    destruct (onMessageInsert_apply_flag roomId payload st1) as [H1 H2].
    rewrite H1, H2, Hai. split; assumption.
  - split; [reflexivity|].
    unfold leaveRoom. destruct (currentRoom st1); [|congruence].
    split; reflexivity.
Qed.

Lemma ai_responding_lifecycle_witness :
  let st := joined (roomWith false []) in
  let env := mkSendEnv "temp_1" 0%Z (saved (durableRow "m1" "@AI hello")) in
  isAIMuted st = false /\ mentionsAI "@AI hello" = true
  /\ isAIResponding (state (sendMessage "@AI hello" st env)) = true.
Proof.
  intros st env. split; [reflexivity|]. split; [reflexivity|].
  exact (proj1 (ai_responding_lifecycle
                  "@AI hello" st env ada (roomWith false [])
                  (durableRow "m1" "@AI hello")
                  eq_refl eq_refl eq_refl eq_refl eq_refl eq_refl)).
Defined.

(** Leaving: with no room joined nothing happens; otherwise every
    channel held is removed, and the session is idle, whatever was
    pending or armed; the user and the list of rooms are kept. Leaving
    again does nothing, and a send after leaving is dropped in
    silence. *)
Theorem leaveRoom_makes_idle :
  forall st : ClientState,
    (currentRoom st = None -> leaveRoom st = (st, []))
    /\ (currentRoom st <> None ->
        ExtraSpec.idle (fst (leaveRoom st))
        /\ user (fst (leaveRoom st)) = user st
        /\ rooms (fst (leaveRoom st)) = rooms st
        /\ snd (leaveRoom st)
           = removeIfSet (messagesChannelRef st)
             ++ removeIfSet (participantsChannelRef st)
             ++ removeIfSet (settingsChannelRef st))
    /\ leaveRoom (fst (leaveRoom st)) = (fst (leaveRoom st), [])
    /\ (currentRoom st <> None ->
        forall content env,
          sendMessage content (fst (leaveRoom st)) env
          = mkResult (Returned tt) (fst (leaveRoom st)) [] []).
Proof.
  intros st. unfold leaveRoom.
  destruct (currentRoom st) as [r|] eqn:Hr.
  - split; [discriminate|]. split; [|split].
    + intros _. unfold ExtraSpec.idle. simpl. repeat split.
    + reflexivity.
    + intros _ content env. unfold sendMessage, sendMessage_begin. simpl.
      destruct (user st); reflexivity.
  - split; [reflexivity|]. split; [congruence|]. split.
    + simpl. now rewrite Hr.
    + congruence.
Qed.

Lemma leaveRoom_makes_idle_witness :
  currentRoom (joined (roomWith false [planQuestion])) <> None
  /\ ExtraSpec.idle (fst (leaveRoom (joined (roomWith false [planQuestion])))).
Proof.
  assert (H : currentRoom (joined (roomWith false [planQuestion])) <> None)
    by discriminate.
  split; [exact H|].
  exact (proj1 (proj1 (proj2 (leaveRoom_makes_idle
                                (joined (roomWith false [planQuestion]))))
                      H)).
Defined.

Lemma onSettingsChange_room (roomId : string)
      (resp : Awaited (list SettingsRow)) (st : ClientState)
      (r : ChatRoom.t) :
  currentRoom st = Some r -> ChatRoom.id r = roomId ->
  onSettingsChange roomId resp st
  = setRoomAndRef
      (Some (ChatRoom.withSettings r (loadRoomSettings roomId resp)))
      (Some (ChatRoom.withSettings r (loadRoomSettings roomId resp))) st.
Proof.
  intros Hr Hid. unfold onSettingsChange, updateCurrentRoom.
  rewrite Hr, Hid, String.eqb_refl. reflexivity.
Qed.

(** A settings event replaces the settings by what the reload answers,
    and the next send goes by them: after a reload that says muted a
    mention schedules no AI turn, after one that says unmuted it does.
    A reload that fails puts the default settings in place: the room
    is shown, and treated, as unmuted. Handling the same reload twice
    is handling it once. *)
Theorem settings_event_decides_next_mention :
  forall (st : ClientState) (u : AuthUser.t) (room : ChatRoom.t)
         (content : string) (env : SendEnv) (row : MessageRow),
    user st = Some u -> currentRoom st = Some room ->
    supabaseConfigured st = true ->
    send_insert env = saved row -> mentionsAI content = true ->
    let roomId := ChatRoom.id room in
    (forall muted,
        let st1 := onSettingsChange roomId (ExtraSpec.settingsAnswer muted)
                                    st in
        isAIMuted st1 = muted
        /\ aiTurnTriggered (sendMessage content st1 env) = negb muted
        /\ roomMessages st1 = ChatRoom.messages room)
    /\ (forall e, isAIMuted (onSettingsChange roomId (Threw e) st) = false)
    /\ (forall message,
           isAIMuted (onSettingsChange roomId (refused message) st) = false)
    /\ (forall resp,
           onSettingsChange roomId resp (onSettingsChange roomId resp st)
           = onSettingsChange roomId resp st).
Proof.
  intros st u room content env row Hu Hr Hc Hins Hmention roomId.
  split; [|split; [|split]].
  - intros muted st1.
    assert (Hst1 : st1 = setRoomAndRef
                           (Some (ChatRoom.withSettings room
                                    (loadRoomSettings roomId
                                       (ExtraSpec.settingsAnswer muted))))
                           (Some (ChatRoom.withSettings room
                                    (loadRoomSettings roomId
                                       (ExtraSpec.settingsAnswer muted))))
                           st).
    { unfold st1. now apply onSettingsChange_room. }
    split; [rewrite Hst1; reflexivity|]. split; [|rewrite Hst1; reflexivity].
    unfold sendMessage.
    erewrite sendMessage_begin_state
      by (rewrite Hst1; simpl; eassumption || reflexivity).
    rewrite Hins.
    erewrite sendMessage_resume_saved_state by (simpl; reflexivity).
    cbn [c_isAIMuted c_content]. rewrite Hmention.
    replace (isAIMuted st1) with muted by (rewrite Hst1; reflexivity).
    destruct muted; reflexivity.
  - intros e. rewrite (onSettingsChange_room _ _ _ _ Hr eq_refl). reflexivity.
  - intros message.
    rewrite (onSettingsChange_room _ _ _ _ Hr eq_refl). reflexivity.
  - intros resp. rewrite (onSettingsChange_room _ _ _ _ Hr eq_refl).
    erewrite onSettingsChange_room by (simpl; reflexivity).
    destruct st, room; reflexivity.
Qed.

Lemma settings_event_decides_next_mention_witness :
  let st := joined (roomWith false []) in
  let env := mkSendEnv "temp_1" 0%Z (saved (durableRow "m1" "@AI hello")) in
  mentionsAI "@AI hello" = true
  /\ aiTurnTriggered
       (sendMessage "@AI hello"
          (onSettingsChange "room_1" (ExtraSpec.settingsAnswer true) st) env)
     = false.
Proof.
  intros st env. split; [reflexivity|].
  exact (proj1 (proj2 (proj1 (settings_event_decides_next_mention
                                st ada (roomWith false []) "@AI hello" env
                                (durableRow "m1" "@AI hello")
                                eq_refl eq_refl eq_refl eq_refl eq_refl)
                             true))).
Defined.

Lemma upsertRoom_ids (roomId : string) (room : ChatRoom.t)
      (prevRooms : list ChatRoom.t) :
  ChatRoom.id room = roomId ->
  map ChatRoom.id (upsertRoom roomId room prevRooms)
  = if existsb (fun r => String.eqb (ChatRoom.id r) roomId) prevRooms
    then map ChatRoom.id prevRooms
    else map ChatRoom.id prevRooms ++ [roomId].
Proof.
  intros Hid. unfold upsertRoom.
  destruct (existsb (fun r => String.eqb (ChatRoom.id r) roomId) prevRooms).
  - rewrite map_map. apply map_ext. intros r.
    destruct (String.eqb_spec (ChatRoom.id r) roomId); congruence.
  - rewrite map_app. simpl. now rewrite Hid.
Qed.

Lemma upsertRoom_In (roomId : string) (room : ChatRoom.t)
      (prevRooms : list ChatRoom.t) :
  In room (upsertRoom roomId room prevRooms).
Proof.
  unfold upsertRoom.
  destruct (existsb (fun r => String.eqb (ChatRoom.id r) roomId) prevRooms)
    eqn:He.
  - apply existsb_exists in He as [r [Hin Hr]].
    apply in_map_iff. exists r. rewrite Hr. auto.
  - apply in_or_app. right. now left.
Qed.

(** A join that gets through: the room published is the row of the room
    with whatever the three loaders give -- a loader that fails gives no
    participants, no messages, unmuted settings, and the join still
    succeeds --, the ref holds it, the subscriptions and the presence
    interval are those of the room and no AI safeguard is left armed,
    every channel held before has been removed, and the directory holds
    the room, each id still once. *)
Theorem joinRoom_publishes_the_room :
  forall (roomId : string) (st : ClientState) (env : JoinEnv)
         (u : AuthUser.t) (roomData : RoomRow),
    supabaseConfigured st = true -> user st = Some u ->
    join_rpc env = ExtraSpec.accepted ->
    join_room env = ExtraSpec.found roomData ->
    room_id roomData = roomId ->
    let res := joinRoom roomId st env in
    let room :=
      ChatRoom.mk roomId (room_name roomData)
                  (loadParticipantsWithPresence (join_participants env))
                  (loadRoomMessages (join_messages env))
                  (loadRoomSettings roomId (join_settings env))
                  (dateOf (room_created_at roomData)) in
    outcome res = Returned true
    /\ currentRoom (state res) = Some room
    /\ currentRoomRef (state res) = Some room
    /\ ExtraSpec.subscribedTo roomId (state res)
    /\ aiResponseTimeoutRef (state res) = None
    /\ (forall c, In (RemoveChannel c) (calls res)
                  <-> (messagesChannelRef st = Some c
                       \/ participantsChannelRef st = Some c
                       \/ settingsChannelRef st = Some c))
    /\ In room (rooms (state res))
    /\ (NoDup (ExtraSpec.roomIds st) ->
        NoDup (ExtraSpec.roomIds (state res)))
    /\ ((forall e, join_participants env = Threw e ->
                   ChatRoom.participants room = [])
        /\ (forall e, join_messages env = Threw e ->
                      ChatRoom.messages room = [])
        /\ (forall e, join_settings env = Threw e ->
                      RoomSettings.isAIMuted (ChatRoom.settings room)
                      = false)).
Proof.
  intros roomId st env u roomData Hc Hu Hj Hr Hid res room.
  assert (Hres : res
                 = mkResult (Returned true)
                     (setRooms (upsertRoom roomId room (rooms st))
                        (setRoomAndRef (Some room) (Some room)
                           (fst (fst (setupRealtimeSubscriptions roomId st)))))
                     ([RpcJoinRoomAsParticipant roomId (AuthUser.id u);
                       SelectRoom roomId;
                       RpcGetRoomParticipantsWithPresence roomId;
                       RpcGetRoomSettings roomId; SelectMessages roomId]
                      ++ snd (fst (setupRealtimeSubscriptions roomId st)))
                     (snd (setupRealtimeSubscriptions roomId st))).
  { unfold res, joinRoom. rewrite Hc, Hu, Hj, Hr.
    unfold ExtraSpec.accepted, ExtraSpec.found.
    cbn [negb rpcFailed error data]. rewrite Hid. fold room.
    unfold setupRealtimeSubscriptions. rewrite Hc.
    cbn [negb cleanupSubscriptions]. reflexivity. }
  rewrite Hres. unfold setupRealtimeSubscriptions. rewrite Hc.
  cbn [negb cleanupSubscriptions fst snd outcome state calls].
  split; [reflexivity|]. split; [reflexivity|]. split; [reflexivity|].
  split; [repeat split|]. split; [reflexivity|]. split.
  { intros c. unfold removeIfSet.
    destruct (messagesChannelRef st), (participantsChannelRef st),
      (settingsChannelRef st); simpl;
      intuition (try discriminate; try congruence). }
  split; [apply upsertRoom_In|]. split.
  - unfold ExtraSpec.roomIds.
    cbn [rooms setRooms]. intros Hnd.
    rewrite (upsertRoom_ids roomId room (rooms st) eq_refl).
    destruct (existsb (fun r => String.eqb (ChatRoom.id r) roomId) (rooms st))
      eqn:He; [assumption|].
    apply NoDup_app; [assumption|repeat constructor; intros []|].
    intros x Hx [<-|[]].
    apply in_map_iff in Hx as [r [Hrid Hin]].
    assert (Hex : existsb (fun r0 => String.eqb (ChatRoom.id r0) roomId)
                          (rooms st) = true).
    { apply existsb_exists. exists r. split; [assumption|].
      now apply String.eqb_eq. }
    congruence.
  - unfold room. cbn [ChatRoom.participants ChatRoom.messages
                      ChatRoom.settings].
    repeat split; intros e ->; reflexivity.
Qed.

Lemma joinRoom_publishes_the_room_witness :
  let env := mkJoinEnv ExtraSpec.accepted
               (ExtraSpec.found (mkRoomRow "room_2" "Retro" "u-a" 0%Z))
               (Threw (ErrorObj "offline")) (Threw (ErrorObj "offline"))
               (Threw (ErrorObj "offline")) in
  outcome (joinRoom "room_2" (joined (roomWith true [])) env) = Returned true
  /\ ExtraSpec.subscribedTo "room_2"
       (state (joinRoom "room_2" (joined (roomWith true [])) env)).
Proof.
  intros env.
  destruct (joinRoom_publishes_the_room
              "room_2" (joined (roomWith true [])) env ada
              (mkRoomRow "room_2" "Retro" "u-a" 0%Z)
              eq_refl eq_refl eq_refl eq_refl eq_refl)
    as (H1 & _ & _ & H4 & _).
  split; [exact H1|exact H4].
Defined.



Lemma firstPass_sound (content : string) (l : list ChatMessage.t)
      (m : ChatMessage.t) :
  firstPass content l = Some m ->
  exists skipped rest,
    l = skipped ++ m :: rest
    /\ ChatMessage.isAI m = false
    /\ (mentionsAI content = true
        \/ looksLikeQuestion (ChatMessage.content m) = true)
    /\ Forall (fun x => ChatMessage.isAI x = true
                        \/ (mentionsAI content = false
                            /\ looksLikeQuestion (ChatMessage.content x)
                               = false))
              skipped.
Proof.
  induction l as [|x l IH]; simpl; [discriminate|].
  destruct (ChatMessage.isAI x) eqn:Hx.
  - intros H. destruct (IH H) as (sk & rest & -> & Hm & Hq & Hall).
    exists (x :: sk), rest. repeat split; auto.
  - destruct (mentionsAI content) eqn:Hc.
    + intros H. injection H as <-. exists [], l. repeat split; auto.
    + destruct (looksLikeQuestion (ChatMessage.content x)) eqn:Hq.
      * intros H. injection H as <-. exists [], l. repeat split; auto.
      * intros H. destruct (IH H) as (sk & rest & -> & Hm & Hq' & Hall).
        exists (x :: sk), rest. repeat split; auto.
Qed.

Lemma firstPass_none (content : string) (l : list ChatMessage.t) :
  firstPass content l = None ->
  Forall (fun x => ChatMessage.isAI x = true
                   \/ (mentionsAI content = false
                       /\ looksLikeQuestion (ChatMessage.content x) = false))
         l.
Proof.
  induction l as [|x l IH]; simpl; [constructor|].
  destruct (ChatMessage.isAI x) eqn:Hx.
  - intros H. constructor; auto.
  - destruct (mentionsAI content) eqn:Hc; [discriminate|].
    destruct (looksLikeQuestion (ChatMessage.content x)) eqn:Hq;
      [discriminate|].
    intros H. constructor; auto.
Qed.

(** The reply target, with or without a mention: it is never a message
    of the AI and always one of the messages given; there is none exactly
    when the AI wrote every message. Without a mention it is the most
    recent message that looks like a question, when some message not
    written by the AI does; when none does, it is the most recent message
    not written by the AI. *)
Theorem findReplyTarget_picks_a_user_message :
  forall (content : string) (ms : list ChatMessage.t),
    (forall m, findReplyTarget content ms = Some m ->
               In m ms /\ ChatMessage.isAI m = false)
    /\ (findReplyTarget content ms = None
        <-> Forall (fun x => ChatMessage.isAI x = true) ms)
    /\ (mentionsAI content = false ->
        forall m, findReplyTarget content ms = Some m ->
          (looksLikeQuestion (ChatMessage.content m) = true
           /\ exists older newer,
                ms = older ++ m :: newer
                /\ Forall (fun x => ChatMessage.isAI x = true
                                    \/ looksLikeQuestion
                                         (ChatMessage.content x) = false)
                          newer)
          \/ (mostRecentNonAI ms m
              /\ Forall (fun x => ChatMessage.isAI x = true
                                  \/ looksLikeQuestion
                                       (ChatMessage.content x) = false)
                        ms)).
Proof.
  intros content ms. unfold findReplyTarget.
  destruct (firstPass content (rev ms)) as [t|] eqn:Hfirst.
  - apply firstPass_sound in Hfirst
      as (sk & rest & Hrev & Hai & Hq & Hall).
    assert (Hms : ms = rev rest ++ t :: rev sk).
    { rewrite <- (rev_involutive ms), Hrev, rev_app_distr. simpl.
      now rewrite <- app_assoc. }
    split; [|split].
    + intros m H. injection H as <-. split; [|assumption].
      rewrite Hms. apply in_or_app. right. now left.
    + split; [discriminate|]. intros Hallai.
      rewrite Hms in Hallai. apply Forall_app in Hallai as [_ Hallai].
      inversion Hallai. congruence.
    + intros Hno m H. injection H as <-. left.
      destruct Hq as [Hq|Hq]; [congruence|]. split; [assumption|].
      exists (rev rest), (rev sk). split; [assumption|].
      apply (proj2 (ChatFacts.Forall_rev_iff _ _)).
      eapply Forall_impl; [|exact Hall]. simpl. intros x [H|[_ H]]; auto.
  - pose proof (firstPass_none _ _ Hfirst) as Hall.
    apply (proj1 (ChatFacts.Forall_rev_iff _ _)) in Hall.
    split; [|split].
    + intros m H. apply ChatFacts.secondPass_some in H
        as (sk & rest & Hrev & Hai & _).
      split; [|assumption]. apply in_rev. rewrite Hrev.
      apply in_or_app. right. now left.
    + rewrite ChatFacts.secondPass_none. apply ChatFacts.Forall_rev_iff.
    + intros Hno m H. right. split.
      * apply ChatFacts.secondPass_some in H
          as (sk & rest & Hrev & Hai & Hsk).
        exists (rev rest), (rev sk). repeat split; auto.
        -- rewrite <- (rev_involutive ms), Hrev, rev_app_distr. simpl.
           now rewrite <- app_assoc.
        -- now apply (proj2 (ChatFacts.Forall_rev_iff _ _)).
      * eapply Forall_impl; [|exact Hall]. simpl.
        intros x [Hx|[_ Hx]]; auto.
Qed.

Lemma findReplyTarget_picks_a_user_message_witness :
  mentionsAI "thanks" = false
  /\ findReplyTarget "thanks" [planQuestion; notSure] = Some planQuestion
  /\ looksLikeQuestion (ChatMessage.content planQuestion) = true.
Proof.
  split; [reflexivity|]. split; [reflexivity|].
  destruct (proj2 (proj2 (findReplyTarget_picks_a_user_message
                            "thanks" [planQuestion; notSure]))
                  eq_refl planQuestion eq_refl) as [[H _]|[_ H]].
  - exact H.
  - inversion H as [|x l Hx Hl]. destruct Hx as [Hx|Hx]; discriminate Hx.
Defined.

Lemma take_is_prefix (n : nat) (s : string) :
  exists rest, s = String.append (JS.take n s) rest.
Proof.
  unfold JS.take. revert n. induction s as [|c s IH]; intros [|n]; simpl.
  - now exists EmptyString.
  - now exists EmptyString.
  - now exists (String c s).
  - destruct (IH n) as [rest Hrest]. exists rest. now rewrite <- Hrest.
Qed.

(** The quoted excerpt of a reply: a text of at most 50 characters is
    quoted whole; a longer one is cut to its first 50 characters followed
    by three dots, 53 characters in all. The reply names the author of
    the target, and there is no reply without a target. *)
Theorem excerpt_is_bounded :
  forall content : string,
    (String.length content <= 50 -> excerpt content = content)
    /\ (50 < String.length content ->
        exists cut rest,
          excerpt content = String.append cut "..."
          /\ content = String.append cut rest
          /\ String.length cut = 50
          /\ String.length (excerpt content) = 53)
    /\ String.length (excerpt content) <= 53
    /\ (forall t, exists r,
           replyingToData (Some t) = Some r
           /\ ReplyingTo.userId r = ChatMessage.userId t
           /\ ReplyingTo.userName r = ChatMessage.userName t
           /\ ReplyingTo.content r = excerpt (ChatMessage.content t))
    /\ replyingToData None = None.
Proof.
  intros content. unfold excerpt.
  destruct (Nat.ltb_spec 50 (String.length content)) as [Hlong|Hshort].
  - assert (Hcut : String.length (JS.take 50 content) = 50).
    { unfold JS.take. apply length_prefix. lia. }
    split; [lia|]. split; [|split; [|split]].
    + intros _. destruct (take_is_prefix 50 content) as [rest Hrest].
      exists (JS.take 50 content), rest.
      repeat split; try assumption.
      rewrite length_append, Hcut. reflexivity.
    + rewrite length_append, Hcut. simpl. lia.
    + intros t. eexists. repeat split.
    + reflexivity.
  - split; [reflexivity|]. split; [lia|]. split; [lia|]. split.
    + intros t. eexists. repeat split.
    + reflexivity.
Qed.

Lemma excerpt_is_bounded_witness :
  String.length "not sure" <= 50 /\ excerpt "not sure" = "not sure".
Proof.
  assert (H : String.length "not sure" <= 50) by (simpl; lia).
  split; [exact H|].
  exact (proj1 (excerpt_is_bounded "not sure") H).
Defined.

(** The context handed to the responder: the turns are, in order, those
    of the last ten messages that are not provisional; no provisional
    message is among them; a message of the AI speaks as the assistant
    and any other as a user, each under its author's name. *)
Theorem recentContext_skips_provisional :
  forall ms : list ChatMessage.t,
    let kept := filter (fun m => negb (ExtraSpec.isProvisional m)) ms in
    recentContext ms = map ExtraSpec.turnOf (KlusterAI.slice_last 10 kept)
    /\ (exists dropped,
           kept = dropped ++ KlusterAI.slice_last 10 kept)
    /\ (forall t, In t (recentContext ms) ->
                  exists m, In m ms /\ ExtraSpec.isProvisional m = false
                            /\ t = ExtraSpec.turnOf m)
    /\ (List.length kept <= 10 -> recentContext ms = map ExtraSpec.turnOf kept)
    /\ recentContext (filter ExtraSpec.isProvisional ms) = [].
Proof.
  intros ms kept. split; [reflexivity|]. split; [|split; [|split]].
  - exists (firstn (List.length kept - 10) kept).
    apply ResponderFacts.slice_last_suffix.
  - intros t Ht. unfold recentContext in Ht.
    apply in_map_iff in Ht as [m [<- Hm]].
    unfold KlusterAI.slice_last in Hm.
    assert (Hm' : In m (filter (fun m0 => negb (JS.startsWith
                                                 (ChatMessage.id m0) "temp_"))
                               ms)).
    { erewrite <- firstn_skipn. apply in_or_app. right. exact Hm. }
    apply filter_In in Hm' as [Hin Hp].
    exists m. repeat split; [assumption|].
    now apply negb_true_iff in Hp.
  - intros Hle.
    change (recentContext ms)
      with (map ExtraSpec.turnOf (KlusterAI.slice_last 10 kept)).
    now rewrite (ResponderFacts.slice_last_all 10 kept Hle).
  - assert (H : filter (fun m => negb (JS.startsWith (ChatMessage.id m)
                                                     "temp_"))
                       (filter ExtraSpec.isProvisional ms) = []).
    { induction ms as [|m ms IH]; [reflexivity|]. cbn [filter].
      destruct (ExtraSpec.isProvisional m) eqn:Hp; [|exact IH].
      cbn [filter]. unfold ExtraSpec.isProvisional in Hp. rewrite Hp.
      exact IH. }
    unfold recentContext. rewrite H. reflexivity.
Qed.

Lemma recentContext_skips_provisional_witness :
  List.length (filter (fun m => negb (ExtraSpec.isProvisional m))
                      [planQuestion; said "temp_1" "u-a" "userA" "hm"]) <= 10
  /\ recentContext [planQuestion; said "temp_1" "u-a" "userA" "hm"]
     = [ExtraSpec.turnOf planQuestion].
Proof.
  assert (H : List.length
                (filter (fun m => negb (ExtraSpec.isProvisional m))
                        [planQuestion; said "temp_1" "u-a" "userA" "hm"])
              <= 10) by (vm_compute; lia).
  split; [exact H|].
  exact (proj1 (proj2 (proj2 (proj2 (recentContext_skips_provisional
                   [planQuestion; said "temp_1" "u-a" "userA" "hm"])))) H).
Defined.

Lemma onMessageInsert_apply_ids (roomId : string) (row : MessageRow)
      (st : ClientState) (r : ChatRoom.t) :
  currentRoom st = Some r -> ChatRoom.id r = roomId ->
  (exists r', currentRoom (onMessageInsert_apply roomId row st) = Some r'
              /\ ChatRoom.id r' = roomId)
  /\ (forall x, In x (ExtraSpec.messageIds
                        (onMessageInsert_apply roomId row st))
                <-> In x (ExtraSpec.messageIds st) \/ x = row_id row).
Proof.
  intros Hr Hid. unfold ExtraSpec.messageIds, roomMessages.
  rewrite onMessageInsert_apply_room, Hr, Hid, String.eqb_refl. simpl.
  destruct (existsb (hasId (row_id row)) (ChatRoom.messages r)) eqn:Hex;
    simpl.
  - split; [exists r; auto|]. intros x. split; [auto|].
    intros [H | ->]; [assumption|]. now apply existsb_hasId_In.
  - split; [eexists; split; [reflexivity|assumption]|].
    intros x. rewrite map_app, in_app_iff. simpl. intuition.
Qed.

(** Any run of insert events on the joined room: no id is ever shown
    twice, every id delivered is shown, nothing shown before is lost, and
    nothing else appears. *)
Theorem insert_events_keep_ids_unique :
  forall (roomId : string) (rows : list MessageRow) (st : ClientState)
         (r : ChatRoom.t),
    currentRoom st = Some r -> ChatRoom.id r = roomId ->
    NoDup (ExtraSpec.messageIds st) ->
    let st' := ExtraSpec.applyEvents roomId rows st in
    NoDup (ExtraSpec.messageIds st')
    /\ (forall x, In x (ExtraSpec.messageIds st')
                  <-> In x (ExtraSpec.messageIds st)
                      \/ In x (map row_id rows)).
Proof.
  intros roomId rows. induction rows as [|row rows IH];
    intros st r Hr Hid Hnd; simpl.
  - split; [assumption|]. intros x. tauto.
  - destruct (onMessageInsert_apply_ids roomId row st r Hr Hid)
      as [[r' [Hr' Hid']] Hids].
    destruct (IH (onMessageInsert_apply roomId row st) r' Hr' Hid')
      as [Hnd' Hin'].
    { now apply onMessageInsert_apply_NoDup. }
    split; [exact Hnd'|].
    intros x. unfold ExtraSpec.applyEvents in Hin'. rewrite Hin', Hids.
    intuition.
Qed.

Lemma insert_events_keep_ids_unique_witness :
  NoDup (ExtraSpec.messageIds (joined (roomWith false [planQuestion])))
  /\ NoDup (ExtraSpec.messageIds
              (ExtraSpec.applyEvents "room_1"
                 [durableRow "m2" "a"; durableRow "m1" "b";
                  durableRow "m2" "c"]
                 (joined (roomWith false [planQuestion])))).
Proof.
  assert (H : NoDup (ExtraSpec.messageIds
                       (joined (roomWith false [planQuestion])))).
  { repeat constructor. intros []. }
  split; [exact H|].
  exact (proj1 (insert_events_keep_ids_unique
                  "room_1"
                  [durableRow "m2" "a"; durableRow "m1" "b";
                   durableRow "m2" "c"]
                  (joined (roomWith false [planQuestion]))
                  (roomWith false [planQuestion]) eq_refl eq_refl H)).
Defined.

Lemma generateResponse_returns (race : KlusterAI.RaceOutcome) :
  exists text,
    try_catch (KlusterAI.generateResponse_try race)
              KlusterAI.generateResponse_catch = Returned text.
Proof.
  destruct race as [c|e]; simpl.
  - destruct (KlusterAI.choices c); simpl; eexists; reflexivity.
  - destruct (ResponderFacts.generateResponse_catch_canned e) as [s [Hs _]].
    now exists s.
Qed.

Ltac in_calls :=
  cbn [calls app]; repeat (first [left; reflexivity | right]).

Ltac ai_inserts roomId :=
  let c := fresh "c" in
  let Hin := fresh "Hin" in
  let Hai := fresh "Hai" in
  intros c Hin Hai; cbn [calls app In] in Hin;
  repeat (destruct Hin as [<-|Hin];
          [try discriminate Hai;
           match goal with
           | |- exists text reply,
                  RpcInsertAiMessage ?r ?t = _ \/ _ =>
               exists t, None; left; reflexivity
           | |- exists text reply,
                  RpcInsertAiMessageWithReply ?r ?t ?p = _ \/ _ =>
               exists t, p; right; reflexivity
           end|]);
  destruct Hin.

Ltac no_completion :=
  let c := fresh "c" in
  let Hin := fresh "Hin" in
  intros c Hin; cbn [calls app In] in Hin;
  repeat (destruct Hin as [<-|Hin]; [reflexivity|]);
  destruct Hin.

(** An AI turn, whatever the probe, the model and the storage answer:
    it ends without throwing, it leaves the rooms and their messages
    alone, every request that stores an AI message names the room the
    send was made in, and at least one such request is made, so a mention
    is never left without an answer being sent. When the probe fails no
    completion is requested, the canned notice is stored and the
    AI-responding flag and its safeguard are cleared. When the probe
    passes, the text [generateResponse] returns is stored as a reply to
    the target [findReplyTarget] picks among the messages of the ref. *)
Theorem aiTurn_always_answers :
  forall (cl : SendClosure) (st : ClientState) (aienv : AIEnv),
    let res := aiTurn cl st aienv in
    let roomId := ChatRoom.id (c_room cl) in
    outcome res = Returned tt
    /\ currentRoom (state res) = currentRoom st
    /\ currentRoomRef (state res) = currentRoomRef st
    /\ rooms (state res) = rooms st
    /\ (exists c, In c (calls res) /\ ExtraSpec.isAIInsert c = true)
    /\ (forall c, In c (calls res) -> ExtraSpec.isAIInsert c = true ->
                  exists text reply,
                    c = RpcInsertAiMessage roomId text
                    \/ c = RpcInsertAiMessageWithReply roomId text reply)
    /\ (KlusterAI.testConnection (ai_probe aienv) = false ->
        (forall c, In c (calls res) -> ExtraSpec.isCompletion c = false)
        /\ In (RpcInsertAiMessage roomId unavailableMessage) (calls res)
        /\ isAIResponding (state res) = false
        /\ aiResponseTimeoutRef (state res) = None)
    /\ (KlusterAI.testConnection (ai_probe aienv) = true ->
        exists text,
          snd (KlusterAI.generateResponse (recentContext (refMessages st))
                 (ChatRoom.name (c_room cl)) (ai_race aienv))
          = Returned text
          /\ In (RpcInsertAiMessageWithReply
                   roomId text
                   (replyingToData
                      (findReplyTarget (c_content cl) (refMessages st))))
                (calls res)).
Proof.
  intros cl st aienv res roomId. unfold res, aiTurn, aiTurn_try.
  fold roomId.
  destruct (KlusterAI.testConnection (ai_probe aienv)) eqn:Hp; cbn [negb].
  - unfold KlusterAI.generateResponse. cbn [snd].
    set (req := KlusterAI.buildRequest _ _).
    destruct (generateResponse_returns (ai_race aienv)) as [text Hg].
    rewrite Hg.
    set (reply := replyingToData _).
    assert (Hlast : exists text0,
               Returned text = Returned text0
               /\ In (RpcInsertAiMessageWithReply roomId text0 reply)
                     ([TestConnection; CompletionsCreate req]
                      ++ [RpcInsertAiMessageWithReply roomId text reply])).
    { exists text. split; [reflexivity|]. right. right. left. reflexivity. }
    destruct (ai_insert aienv) as [r|e];
      [destruct (error r);
       [destruct (ai_fallback_insert aienv) as [r2|e2]|]|];
      cbn [outcome state calls];
      (split; [reflexivity|]); (split; [reflexivity|]);
      (split; [reflexivity|]); (split; [reflexivity|]);
      (split; [exists (RpcInsertAiMessageWithReply roomId text reply);
               split; [in_calls|reflexivity]|]);
      (split; [ai_inserts roomId|]);
      (split; [discriminate|]);
      intros _; exists text; (split; [reflexivity|]); in_calls.
  - destruct (ai_fallback_insert aienv) as [r2|e2];
      cbn [outcome state calls];
      (split; [reflexivity|]); (split; [reflexivity|]);
      (split; [reflexivity|]); (split; [reflexivity|]);
      (split; [exists (RpcInsertAiMessage roomId unavailableMessage);
               split; [in_calls|reflexivity]|]);
      (split; [ai_inserts roomId|]);
      (split; [|discriminate]);
      intros _; (split; [no_completion|]);
      (split; [in_calls|]); split; reflexivity.
Qed.

Lemma aiTurn_always_answers_witness :
  let cl := mkClosure ada (roomWith false []) false "@AI hi" "temp_1" in
  let st := setAI true (Some (Timeout 25000)) (joined (roomWith false [])) in
  let env := mkAIEnv (KlusterAI.Rejected (ErrorObj "Connection test timeout"))
                     (aiAnswers "unused")
                     (Returned (mkResponse (Some "ok") None))
                     (Returned (mkResponse (Some "ok") None)) in
  KlusterAI.testConnection (ai_probe env) = false
  /\ isAIResponding st = true
  /\ isAIResponding (state (aiTurn cl st env)) = false.
Proof.
  intros cl st env. split; [reflexivity|]. split; [reflexivity|].
  destruct (aiTurn_always_answers cl st env)
    as (_ & _ & _ & _ & _ & _ & Hfail & _).
  exact (proj1 (proj2 (proj2 (Hfail eq_refl)))).
Defined.

End ChatExtraFacts.

(** ** The chat room component *)

Module ViewFacts.
Import Chat.
Import ChatSpec.
Import ChatRoomView.

Section GroupingFacts.

Variable formatDateLabel : Z -> string.

Lemma pushInto_last (pre : list Item) (a b c : string) (d : bool) (e : Z)
      (f : option ReplyingTo.t) (ms : list ChatMessage.t)
      (m : ChatMessage.t) :
  pushInto (pre ++ [MessageGroup a b c d e f ms]) (List.length pre) m
  = pre ++ [MessageGroup a b c d e f (ms ++ [m])].
Proof.
  induction pre as [|x pre IH]; simpl; [reflexivity|].
  destruct x; now rewrite IH.
Qed.

Lemma flatten_app (a b : list Item) :
  ExtraSpec.flatten (a ++ b) = ExtraSpec.flatten a ++ ExtraSpec.flatten b.
Proof. unfold ExtraSpec.flatten. apply flat_map_app. Qed.

Lemma shouldGroup_spec (index : nat) (p m : ChatMessage.t) :
  shouldGroup index (Some p) m = true ->
  ChatMessage.userId p = ChatMessage.userId m
  /\ ChatMessage.isAI p = ChatMessage.isAI m
  /\ needsTimeLabel index (Some p) m = false.
Proof.
  unfold shouldGroup. rewrite !andb_true_iff.
  intros [[[Hu Ha] _] Hn]. apply String.eqb_eq in Hu.
  apply Bool.eqb_prop in Ha. apply negb_true_iff in Hn. auto.
Qed.

Lemma wellFormed_newGroup (m : ChatMessage.t) :
  ExtraSpec.wellFormed (newGroup m).
Proof.
  simpl. split.
  - exists m, []. repeat split.
  - constructor; [split; reflexivity|constructor].
Qed.

Lemma groupStep_invariant (st : list Item * option nat) (index : nat)
      (seen : list ChatMessage.t) (prev : option ChatMessage.t)
      (m : ChatMessage.t) :
  ExtraSpec.loopInvariant formatDateLabel st seen prev ->
  ExtraSpec.loopInvariant formatDateLabel
    (groupStep formatDateLabel st index prev m) (seen ++ [m]) (Some m).
Proof.
  intros (Hflat & Hwf & Hlab & Hprev).
  destruct prev as [p|].
  - destruct Hprev
      as (pre & a & b & c & d & e & f & ms & first
          & Hst & Hcur & Hpa & Hpd & Hhd).
    destruct st as [groups cur]. simpl in Hst, Hcur, Hflat, Hwf, Hlab.
    subst groups cur. unfold groupStep.
    assert (Hhd' : hd_error (seen ++ [m]) = Some first).
    { destruct seen; [discriminate|exact Hhd]. }
    destruct (needsTimeLabel index (Some p) m) eqn:Hneed.
    + assert (Hsg : shouldGroup index (Some p) m = false).
      { unfold shouldGroup. rewrite Hneed. simpl. apply andb_false_r. }
      rewrite Hsg. simpl andb. cbv iota.
      unfold ExtraSpec.loopInvariant. cbn [fst snd].
      split; [|split; [|split]].
      * rewrite !flatten_app, Hflat. simpl. now rewrite app_nil_r.
      * apply Forall_app. split; [apply Forall_app; split|].
        -- assumption.
        -- repeat constructor.
        -- constructor; [apply wellFormed_newGroup|constructor].
      * apply Forall_app. split; [apply Forall_app; split|].
        -- assumption.
        -- constructor; [|constructor]. intros ts label H.
           injection H as <- <-. reflexivity.
        -- constructor; [|constructor]. intros ts label H. discriminate.
      * exists (pre ++ [MessageGroup a b c d e f ms;
                        TimeLabel (ChatMessage.timestamp m)
                          (formatDateLabel (ChatMessage.timestamp m))]).
        do 7 eexists. exists first. split; [|split; [|split; [|split]]].
        -- simpl. rewrite <- !app_assoc. simpl. reflexivity.
        -- f_equal. simpl. rewrite !length_app. simpl. lia.
        -- reflexivity.
        -- reflexivity.
        -- exact Hhd'.
    + destruct (shouldGroup index (Some p) m
                && isMessageGroupAt
                     (TimeLabel (ChatMessage.timestamp first)
                                (formatDateLabel (ChatMessage.timestamp first))
                      :: pre ++ [MessageGroup a b c d e f ms])
                     (S (List.length pre))) eqn:Hpush.
      * apply andb_true_iff in Hpush as [Hsg _].
        apply shouldGroup_spec in Hsg as (Hu & Ha & _).
        cbn [pushInto]. rewrite pushInto_last.
        unfold ExtraSpec.loopInvariant. cbn [fst snd].
        pose proof (Forall_inv_tail Hwf) as Hwf'.
        apply Forall_app in Hwf' as [Hwfpre Hwfg].
        apply Forall_inv in Hwfg. simpl in Hwfg.
        destruct Hwfg as [Hhead Hall].
        split; [|split; [|split]].
        -- change (TimeLabel (ChatMessage.timestamp first)
                     (formatDateLabel (ChatMessage.timestamp first))
                   :: pre ++ [MessageGroup a b c d e f (ms ++ [m])])
             with ([TimeLabel (ChatMessage.timestamp first)
                      (formatDateLabel (ChatMessage.timestamp first))]
                   ++ pre ++ [MessageGroup a b c d e f (ms ++ [m])]).
           change (TimeLabel (ChatMessage.timestamp first)
                     (formatDateLabel (ChatMessage.timestamp first))
                   :: pre ++ [MessageGroup a b c d e f ms])
             with ([TimeLabel (ChatMessage.timestamp first)
                      (formatDateLabel (ChatMessage.timestamp first))]
                   ++ pre ++ [MessageGroup a b c d e f ms]) in Hflat.
           rewrite !flatten_app in Hflat |- *.
           rewrite <- Hflat. unfold ExtraSpec.flatten. simpl.
           rewrite !app_nil_r. now rewrite app_assoc.
        -- constructor; [exact I|]. apply Forall_app. split; [assumption|].
           constructor; [|constructor]. split.
           ++ destruct Hhead as (fst0 & rest & -> & H1 & H2 & H3 & H4).
              exists fst0, (rest ++ [m]). repeat split; assumption.
           ++ apply Forall_app. split; [assumption|].
              constructor; [|constructor]. split; congruence.
        -- pose proof (Forall_inv Hlab) as Hl0.
           pose proof (Forall_inv_tail Hlab) as Hl'.
           apply Forall_app in Hl' as [Hlpre _].
           constructor; [assumption|]. apply Forall_app.
           split; [assumption|]. constructor; [|constructor].
           intros ts label H. discriminate.
        -- exists pre, a, b, c, d, e, f, (ms ++ [m]), first.
           repeat split; congruence.
      * unfold ExtraSpec.loopInvariant. cbn [fst snd].
        split; [|split; [|split]].
        -- rewrite flatten_app, Hflat. unfold ExtraSpec.flatten. simpl.
           reflexivity.
        -- apply Forall_app. split; [assumption|].
           constructor; [apply wellFormed_newGroup|constructor].
        -- apply Forall_app. split; [assumption|].
           constructor; [|constructor]. intros ts label H. discriminate.
        -- exists (pre ++ [MessageGroup a b c d e f ms]).
           do 7 eexists. exists first. split; [|split; [|split; [|split]]].
           ++ simpl. reflexivity.
           ++ reflexivity.
           ++ reflexivity.
           ++ reflexivity.
           ++ exact Hhd'.
  - destruct Hprev as [-> ->]. unfold groupStep. cbn [needsTimeLabel].
    unfold ExtraSpec.loopInvariant. cbn [fst snd app List.length].
    split; [reflexivity|]. split; [|split].
    + constructor; [exact I|].
      constructor; [apply wellFormed_newGroup|constructor].
    + constructor; [|constructor; [|constructor]].
      * intros ts label H. injection H as <- <-. reflexivity.
      * intros ts label H. discriminate.
    + exists [].
      do 7 eexists. exists m. repeat split.
Qed.

Lemma groupLoop_invariant (ms : list ChatMessage.t) :
  forall (st : list Item * option nat) (index : nat)
         (seen : list ChatMessage.t) (prev : option ChatMessage.t),
    ExtraSpec.loopInvariant formatDateLabel st seen prev ->
    exists prev',
      ExtraSpec.loopInvariant formatDateLabel
        (groupLoop formatDateLabel st index prev ms) (seen ++ ms) prev'.
Proof.
  induction ms as [|m ms IH]; intros st index seen prev Hinv; simpl.
  - exists prev. now rewrite app_nil_r.
  - destruct (IH (groupStep formatDateLabel st index prev m) (S index)
                 (seen ++ [m]) (Some m)) as [prev' H].
    + now apply groupStep_invariant.
    + exists prev'. now rewrite <- app_assoc in H.
Qed.

(** Grouping the messages for display loses none and moves none: read
    in order, the groups give back the list. Every group is a run of
    messages of one author, all written by the AI or none, and is headed
    by its first message. Every time label is the formatted instant it
    carries, and a list that is not empty starts with the time label of
    its first message. *)
Theorem groupMessages_keeps_every_message :
  forall ms : list ChatMessage.t,
    let items := groupMessages formatDateLabel ms in
    ExtraSpec.flatten items = ms
    /\ Forall ExtraSpec.wellFormed items
    /\ (forall ts label, In (TimeLabel ts label) items ->
                         label = formatDateLabel ts)
    /\ (forall first rest,
           ms = first :: rest ->
           exists more,
             items = TimeLabel (ChatMessage.timestamp first)
                               (formatDateLabel (ChatMessage.timestamp first))
                     :: more)
    /\ (ms = [] -> items = []).
Proof.
  intros ms items.
  destruct (groupLoop_invariant ms ([], None) 0 [] None) as [prev' Hinv].
  { unfold ExtraSpec.loopInvariant. simpl. repeat split; constructor. }
  simpl in Hinv. destruct Hinv as (Hflat & Hwf & Hlab & Hprev).
  fold (groupMessages formatDateLabel ms) in Hflat, Hwf, Hlab.
  fold items in Hflat, Hwf, Hlab.
  split; [assumption|]. split; [assumption|]. split; [|split].
  - intros ts label Hin. rewrite Forall_forall in Hlab.
    now apply (Hlab _ Hin).
  - intros first rest ->. destruct prev' as [p|].
    + destruct Hprev as (pre & a & b & c & d & e & f & ms' & first'
                         & Hst & _ & _ & _ & Hhd).
      injection Hhd as <-. eexists. exact Hst.
    + destruct Hprev as [_ H]. discriminate.
  - intros ->. reflexivity.
Qed.

End GroupingFacts.

Lemma groupMessages_keeps_every_message_witness :
  let fmt := fun _ : Z => "Today" in
  let ms := [planQuestion; notSure; helpRequest] in
  ms = planQuestion :: [notSure; helpRequest]
  /\ exists more,
       groupMessages fmt ms
       = TimeLabel (ChatMessage.timestamp planQuestion) "Today" :: more.
Proof.
  intros fmt ms. split; [reflexivity|].
  exact (proj1 (proj2 (proj2 (proj2 (groupMessages_keeps_every_message
                                       fmt ms))))
               planQuestion [notSure; helpRequest] eq_refl).
Defined.

Lemma sendMessage_resume_calls (cl : SendClosure)
      (a : Awaited MessageRow) (st : ClientState) :
  calls (sendMessage_resume cl a st) = [].
Proof.
  unfold sendMessage_resume. destruct a as [r|e]; [|reflexivity].
  destruct (error r); [reflexivity|].
  destruct (negb (c_isAIMuted cl) && mentionsAI (c_content cl)); reflexivity.
Qed.

(** The only request of a send is the insert of the content given. *)
Lemma sendMessage_calls (content : string) (st : ClientState)
      (env : SendEnv) (c : Call) :
  In c (calls (sendMessage content st env)) ->
  exists rid uid un uc, c = InsertMessage rid uid un uc content.
Proof.
  unfold sendMessage, sendMessage_begin.
  destruct (user st) as [u|]; [|intros []].
  destruct (currentRoom st) as [room|]; [|intros []].
  destruct (supabaseConfigured st); [|intros []].
  cbn [negb calls]. rewrite sendMessage_resume_calls.
  intros [<-|[]]. do 4 eexists. reflexivity.
Qed.

(** The state a refused send leaves: the room as it was. *)
Lemma sendMessage_refused_room (content : string) (st : ClientState)
      (env : SendEnv) (u : AuthUser.t) (room : ChatRoom.t)
      (r : Response MessageRow) (e : PostgrestError) :
  user st = Some u -> currentRoom st = Some room ->
  supabaseConfigured st = true ->
  send_insert env = Returned r -> error r = Some e ->
  (forall m, In m (ChatRoom.messages room) ->
             ChatMessage.id m <> send_tempId env) ->
  outcome (sendMessage content st env) = Threw (thrownOf e)
  /\ currentRoom (state (sendMessage content st env)) = Some room.
Proof.
  intros Hu Hr Hc Hins Herr Hfresh. unfold sendMessage.
  rewrite (ChatExtraFacts.sendMessage_begin_state
             content (send_tempId env) (send_now env) st u room Hu Hr Hc).
  unfold sendMessage_resume. rewrite Hins, Herr.
  cbn [outcome state c_tempId]. split; [reflexivity|].
  unfold rollback, updateCurrentRoom.
  cbn [currentRoom setPending setRoomAndRef ChatRoom.messages
       ChatRoom.withMessages].
  rewrite ChatFacts.filter_drops_provisional by reflexivity.
  rewrite (ChatFacts.filter_other_ids _ _ Hfresh).
  destruct room; reflexivity.
Qed.

(** The send button: a draft that trims to nothing sends nothing and
    changes nothing; any other draft is sent trimmed, so no empty message
    is ever inserted. When the send returns the draft is empty; when it
    throws the trimmed text is back in the box, and after a refused
    insert the room is also what it was. Either way the loading flag is
    off and the mention dropdown closed. *)
Theorem handleSendMessage_keeps_the_draft :
  forall (ui : ViewState) (st : ClientState) (env : SendEnv),
    (JS.isEmpty (JS.trim (newMessage ui)) = true ->
     handleSendMessage ui st env = (ui, None))
    /\ (JS.isEmpty (JS.trim (newMessage ui)) = false ->
        let content := JS.trim (newMessage ui) in
        let res := sendMessage content st env in
        let ui' := fst (handleSendMessage ui st env) in
        content <> EmptyString
        /\ snd (handleSendMessage ui st env) = Some res
        /\ isLoading ui' = false
        /\ Mentions.isOpen (mentionState ui') = false
        /\ (outcome res = Returned tt -> newMessage ui' = EmptyString)
        /\ (forall e, outcome res = Threw e -> newMessage ui' = content)
        /\ (forall c, In c (calls res) ->
                      exists rid uid un uc,
                        c = InsertMessage rid uid un uc content)
        /\ (forall u room r e,
               user st = Some u -> currentRoom st = Some room ->
               supabaseConfigured st = true ->
               send_insert env = Returned r -> error r = Some e ->
               (forall m, In m (ChatRoom.messages room) ->
                          ChatMessage.id m <> send_tempId env) ->
               newMessage ui' = content
               /\ currentRoom (state res) = Some room)).
Proof.
  intros ui st env. split.
  - intros Hempty. unfold handleSendMessage. now rewrite Hempty.
  - intros Hempty content res ui'.
    assert (Hsend : handleSendMessage ui st env
                    = (mkView match outcome res with
                              | Returned _ => EmptyString
                              | Threw _ => content
                              end false (cursorPosition ui)
                         (MentionActions.closeMentions (mentionState ui)),
                       Some res)).
    { unfold handleSendMessage. now rewrite Hempty. }
    assert (Hdraft : forall e, outcome res = Threw e ->
                               newMessage ui' = content).
    { intros e He. unfold ui'. rewrite Hsend. cbn [fst newMessage].
      now rewrite He. }
    split; [now apply isEmpty_false_nonempty|].
    split; [now rewrite Hsend|].
    split; [unfold ui'; now rewrite Hsend|].
    split; [unfold ui'; now rewrite Hsend|].
    split; [|split; [exact Hdraft|split]].
    + intros Hret. unfold ui'. rewrite Hsend. cbn [fst newMessage].
      now rewrite Hret.
    + intros c. apply sendMessage_calls.
    + intros u room r e Hu Hr Hc Hins Herr Hfresh.
      destruct (sendMessage_refused_room content st env u room r e
                  Hu Hr Hc Hins Herr Hfresh) as [Hout Hroom].
      split; [|exact Hroom]. now apply (Hdraft (thrownOf e)).
Qed.

Lemma handleSendMessage_keeps_the_draft_witness :
  let ui := mkView "  hello " false 8 Mentions.initialState in
  let st := joined (roomWith false []) in
  let env := mkSendEnv "temp_1" 5%Z (refused "permission denied") in
  JS.isEmpty (JS.trim (newMessage ui)) = false
  /\ newMessage (fst (handleSendMessage ui st env)) = "hello"
  /\ currentRoom (state (sendMessage "hello" st env))
     = Some (roomWith false []).
Proof.
  intros ui st env.
  assert (H : JS.isEmpty (JS.trim (newMessage ui)) = false) by reflexivity.
  split; [exact H|].
  destruct (proj2 (handleSendMessage_keeps_the_draft ui st env) H)
    as (_ & _ & _ & _ & _ & _ & _ & Hrefused).
  apply (Hrefused ada (roomWith false [])
                  (mkResponse None (Some (mkPgError "42501"
                                                    "permission denied")))
                  (mkPgError "42501" "permission denied")
                  eq_refl eq_refl eq_refl eq_refl eq_refl).
  intros m [].
Defined.

End ViewFacts.

(** ** The stored procedures *)

Module ProcedureFacts.
Import Procedures.

Section StatementFacts.

Variable sqlerrm : Violation -> string.

(** A presence update touches the presence table only. *)
Lemma update_user_presence_tables (db db' : Database)
      (u r : string) (b : bool) (now : timestamptz) :
  update_user_presence sqlerrm db u r b now = Returned db' ->
  profiles db' = profiles db /\ rooms db' = rooms db
  /\ room_participants db' = room_participants db
  /\ room_settings db' = room_settings db.
Proof.
  unfold update_user_presence, violates.
  destruct (negb (room_exists db r)); [discriminate|].
  destruct (existsb _ (user_presence db)).
  - intros H. injection H as <-. repeat split.
  - destruct (negb (profile_exists db u)); [discriminate|].
    intros H. injection H as <-. repeat split.
Qed.

(** It succeeds when the user and the room exist. *)
Lemma update_user_presence_returns (db : Database)
      (u r : string) (b : bool) (now : timestamptz) :
  profile_exists db u = true -> room_exists db r = true ->
  exists db', update_user_presence sqlerrm db u r b now = Returned db'.
Proof.
  intros Hp Hr. unfold update_user_presence. rewrite Hr, Hp. cbn [negb].
  destruct (existsb _ (user_presence db)); eexists; reflexivity.
Qed.

Lemma is_participant_row_refl (room user : string) (t : timestamptz) :
  is_participant_row room user (Storage.mkRoomParticipant room user t)
  = true.
Proof.
  unfold is_participant_row. cbn [Storage.rp_room_id Storage.rp_user_id].
  now rewrite !String.eqb_refl.
Qed.

(** What a join does once the user and the room are known to exist. *)
Lemma join_room_as_participant_joined (db : Database)
      (room user : string) (now : timestamptz) :
  profile_exists db user = true -> room_exists db room = true ->
  exists db',
    join_room_as_participant sqlerrm db room user now = Returned (db', true)
    /\ is_participant db' room user = true
    /\ profiles db' = profiles db /\ rooms db' = rooms db
    /\ room_settings db' = room_settings db
    /\ room_participants db'
       = room_participants db
         ++ (if is_participant db room user then []
             else [Storage.mkRoomParticipant room user now]).
Proof.
  intros Hp Hr. unfold join_room_as_participant. rewrite Hp, Hr.
  cbn [negb].
  set (db1 := if is_participant db room user then db
              else withParticipants
                     (room_participants db
                      ++ [Storage.mkRoomParticipant room user now]) db).
  assert (H1 : profiles db1 = profiles db /\ rooms db1 = rooms db
               /\ room_settings db1 = room_settings db
               /\ room_participants db1
                  = room_participants db
                    ++ (if is_participant db room user then []
                        else [Storage.mkRoomParticipant room user now])).
  { unfold db1. destruct (is_participant db room user).
    - rewrite app_nil_r. repeat split.
    - repeat split. }
  destruct H1 as (Hp1 & Hr1 & Hs1 & Hrp1).
  destruct (update_user_presence_returns db1 user room true now)
    as [db2 Hup].
  { unfold profile_exists. rewrite Hp1. exact Hp. }
  { unfold room_exists. rewrite Hr1. exact Hr. }
  rewrite Hup. cbn [bind try_catch].
  destruct (update_user_presence_tables _ _ _ _ _ _ Hup)
    as (Hp2 & Hr2 & Hrp2 & Hs2).
  exists db2. split; [reflexivity|].
  split.
  - unfold is_participant. rewrite Hrp2, Hrp1, existsb_app.
    destruct (is_participant db room user) eqn:Hwas.
    + unfold is_participant in Hwas. now rewrite Hwas.
    + cbn [existsb]. rewrite is_participant_row_refl.
      now rewrite orb_true_r.
  - repeat split; congruence.
Qed.

(** Joining needs a profile and a room, and says which one is missing
    behind the prefix of its handler; with both, it returns true, the
    user is a participant, and the one row it may add is the user's:
    every other participant, every profile, room and setting is as it
    was. *)
Theorem join_room_says_what_is_missing :
  forall (db : Database) (room user : string) (now : timestamptz),
    (profile_exists db user = false ->
     join_room_as_participant sqlerrm db room user now
     = Threw (ErrorObj "Failed to join room: User profile not found"))
    /\ (profile_exists db user = true -> room_exists db room = false ->
        join_room_as_participant sqlerrm db room user now
        = Threw (ErrorObj "Failed to join room: Room not found"))
    /\ (profile_exists db user = true -> room_exists db room = true ->
        exists db',
          join_room_as_participant sqlerrm db room user now
          = Returned (db', true)
          /\ is_participant db' room user = true
          /\ profiles db' = profiles db /\ rooms db' = rooms db
          /\ room_settings db' = room_settings db
          /\ room_participants db'
             = room_participants db
               ++ (if is_participant db room user then []
                   else [Storage.mkRoomParticipant room user now])).
Proof.
  intros db room user now. split; [|split].
  - intros Hp. unfold join_room_as_participant. now rewrite Hp.
  - intros Hp Hr. unfold join_room_as_participant. now rewrite Hp, Hr.
  - apply join_room_as_participant_joined.
Qed.

(** A join that returned found the user and the room. *)
Lemma join_room_as_participant_returned (db db1 : Database)
      (room user : string) (now : timestamptz) (r : bool) :
  join_room_as_participant sqlerrm db room user now = Returned (db1, r) ->
  profile_exists db user = true /\ room_exists db room = true.
Proof.
  unfold join_room_as_participant.
  destruct (profile_exists db user); [|discriminate].
  destruct (room_exists db room); [|discriminate].
  now split.
Qed.

(** Joining a room a second time changes no participant row: the user
    keeps the first row and its [joined_at]; only the presence row is
    touched. *)
Theorem join_room_twice_adds_nothing :
  forall (db db1 : Database) (room user : string) (t1 t2 : timestamptz)
         (r : bool),
    join_room_as_participant sqlerrm db room user t1 = Returned (db1, r) ->
    exists db2,
      join_room_as_participant sqlerrm db1 room user t2
      = Returned (db2, true)
      /\ room_participants db2 = room_participants db1
      /\ profiles db2 = profiles db /\ rooms db2 = rooms db
      /\ room_settings db2 = room_settings db.
Proof.
  intros db db1 room user t1 t2 r Hjoin.
  destruct (join_room_as_participant_returned _ _ _ _ _ _ Hjoin)
    as [Hp Hr].
  destruct (join_room_as_participant_joined db room user t1 Hp Hr)
    as (db1' & Hjoin' & Hin1 & Hp1 & Hr1 & Hs1 & _).
  rewrite Hjoin in Hjoin'. injection Hjoin' as <- _.
  destruct (join_room_as_participant_joined db1 room user t2)
    as (db2 & Hjoin2 & _ & Hp2 & Hr2 & Hs2 & Hrp2).
  { unfold profile_exists. rewrite Hp1. exact Hp. }
  { unfold room_exists. rewrite Hr1. exact Hr. }
  exists db2. split; [exact Hjoin2|].
  rewrite Hin1, app_nil_r in Hrp2.
  repeat split; congruence.
Qed.

(** A user with a presence row keeps its [is_online] and [last_seen]
    through an update, whatever flag the caller passes: the update moves
    the rows of that user to the room and stamps them, and leaves every
    other row alone. *)
Theorem update_user_presence_keeps_a_known_flag :
  forall (db : Database) (user room : string) (b : bool)
         (now : timestamptz) (known : UserPresence),
    room_exists db room = true ->
    In known (user_presence db) -> up_user_id known = user ->
    exists db',
      update_user_presence sqlerrm db user room b now = Returned db'
      /\ update_user_presence sqlerrm db user room (negb b) now
         = Returned db'
      /\ map up_user_id (user_presence db')
         = map up_user_id (user_presence db)
      /\ map up_is_online (user_presence db')
         = map up_is_online (user_presence db)
      /\ map up_last_seen (user_presence db')
         = map up_last_seen (user_presence db)
      /\ (forall up, In up (user_presence db') -> up_user_id up = user ->
                     up_room_id up = Some room
                     /\ up_updated_at up = Some now)
      /\ (forall up, In up (user_presence db') -> up_user_id up <> user ->
                     In up (user_presence db)).
Proof.
  intros db user room b now known Hr Hin Hid.
  assert (Hex : existsb (fun up => String.eqb (up_user_id up) user)
                        (user_presence db) = true).
  { apply existsb_exists. exists known. split; [assumption|].
    now apply String.eqb_eq. }
  unfold update_user_presence. rewrite Hr, Hex. cbn [negb].
  eexists. split; [reflexivity|]. split; [reflexivity|].
  cbn [user_presence withPresence]. rewrite !map_map.
  split; [|split; [|split; [|split]]].
  - apply map_ext. intros up.
    now destruct (String.eqb (up_user_id up) user).
  - apply map_ext. intros up.
    now destruct (String.eqb (up_user_id up) user).
  - apply map_ext. intros up.
    now destruct (String.eqb (up_user_id up) user).
  - intros up Hup Hu. apply in_map_iff in Hup as [x [Hx _]].
    destruct (String.eqb_spec (up_user_id x) user) as [He|Hne].
    + subst up. now split.
    + subst up. contradiction.
  - intros up Hup Hu. apply in_map_iff in Hup as [x [Hx Hxin]].
    destruct (String.eqb_spec (up_user_id x) user) as [He|Hne].
    + subst up. cbn [up_user_id] in Hu. contradiction.
    + now subst up.
Qed.

Lemma has_settings_rows (db : Database) (room : string) :
  has_settings db room
  = match settings_rows db room with [] => false | _ :: _ => true end.
Proof.
  unfold has_settings, settings_rows.
  induction (room_settings db) as [|rs rest IH]; [reflexivity|].
  cbn [existsb filter].
  now destruct (String.eqb (rs_room_id rs) room).
Qed.

Lemma stored_settings_head (db : Database) (room : string)
      (rs : RoomSettings) :
  exists name rest,
    stored_settings db room rs
    = mkSettingsResult room (Some (coalesce_false (rs_is_ai_muted rs)))
                       (rs_ai_muted_by rs) (Some name) (rs_ai_muted_at rs)
      :: rest
    /\ (rs_ai_muted_by rs = None -> name = "Unknown User" /\ rest = []).
Proof.
  unfold stored_settings.
  destruct (filter _ (profiles db)) as [|p ps] eqn:Hf.
  - do 2 eexists. split; [reflexivity|]. now split.
  - do 2 eexists. split; [reflexivity|]. intros Hnone. exfalso.
    assert (Hp : In p (filter (fun p => Storage.optEqb
                                          (rs_ai_muted_by rs)
                                          (Storage.prof_id p))
                              (profiles db)))
      by (rewrite Hf; now left).
    apply filter_In in Hp as [_ Hp]. rewrite Hnone in Hp. discriminate.
Qed.

(** What [get_room_settings] answers for a room with a stored row. *)
Lemma get_room_settings_stored (db : Database) (room : string)
      (rs : RoomSettings) (others : list RoomSettings) :
  settings_rows db room = rs :: others ->
  exists name,
    get_room_settings db room
    = [mkSettingsResult room (Some (coalesce_false (rs_is_ai_muted rs)))
                        (rs_ai_muted_by rs) (Some name)
                        (rs_ai_muted_at rs)]
    /\ (rs_ai_muted_by rs = None -> name = "Unknown User").
Proof.
  intros Hrows. unfold get_room_settings. rewrite Hrows.
  cbn [flat_map].
  destruct (stored_settings_head db room rs) as (name & rest & -> & Hn).
  exists name. split; [reflexivity|]. intros H. now apply Hn.
Qed.

Lemma get_room_settings_default (db : Database) (room : string) :
  settings_rows db room = [] ->
  get_room_settings db room
  = [mkSettingsResult room (Some false) None None None].
Proof.
  intros Hrows. unfold get_room_settings, default_settings.
  now rewrite has_settings_rows, Hrows.
Qed.

(** The settings of a room always come as one row with a flag that is
    not NULL: the stored flag, read as false when it is NULL, or the
    default row, unmuted and without an author, when nothing is stored.
    The client loads that flag and that author. *)
Theorem get_room_settings_returns_one_row :
  forall (db : Database) (room : string),
    exists r,
      get_room_settings db room = [r]
      /\ sr_room_id r = room
      /\ sr_is_ai_muted r
         = Some match settings_rows db room with
                | rs :: _ => coalesce_false (rs_is_ai_muted rs)
                | [] => false
                end
      /\ (settings_rows db room = [] ->
          r = mkSettingsResult room (Some false) None None None)
      /\ Chat.RoomSettings.isAIMuted (ExtraSpec.loadedSettings db room)
         = match settings_rows db room with
           | rs :: _ => coalesce_false (rs_is_ai_muted rs)
           | [] => false
           end
      /\ Chat.RoomSettings.aiMutedBy (ExtraSpec.loadedSettings db room)
         = sr_ai_muted_by r.
Proof.
  intros db room. unfold ExtraSpec.loadedSettings.
  destruct (settings_rows db room) as [|rs others] eqn:Hrows.
  - rewrite (get_room_settings_default db room Hrows).
    eexists. split; [reflexivity|]. repeat split.
  - destruct (get_room_settings_stored db room rs others Hrows)
      as (name & -> & _).
    eexists. split; [reflexivity|]. split; [reflexivity|].
    split; [reflexivity|]. split; [discriminate|]. split; reflexivity.
Qed.

Lemma filter_settings_absent (db : Database) (room : string) :
  (forall rs, In rs (room_settings db) ->
              room_exists db (rs_room_id rs) = true) ->
  room_exists db room = false ->
  settings_rows db room = [].
Proof.
  intros Hfk Hnew. unfold settings_rows.
  destruct (filter _ (room_settings db)) as [|rs rest] eqn:Hf;
    [reflexivity|].
  assert (Hin : In rs (filter (fun rs => String.eqb (rs_room_id rs) room)
                              (room_settings db)))
    by (rewrite Hf; now left).
  apply filter_In in Hin as [Hin He]. apply String.eqb_eq in He.
  specialize (Hfk rs Hin). rewrite He in Hfk. congruence.
Qed.

(** What a creation that returned has done. *)
Lemma create_room_with_participant_returned (db db1 : Database)
      (room name user : string) (now : timestamptz) (r : bool) :
  (forall rs, In rs (room_settings db) ->
              room_exists db (rs_room_id rs) = true) ->
  create_room_with_participant sqlerrm db room name user now
  = Returned (db1, r) ->
  r = true
  /\ profile_exists db user = true /\ room_exists db room = false
  /\ profiles db1 = profiles db
  /\ rooms db1 = rooms db ++ [mkRoom room name (Some user) (Some now)]
  /\ room_participants db1
     = room_participants db ++ [Storage.mkRoomParticipant room user now]
  /\ room_settings db1
     = room_settings db
       ++ [mkRoomSettings room (Some false) None None (Some now)
                          (Some now)].
Proof.
  intros Hfk. unfold create_room_with_participant.
  destruct (profile_exists db user) eqn:Hp; [|discriminate].
  destruct (room_exists db room) eqn:Hr; [discriminate|].
  cbn [negb].
  set (db1' := withRooms _ db).
  destruct (is_participant db1' room user); [discriminate|].
  set (db2 := withParticipants _ db1').
  assert (Hnone : has_settings db2 room = false).
  { rewrite has_settings_rows.
    change (settings_rows db2 room) with (settings_rows db room).
    now rewrite (filter_settings_absent db room Hfk Hr). }
  assert (Hroom2 : room_exists db2 room = true).
  { unfold room_exists, db2, db1'. cbn [rooms withParticipants withRooms].
    rewrite existsb_app. cbn [existsb r_id]. rewrite String.eqb_refl.
    now rewrite orb_true_r. }
  unfold initialize_room_settings. rewrite Hnone, Hroom2.
  cbn [negb bind].
  set (db3 := withSettings _ db2).
  destruct (update_user_presence_returns db3 user room true now)
    as [db4 Hup]; [exact Hp|exact Hroom2|].
  rewrite Hup. cbn [bind try_catch].
  destruct (update_user_presence_tables _ _ _ _ _ _ Hup)
    as (Hp4 & Hr4 & Hrp4 & Hs4).
  intros H. injection H as <- <-.
  repeat split; assumption.
Qed.

(** A room that was created is ready: the creator is its one new
    participant, its settings row is there and unmuted, which is also
    what the client loads, the creator can join it again without a new
    row, and its identifier cannot be used for another room. *)
Theorem create_room_sets_the_room_up :
  forall (db db1 : Database) (room name user : string)
         (now : timestamptz) (r : bool),
    (forall rs, In rs (room_settings db) ->
                room_exists db (rs_room_id rs) = true) ->
    create_room_with_participant sqlerrm db room name user now
    = Returned (db1, r) ->
    r = true
    /\ room_exists db room = false
    /\ rooms db1 = rooms db ++ [mkRoom room name (Some user) (Some now)]
    /\ room_participants db1
       = room_participants db ++ [Storage.mkRoomParticipant room user now]
    /\ settings_rows db1 room
       = [mkRoomSettings room (Some false) None None (Some now) (Some now)]
    /\ get_room_settings db1 room
       = [mkSettingsResult room (Some false) None (Some "Unknown User")
                           None]
    /\ Chat.RoomSettings.isAIMuted (ExtraSpec.loadedSettings db1 room)
       = false
    /\ (forall t, exists db2,
           join_room_as_participant sqlerrm db1 room user t
           = Returned (db2, true)
           /\ room_participants db2 = room_participants db1)
    /\ (forall name' t,
           create_room_with_participant sqlerrm db1 room name' user t
           = Threw (ErrorObj
                      (String.append "Failed to create room: "
                                     (sqlerrm (UniqueViolation "rooms"))))).
Proof.
  intros db db1 room name user now r Hfk Hcreate.
  destruct (create_room_with_participant_returned
              db db1 room name user now r Hfk Hcreate)
    as (-> & Hp & Hr & Hp1 & Hr1 & Hrp1 & Hs1).
  assert (Hrows : settings_rows db1 room
                  = [mkRoomSettings room (Some false) None None
                                    (Some now) (Some now)]).
  { unfold settings_rows. rewrite Hs1, filter_app.
    change (filter (fun rs => String.eqb (rs_room_id rs) room)
                   (room_settings db))
      with (settings_rows db room).
    rewrite (filter_settings_absent db room Hfk Hr).
    cbn [filter rs_room_id app]. now rewrite String.eqb_refl. }
  assert (Hget : get_room_settings db1 room
                 = [mkSettingsResult room (Some false) None
                                     (Some "Unknown User") None]).
  { destruct (get_room_settings_stored db1 room _ _ Hrows)
      as (n & Hget & Hn).
    rewrite Hget. cbn [rs_is_ai_muted rs_ai_muted_by rs_ai_muted_at
                       coalesce_false].
    now rewrite (Hn eq_refl). }
  assert (Hp1' : profile_exists db1 user = true).
  { unfold profile_exists. rewrite Hp1. exact Hp. }
  assert (Hr1' : room_exists db1 room = true).
  { unfold room_exists. rewrite Hr1, existsb_app. cbn [existsb r_id].
    rewrite String.eqb_refl. now rewrite orb_true_r. }
  split; [reflexivity|]. split; [exact Hr|]. split; [exact Hr1|].
  split; [exact Hrp1|]. split; [exact Hrows|]. split; [exact Hget|].
  split; [|split].
  - unfold ExtraSpec.loadedSettings. now rewrite Hget.
  - intros t.
    destruct (join_room_as_participant_joined db1 room user t Hp1' Hr1')
      as (db2 & Hjoin & _ & _ & _ & _ & Hrp2).
    exists db2. split; [exact Hjoin|].
    assert (Hin : is_participant db1 room user = true).
    { unfold is_participant. rewrite Hrp1, existsb_app. cbn [existsb].
      rewrite is_participant_row_refl. now rewrite orb_true_r. }
    rewrite Hin, app_nil_r in Hrp2. exact Hrp2.
  - intros name' t. unfold create_room_with_participant.
    now rewrite Hp1', Hr1'.
Qed.

End StatementFacts.

Lemma join_room_says_what_is_missing_witness :
  join_room_as_participant ExtraSpec.sampleSqlerrm ExtraSpec.emptyLobby
                           "room_2" "u1" 7%Z
  = Threw (ErrorObj "Failed to join room: Room not found").
Proof.
  exact (proj1 (proj2 (join_room_says_what_is_missing
                         ExtraSpec.sampleSqlerrm ExtraSpec.emptyLobby
                         "room_2" "u1" 7%Z))
               eq_refl eq_refl).
Defined.

Lemma join_room_twice_adds_nothing_witness :
  exists db1 db2,
    join_room_as_participant ExtraSpec.sampleSqlerrm ExtraSpec.emptyLobby
                             "room_1" "u1" 7%Z = Returned (db1, true)
    /\ join_room_as_participant ExtraSpec.sampleSqlerrm db1
                                "room_1" "u1" 9%Z = Returned (db2, true)
    /\ room_participants db2
       = [Storage.mkRoomParticipant "room_1" "u1" 7%Z].
Proof.
  destruct (join_room_twice_adds_nothing
              ExtraSpec.sampleSqlerrm ExtraSpec.emptyLobby _
              "room_1" "u1" 7%Z 9%Z true eq_refl)
    as (db2 & Hjoin & Hrp & _).
  eexists. exists db2. split; [reflexivity|]. split; [exact Hjoin|].
  exact Hrp.
Defined.

Lemma update_user_presence_keeps_a_known_flag_witness :
  exists db',
    update_user_presence ExtraSpec.sampleSqlerrm ExtraSpec.adaOffline
                         "u1" "room_1" true 9%Z = Returned db'
    /\ map up_is_online (user_presence db') = [Some false].
Proof.
  destruct (update_user_presence_keeps_a_known_flag
              ExtraSpec.sampleSqlerrm ExtraSpec.adaOffline
              "u1" "room_1" true 9%Z
              (mkUserPresence "u1" (Some false) (Some 5%Z) None (Some 5%Z))
              eq_refl (or_introl eq_refl) eq_refl)
    as (db' & Hup & _ & _ & Hflags & _).
  exists db'. split; [exact Hup|exact Hflags].
Defined.

Lemma get_room_settings_returns_one_row_witness :
  exists r,
    get_room_settings ExtraSpec.emptyLobby "room_1" = [r]
    /\ r = mkSettingsResult "room_1" (Some false) None None None.
Proof.
  destruct (get_room_settings_returns_one_row ExtraSpec.emptyLobby "room_1")
    as (r & Hget & _ & _ & Hdefault & _).
  exists r. split; [exact Hget|]. exact (Hdefault eq_refl).
Defined.

Lemma create_room_sets_the_room_up_witness :
  exists db1,
    create_room_with_participant ExtraSpec.sampleSqlerrm
                                 ExtraSpec.emptyLobby "room_2" "Plans"
                                 "u1" 7%Z = Returned (db1, true)
    /\ get_room_settings db1 "room_2"
       = [mkSettingsResult "room_2" (Some false) None
                           (Some "Unknown User") None].
Proof.
  eexists. split; [reflexivity|].
  refine (proj1 (proj2 (proj2 (proj2 (proj2 (proj2
            (create_room_sets_the_room_up
               ExtraSpec.sampleSqlerrm ExtraSpec.emptyLobby _
               "room_2" "Plans" "u1" 7%Z true _ eq_refl))))))).
  intros rs [].
Defined.

End ProcedureFacts.
